(** * Datadog HCL generator: the transformation engine and its validator

    A shallow embedding of [script.js] (class [DatadogHCLGenerator]): the
    value formatter, the request emitters, the widget and dashboard
    emitters, and the aggregation and syntax pass of the validator,
    followed by the properties proved about them.

    Conventions of the embedding.
    - A JavaScript value is a [value]: the result of [JSON.parse], plus
      [JUndef] and [JFun] for what a property read can return.  Numbers
      are the integers (a [Z], printed in decimal); fractions, NaN and
      the infinities are outside the model.
    - A string is a [string] of code units below 256.
    - An exception is a [Throw]; code that can raise lives in [res].
    - An object lists its own properties in enumeration order. *)

From Stdlib Require Import ZArith List String Ascii Bool Lia Arith.
From Stdlib Require Import Numbers.DecimalString.
Import ListNotations.
Open Scope list_scope.
Open Scope string_scope.

Set Warnings "-register-all".

(** ** Exceptions *)

(** [RangeError] is the engine's answer to a recursion that runs too
    deep; the emitters below are given room for the whole document and
    never raise it. *)
Inductive exn : Type :=
| TypeError
| RangeError
| Error (message : string).

Inductive res (A : Type) : Type :=
| Ok (a : A)
| Throw (e : exn).

Arguments Ok {A} a.
Arguments Throw {A} e.

Definition bind {A B : Type} (m : res A) (k : A -> res B) : res B :=
  match m with
  | Ok a => k a
  | Throw e => Throw e
  end.

Notation "x <- m ;; k" := (bind m (fun x => k))
  (at level 61, m at next level, right associativity).

(** ** Text helpers *)

Definition chr (n : nat) : string := String (ascii_of_nat n) EmptyString.
Definition nl : string := chr 10.
Definition dq : string := chr 34.

Definition Z_to_string (n : Z) : string := NilZero.string_of_int (Z.to_int n).
Definition nat_to_string (n : nat) : string := Z_to_string (Z.of_nat n).

(** [s.replace(/c/g, by)] for a one-character pattern. *)
Fixpoint replaceAll (c : ascii) (by_ : string) (s : string) : string :=
  match s with
  | EmptyString => EmptyString
  | String a rest =>
      if Ascii.eqb a c then by_ ++ replaceAll c by_ rest
      else String a (replaceAll c by_ rest)
  end.

Fixpoint string_forallb (p : ascii -> bool) (s : string) : bool :=
  match s with
  | EmptyString => true
  | String a rest => p a && string_forallb p rest
  end.

Fixpoint string_existsb (p : ascii -> bool) (s : string) : bool :=
  match s with
  | EmptyString => false
  | String a rest => p a || string_existsb p rest
  end.

Fixpoint string_map (f : ascii -> ascii) (s : string) : string :=
  match s with
  | EmptyString => EmptyString
  | String a rest => String (f a) (string_map f rest)
  end.

Definition in_range (lo hi : nat) (a : ascii) : bool :=
  let n := nat_of_ascii a in (lo <=? n)%nat && (n <=? hi)%nat.

Definition is_digit (a : ascii) : bool := in_range 48 57 a.
Definition is_lower (a : ascii) : bool := in_range 97 122 a.
Definition is_upper (a : ascii) : bool := in_range 65 90 a.

(** ** Values *)

Inductive value : Type :=
| JUndef
| JNull
| JBool (b : bool)
| JNum (n : Z)
| JStr (s : string)
| JArr (elems : list value)
| JObj (props : list (string * value))
| JFun (name : string).

Fixpoint lookup (k : string) (props : list (string * value)) : option value :=
  match props with
  | [] => None
  | (k', v) :: rest => if k' =? k then Some v else lookup k rest
  end.

Definition has_own (k : string) (props : list (string * value)) : bool :=
  match lookup k props with Some _ => true | None => false end.

(** Members every value inherits from [Object.prototype]; [__proto__]
    itself is not modelled. *)
Definition object_prototype : list string :=
  [ "constructor"; "hasOwnProperty"; "isPrototypeOf"; "propertyIsEnumerable";
    "toLocaleString"; "toString"; "valueOf"; "__defineGetter__";
    "__defineSetter__"; "__lookupGetter__"; "__lookupSetter__" ].

Definition array_prototype : list string :=
  [ "at"; "concat"; "copyWithin"; "entries"; "every"; "fill"; "filter";
    "find"; "findIndex"; "findLast"; "findLastIndex"; "flat"; "flatMap";
    "forEach"; "includes"; "indexOf"; "join"; "keys"; "lastIndexOf"; "map";
    "pop"; "push"; "reduce"; "reduceRight"; "reverse"; "shift"; "slice";
    "some"; "sort"; "splice"; "toReversed"; "toSorted"; "toSpliced";
    "unshift"; "values"; "with" ].

Definition string_prototype : list string :=
  [ "anchor"; "at"; "big"; "blink"; "bold"; "charAt"; "charCodeAt";
    "codePointAt"; "concat"; "endsWith"; "fixed"; "fontcolor"; "fontsize";
    "includes"; "indexOf"; "isWellFormed"; "italics"; "lastIndexOf"; "link";
    "localeCompare"; "match"; "matchAll"; "normalize"; "padEnd"; "padStart";
    "repeat"; "replace"; "replaceAll"; "search"; "slice"; "small"; "split";
    "startsWith"; "strike"; "sub"; "substr"; "substring"; "sup";
    "toLocaleLowerCase"; "toLocaleUpperCase"; "toLowerCase"; "toUpperCase";
    "toWellFormed"; "trim"; "trimEnd"; "trimLeft"; "trimRight"; "trimStart" ].

Definition number_prototype : list string :=
  [ "toExponential"; "toFixed"; "toPrecision" ].

Definition inherited (names : list string) (k : string) : value :=
  if existsb (String.eqb k) (names ++ object_prototype)%list then JFun k else JUndef.

Fixpoint index_get {A : Type} (k : string) (i : nat) (l : list A) : option A :=
  match l with
  | [] => None
  | x :: rest => if k =? nat_to_string i then Some x else index_get k (S i) rest
  end.

Fixpoint chars (s : string) : list string :=
  match s with
  | EmptyString => []
  | String a rest => String a EmptyString :: chars rest
  end.

(** [o[k]] and [o.k]: reading a property of [undefined] or [null] is a
    TypeError; everything else answers with an own property, an inherited
    method, or [undefined]. *)
Definition get (o : value) (k : string) : res value :=
  match o with
  | JUndef | JNull => Throw TypeError
  | JObj props =>
      Ok (match lookup k props with
          | Some v => v
          | None => inherited [] k
          end)
  | JArr l =>
      Ok (if k =? "length" then JNum (Z.of_nat (List.length l))
          else match index_get k 0 l with
               | Some v => v
               | None => inherited array_prototype k
               end)
  | JStr s =>
      Ok (if k =? "length" then JNum (Z.of_nat (String.length s))
          else match index_get k 0 (chars s) with
               | Some c => JStr c
               | None => inherited string_prototype k
               end)
  | JNum _ => Ok (inherited number_prototype k)
  | JBool _ => Ok (inherited [] k)
  | JFun _ => Ok (inherited [] k)
  end.

(** [o?.k] *)
Definition get_opt (o : value) (k : string) : res value :=
  match o with
  | JUndef | JNull => Ok JUndef
  | _ => get o k
  end.

(** ToBoolean *)
Definition truthy (v : value) : bool :=
  match v with
  | JUndef | JNull => false
  | JBool b => b
  | JNum n => negb (n =? 0)%Z
  | JStr s => negb (s =? "")
  | JArr _ | JObj _ | JFun _ => true
  end.

(** [a || b] and [a && b] on values already evaluated. *)
Definition or_else (a b : value) : value := if truthy a then a else b.
Definition and_then (a b : value) : value := if truthy a then b else a.

Definition typeof (v : value) : string :=
  match v with
  | JUndef => "undefined"
  | JNull => "object"
  | JBool _ => "boolean"
  | JNum _ => "number"
  | JStr _ => "string"
  | JArr _ | JObj _ => "object"
  | JFun _ => "function"
  end.

Definition isArray (v : value) : bool :=
  match v with JArr _ => true | _ => false end.

Definition is_undefined (v : value) : bool :=
  match v with JUndef => true | _ => false end.

(** ToString, as a template literal applies it.  A plain object prints
    as [[object Object]] unless it has an own [toString], which for a
    parsed document is never callable: the conversion then fails. *)
Fixpoint ToString (v : value) : res string :=
  match v with
  | JUndef => Ok "undefined"
  | JNull => Ok "null"
  | JBool true => Ok "true"
  | JBool false => Ok "false"
  | JNum n => Ok (Z_to_string n)
  | JStr s => Ok s
  | JArr l =>
      (fix join (l : list value) : res string :=
         match l with
         | [] => Ok ""
         | x :: rest =>
             s <- match x with
                  | JUndef | JNull => Ok ""
                  | _ => ToString x
                  end ;;
             match rest with
             | [] => Ok s
             | _ :: _ => r <- join rest ;; Ok (s ++ "," ++ r)
             end
         end) l
  | JObj props =>
      if has_own "toString" props then Throw TypeError
      else Ok "[object Object]"
  | JFun name => Ok ("function " ++ name ++ "() { [native code] }")
  end.

(** [v > 0].  A string operand is read as an unsigned decimal integer;
    other numeric spellings count as not-a-number. *)
Definition string_gt_zero (s : string) : bool :=
  negb (s =? "") && string_forallb is_digit s
  && string_existsb (fun a => negb (Ascii.eqb a "0"%char)) s.

Definition gt_zero (v : value) : res bool :=
  match v with
  | JUndef | JNull => Ok false
  | JBool b => Ok b
  | JNum n => Ok (0 <? n)%Z
  | JStr s => Ok (string_gt_zero s)
  | JArr _ | JObj _ | JFun _ => s <- ToString v ;; Ok (string_gt_zero s)
  end.

(** ** Value formatter *)

(** [escapeHCLString(str)] *)
Definition escapeHCLString (str : value) : res string :=
  match str with
  | JStr s =>
      let escaped :=
        replaceAll (ascii_of_nat 9) (chr 92 ++ "t")
          (replaceAll (ascii_of_nat 13) (chr 92 ++ "r")
             (replaceAll (ascii_of_nat 10) (chr 92 ++ "n")
                (replaceAll (ascii_of_nat 34) (chr 92 ++ dq)
                   (replaceAll (ascii_of_nat 92) (chr 92 ++ chr 92) s)))) in
      Ok (dq ++ escaped ++ dq)
  | _ => s <- ToString str ;; Ok (dq ++ s ++ dq)
  end.

(** ** Resource naming *)

(** [String.prototype.toLowerCase] on code units below 256: the letters
    A-Z, and the accented capitals 192-222 except the multiplication
    sign 215, move up by 32. *)
Definition lower_char (a : ascii) : ascii :=
  let n := nat_of_ascii a in
  if is_upper a || (in_range 192 222 a && negb (n =? 215)%nat)
  then ascii_of_nat (n + 32)
  else a.

Definition toLowerCase (s : string) : string := string_map lower_char s.

Definition underscore : ascii := "_"%char.

(** [.replace(/[^a-z0-9_]/g, '_')] and [.replace(/[^a-zA-Z0-9_]/g, '_')] *)
Definition is_lower_name_char (a : ascii) : bool :=
  is_lower a || is_digit a || Ascii.eqb a underscore.

Definition is_name_char (a : ascii) : bool :=
  is_lower a || is_upper a || is_digit a || Ascii.eqb a underscore.

Definition replace_outside (keep : ascii -> bool) (s : string) : string :=
  string_map (fun a => if keep a then a else underscore) s.

(** [.replace(/_+/g, '_')] *)
Fixpoint collapse_underscores (s : string) : string :=
  match s with
  | EmptyString => EmptyString
  | String a rest =>
      if Ascii.eqb a underscore then
        match rest with
        | EmptyString => String a EmptyString
        | String b _ =>
            if Ascii.eqb b underscore then collapse_underscores rest
            else String a (collapse_underscores rest)
        end
      else String a (collapse_underscores rest)
  end.

(** [.replace(/^_|_$/g, '')]: one underscore off the front, then one off
    the end of what is left. *)
Definition strip_leading (s : string) : string :=
  match s with
  | String a rest => if Ascii.eqb a underscore then rest else s
  | EmptyString => s
  end.

Fixpoint strip_trailing (s : string) : string :=
  match s with
  | EmptyString => EmptyString
  | String a EmptyString =>
      if Ascii.eqb a underscore then EmptyString else s
  | String a rest => String a (strip_trailing rest)
  end.

Definition trim_underscores (s : string) : string :=
  strip_trailing (strip_leading s).

(** [e || fallback] on strings *)
Definition nonempty_or (s fallback : string) : string :=
  if s =? "" then fallback else s.

(** [generateResourceName(title, preserveOriginalNamingConvention)].
    The string methods exist on strings only: any other title raises. *)
Definition generateResourceName
    (title : value) (preserveOriginalNamingConvention : bool) : res string :=
  match title with
  | JStr title =>
      if preserveOriginalNamingConvention then
        Ok (nonempty_or
              (substring 0 50
                 (trim_underscores
                    (collapse_underscores
                       (replace_outside is_name_char title))))
              "Imported_Dashboard")
      else
        Ok (nonempty_or
              (substring 0 50
                 (trim_underscores
                    (collapse_underscores
                       (replace_outside is_lower_name_char
                          (toLowerCase title)))))
              "imported_dashboard")
  | _ => Throw TypeError
  end.





(** ** JSON.stringify *)

Definition hex_digit (n : nat) : string :=
  String (ascii_of_nat (if (n <? 10)%nat then 48 + n else 87 + n)) EmptyString.

(** QuoteJSONString, one code unit at a time. *)
Definition quote_json_char (a : ascii) : string :=
  let n := nat_of_ascii a in
  if (n =? 8)%nat then chr 92 ++ "b"
  else if (n =? 9)%nat then chr 92 ++ "t"
  else if (n =? 10)%nat then chr 92 ++ "n"
  else if (n =? 12)%nat then chr 92 ++ "f"
  else if (n =? 13)%nat then chr 92 ++ "r"
  else if (n =? 34)%nat then chr 92 ++ dq
  else if (n =? 92)%nat then chr 92 ++ chr 92
  else if (n <? 32)%nat then
    chr 92 ++ "u00" ++ hex_digit (n / 16) ++ hex_digit (n mod 16)
  else String a EmptyString.

Fixpoint quote_json_body (s : string) : string :=
  match s with
  | EmptyString => EmptyString
  | String a rest => quote_json_char a ++ quote_json_body rest
  end.

Definition QuoteJSONString (s : string) : string :=
  dq ++ quote_json_body s ++ dq.

(** SerializeJSONProperty with indentation unit [gap] at the current
    [indent]; [None] is the [undefined] that JSON.stringify returns for
    [undefined] and for functions. *)
Fixpoint SerializeJSONProperty (gap indent : string) (v : value)
    : option string :=
  match v with
  | JUndef | JFun _ => None
  | JNull => Some "null"
  | JBool true => Some "true"
  | JBool false => Some "false"
  | JNum n => Some (Z_to_string n)
  | JStr s => Some (QuoteJSONString s)
  | JArr l =>
      let stepback := indent in
      let indent := indent ++ gap in
      let partial :=
        (fix items (l : list value) : list string :=
           match l with
           | [] => []
           | x :: rest =>
               match SerializeJSONProperty gap indent x with
               | Some s => s
               | None => "null"
               end :: items rest
           end) l in
      Some (match partial with
            | [] => "[]"
            | _ :: _ =>
                if gap =? "" then "[" ++ String.concat "," partial ++ "]"
                else "[" ++ nl ++ indent
                     ++ String.concat ("," ++ nl ++ indent) partial
                     ++ nl ++ stepback ++ "]"
            end)
  | JObj props =>
      let stepback := indent in
      let indent := indent ++ gap in
      let partial :=
        (fix members (l : list (string * value)) : list string :=
           match l with
           | [] => []
           | (k, x) :: rest =>
               match SerializeJSONProperty gap indent x with
               | Some s =>
                   (QuoteJSONString k ++ ":"
                    ++ (if gap =? "" then "" else " ") ++ s) :: members rest
               | None => members rest
               end
           end) props in
      Some (match partial with
            | [] => "{}"
            | _ :: _ =>
                if gap =? "" then "{" ++ String.concat "," partial ++ "}"
                else "{" ++ nl ++ indent
                     ++ String.concat ("," ++ nl ++ indent) partial
                     ++ nl ++ stepback ++ "}"
            end)
  end.

(** [JSON.stringify(v)] and [JSON.stringify(v, null, 4)] *)
Definition JSON_stringify (v : value) : option string :=
  SerializeJSONProperty "" "" v.

Definition JSON_stringify_4 (v : value) : option string :=
  SerializeJSONProperty "    " "" v.

(** A [JSON.stringify] result spliced into a template literal. *)
Definition spliced (o : option string) : string :=
  match o with Some s => s | None => "undefined" end.



(** [formatPropertyValue(value)] *)
Definition formatPropertyValue (value : value) : res string :=
  if typeof value =? "string" then escapeHCLString value
  else if typeof value =? "boolean" then ToString value
  else if typeof value =? "number" then ToString value
  else if isArray value then Ok (spliced (JSON_stringify value))
  else if (typeof value =? "object")
          && negb (match value with JNull => true | _ => false end)
  then Ok (spliced (JSON_stringify value))
  else s <- ToString value ;; Ok (dq ++ s ++ dq).

(** ** Emission combinators *)

(** The pieces appended to [hcl], in program order; the first one that
    raises aborts the rest. *)
Fixpoint cat (pieces : list (res string)) : res string :=
  match pieces with
  | [] => Ok ""
  | m :: rest => s <- m ;; t <- cat rest ;; Ok (s ++ t)
  end.

Definition lit (s : string) : res string := Ok s.

(** [xs.forEach(x => { hcl += f(x) })]: only an array has a callable
    [forEach]. *)
Fixpoint forEach_list {A : Type} (f : A -> res string) (l : list A)
    : res string :=
  match l with
  | [] => Ok ""
  | x :: rest => s <- f x ;; t <- forEach_list f rest ;; Ok (s ++ t)
  end.

Definition forEach (xs : value) (f : value -> res string) : res string :=
  match xs with
  | JArr l => forEach_list f l
  | _ => Throw TypeError
  end.

(** [if (v) hcl += `label"${v}"\n`] *)
Definition quoted_if_truthy (label : string) (v : value) : res string :=
  if truthy v then s <- ToString v ;; Ok (label ++ dq ++ s ++ dq ++ nl)
  else Ok "".

(** [if (v) hcl += `label${v}\n`] *)
Definition raw_if_truthy (label : string) (v : value) : res string :=
  if truthy v then s <- ToString v ;; Ok (label ++ s ++ nl)
  else Ok "".

(** [if (v !== undefined) hcl += `label${v}\n`] *)
Definition raw_if_defined (label : string) (v : value) : res string :=
  if is_undefined v then Ok ""
  else s <- ToString v ;; Ok (label ++ s ++ nl).

(** [if (v !== undefined) hcl += `label"${v}"\n`] *)
Definition quoted_if_defined (label : string) (v : value) : res string :=
  if is_undefined v then Ok ""
  else s <- ToString v ;; Ok (label ++ dq ++ s ++ dq ++ nl).

(** [if (v) hcl += `label${this.escapeHCLString(v)}\n`] *)
Definition escaped_if_truthy (label : string) (v : value) : res string :=
  if truthy v then s <- escapeHCLString v ;; Ok (label ++ s ++ nl)
  else Ok "".

(** [v === 'text'] *)
Definition strict_eq_string (v : value) (text : string) : bool :=
  match v with JStr s => s =? text | _ => false end.

(** ** Auxiliary sub-blocks of a widget definition *)

(** [generateYAxisConfiguration(yaxis)] *)
Definition generateYAxisConfiguration (yaxis : value) : res string :=
  cat [ lit (nl ++ "      yaxis {" ++ nl);
        (v <- get yaxis "label" ;; escaped_if_truthy "        label        = " v);
        (v <- get yaxis "scale" ;; quoted_if_truthy "        scale        = " v);
        (v <- get yaxis "min" ;; quoted_if_defined "        min          = " v);
        (v <- get yaxis "max" ;; quoted_if_defined "        max          = " v);
        (v <- get yaxis "include_zero" ;;
         raw_if_defined "        include_zero = " v);
        lit ("      }" ++ nl) ].

(** [generateEventsConfiguration(events)] *)
Definition generateEventsConfiguration (events : value) : res string :=
  if isArray events then
    forEach events (fun event =>
      cat [ lit (nl ++ "      event {" ++ nl);
            (v <- get event "q" ;; escaped_if_truthy "        q = " v);
            (v <- get event "tags_execution" ;;
             quoted_if_truthy "        tags_execution = " v);
            lit ("      }" ++ nl) ])
  else Ok "".

(** [generateStyleConfiguration(style)] *)
Definition generateStyleConfiguration (style : value) : res string :=
  cat [ lit (nl ++ "      style {" ++ nl);
        (v <- get style "palette" ;; quoted_if_truthy "        palette = " v);
        (v <- get style "palette_flip" ;;
         raw_if_defined "        palette_flip = " v);
        lit ("      }" ++ nl) ].

(** [generateViewConfiguration(view)] *)
Definition generateViewConfiguration (view : value) : res string :=
  cat [ lit (nl ++ "      view {" ++ nl);
        (v <- get view "focus" ;; quoted_if_truthy "        focus = " v);
        lit ("      }" ++ nl) ].

(** [generateSortConfiguration(sort)] *)
Definition generateSortConfiguration (sort : value) : res string :=
  cat [ lit (nl ++ "      sort {" ++ nl);
        (v <- get sort "column" ;; quoted_if_truthy "        column = " v);
        (v <- get sort "order" ;; quoted_if_truthy "        order = " v);
        lit ("      }" ++ nl) ].

(** ** Request emitter *)

(** [x && x.length > 0], the value of the conjunction. *)
Definition nonempty_length (x : value) : res value :=
  if truthy x then
    len <- get x "length" ;; b <- gt_zero len ;; Ok (JBool b)
  else Ok x.

(** [hasValidRequestContent(request)]: the value of the disjunction,
    which the callers test for truthiness. *)
Definition hasValidRequestContent (request : value) : res value :=
  q <- get request "q" ;;
  if truthy q then Ok q
  else
    queries <- get request "queries" ;;
    has_queries <- nonempty_length queries ;;
    if truthy has_queries then Ok has_queries
    else
      formulas <- get request "formulas" ;;
      nonempty_length formulas.

(** The [conditional_formats] loop, the same text in both emitters. *)
Definition conditional_formats_blocks (request : value) : res string :=
  cfs <- get request "conditional_formats" ;;
  if truthy cfs && isArray cfs then
    cat [ lit nl;
          forEach cfs (fun format =>
            cat [ lit ("        conditional_formats {" ++ nl);
                  (v <- get format "comparator" ;;
                   quoted_if_truthy "          comparator = " v);
                  (v <- get format "hide_value" ;;
                   raw_if_defined "          hide_value = " v);
                  (v <- get format "palette" ;;
                   quoted_if_truthy "          palette    = " v);
                  (v <- get format "value" ;;
                   raw_if_defined "          value      = " v);
                  lit ("        }" ++ nl) ]) ]
  else Ok "".

(** The request [style] block; the two emitters differ in the padding
    of the palette label only. *)
Definition request_style_block (palette_label : string) (request : value)
    : res string :=
  style <- get request "style" ;;
  if truthy style then
    cat [ lit (nl ++ "        style {" ++ nl);
          (v <- get style "palette" ;; quoted_if_truthy palette_label v);
          (v <- get style "line_type" ;;
           quoted_if_truthy "          line_type  = " v);
          (v <- get style "line_width" ;;
           quoted_if_truthy "          line_width = " v);
          lit ("        }" ++ nl) ]
  else Ok "".

(** [generateQueryBlock(query)] *)
Definition generateQueryBlock (query : value) : res string :=
  data_source <- get query "data_source" ;;
  metric <- get query "metric" ;;
  q <- get query "query" ;;
  cat [ lit (nl ++ "        query {" ++ nl);
        (if strict_eq_string data_source "metrics" || truthy metric || truthy q
         then
           cat [ lit (nl ++ "          metric_query {" ++ nl);
                 (v <- get query "aggregator" ;;
                  quoted_if_truthy "            aggregator  = " v);
                 quoted_if_truthy "            data_source = " data_source;
                 (v <- get query "name" ;;
                  quoted_if_truthy "            name        = " v);
                 escaped_if_truthy "            query       = " q;
                 lit ("          }" ++ nl) ]
         else if strict_eq_string data_source "logs" then
           cat [ lit (nl ++ "          log_query {" ++ nl);
                 (v <- get query "name" ;;
                  quoted_if_truthy "            name = " v);
                 quoted_if_truthy "            data_source = " data_source;
                 (search <- get query "search" ;;
                  if truthy search then
                    sq <- get search "query" ;;
                    if truthy sq then
                      e <- escapeHCLString sq ;;
                      Ok ("            search {" ++ nl
                          ++ "              query = " ++ e ++ nl
                          ++ "            }" ++ nl)
                    else Ok ""
                  else Ok "");
                 lit ("          }" ++ nl) ]
         else Ok "");
        lit ("        }" ++ nl) ].

(** One formula of a modern request. *)
Definition formula_block (formula : value) : res string :=
  cat [ lit (nl ++ "        formula {" ++ nl);
        (v <- get formula "alias" ;;
         escaped_if_truthy "          alias              = " v);
        (f <- get formula "formula" ;;
         e <- (if truthy f then Ok f else get formula "formula_expression") ;;
         s <- ToString e ;;
         Ok ("          formula_expression = " ++ dq ++ s ++ dq ++ nl));
        (limit <- get formula "limit" ;;
         if truthy limit then
           cat [ lit (nl ++ "          limit {" ++ nl);
                 (v <- get limit "count" ;;
                  raw_if_truthy "            count = " v);
                 (v <- get limit "order" ;;
                  quoted_if_truthy "            order = " v);
                 lit ("          }" ++ nl) ]
         else Ok "");
        lit ("        }" ++ nl) ].

(** The callback of [generateModernRequests]: the text one request adds. *)
Definition modernRequest (request : value) : res string :=
  valid <- hasValidRequestContent request ;;
  if truthy valid then
    cat [ lit (nl ++ "      request {" ++ nl);
          (v <- get request "display_type" ;;
           quoted_if_truthy "        display_type   = " v);
          (v <- get request "on_right_yaxis" ;;
           raw_if_defined "        on_right_yaxis = " v);
          conditional_formats_blocks request;
          (formulas <- get request "formulas" ;;
           if truthy formulas && isArray formulas
           then forEach formulas formula_block
           else Ok "");
          (queries <- get request "queries" ;;
           if truthy queries && isArray queries
           then forEach queries generateQueryBlock
           else
             q <- get request "q" ;;
             if truthy q then
               aggregator <- get request "aggregator" ;;
               a <- ToString (or_else aggregator (JStr "avg")) ;;
               e <- escapeHCLString q ;;
               Ok (nl ++ "        query {" ++ nl
                   ++ "          metric_query {" ++ nl
                   ++ "            aggregator  = " ++ dq ++ a ++ dq ++ nl
                   ++ "            data_source = " ++ dq ++ "metrics" ++ dq ++ nl
                   ++ "            name        = " ++ dq ++ "query1" ++ dq ++ nl
                   ++ "            query       = " ++ e ++ nl
                   ++ "          }" ++ nl
                   ++ "        }" ++ nl)
             else Ok "");
          request_style_block "          palette = " request;
          lit ("      }" ++ nl) ]
  else Ok "".

(** [generateModernRequests(requests)] *)
Definition generateModernRequests (requests : value) : res string :=
  forEach requests modernRequest.

(** [a && a.k], the value of the conjunction. *)
Definition and_get (a : value) (k : string) : res value :=
  if truthy a then get a k else Ok a.

(** The log-query branch of the legacy downgrade: the value of
    [logQuery] when it is tested. *)
Definition legacyLogQuery (query : value) : res value :=
  compute <- get query "compute" ;;
  aggregation <- and_get compute "aggregation" ;;
  logQuery <-
    (if truthy aggregation then
       a <- ToString aggregation ;;
       metric <- get compute "metric" ;;
       if truthy metric then m <- ToString metric ;; Ok (JStr (a ++ ":" ++ m))
       else Ok (JStr (a ++ ":"))
     else Ok (JStr "")) ;;
  search <- get query "search" ;;
  sq <- and_get search "query" ;;
  if truthy sq && negb (truthy logQuery) then Ok sq
  else if truthy sq then
    l <- ToString logQuery ;; s <- ToString sq ;; Ok (JStr (l ++ " " ++ s))
  else Ok logQuery.

(** The flat-query line of a legacy request. *)
Definition legacyQueryLine (request : value) : res string :=
  q <- get request "q" ;;
  if truthy q then
    e <- escapeHCLString q ;; Ok ("        q          = " ++ e ++ nl)
  else
    queries <- get request "queries" ;;
    if truthy queries && isArray queries then
      query <- get queries "0" ;;
      qq <- and_get query "query" ;;
      if truthy qq then
        e <- escapeHCLString qq ;; Ok ("        q          = " ++ e ++ nl)
      else
        search <- and_get query "search" ;;
        sq <- and_get search "query" ;;
        if truthy sq then
          e <- escapeHCLString sq ;; Ok ("        q          = " ++ e ++ nl)
        else
          if truthy query then
            data_source <- get query "data_source" ;;
            if strict_eq_string data_source "logs" then
              logQuery <- legacyLogQuery query ;;
              escaped_if_truthy "        q          = " logQuery
            else Ok ""
          else Ok ""
    else Ok "".

(** The callback of [generateLegacyRequests]. *)
Definition legacyRequest (request : value) : res string :=
  valid <- hasValidRequestContent request ;;
  if truthy valid then
    cat [ lit (nl ++ "      request {" ++ nl);
          (v <- get request "aggregator" ;;
           quoted_if_truthy "        aggregator = " v);
          legacyQueryLine request;
          (v <- get request "display_type" ;;
           quoted_if_truthy "        display_type   = " v);
          (v <- get request "on_right_yaxis" ;;
           raw_if_defined "        on_right_yaxis = " v);
          conditional_formats_blocks request;
          request_style_block "          palette    = " request;
          lit ("      }" ++ nl) ]
  else Ok "".

(** [generateLegacyRequests(requests)] *)
Definition generateLegacyRequests (requests : value) : res string :=
  forEach requests legacyRequest.



(** ** Widget emitter *)

(** [this.widgetMappings?.widgets?.[widgetType]] *)
Definition registryLookup (widgetMappings widgetType : value) : res value :=
  widgets <- get_opt widgetMappings "widgets" ;;
  match widgets with
  | JUndef | JNull => Ok JUndef
  | _ => key <- ToString widgetType ;; get widgets key
  end.

(** [Object.entries(o)] *)
Fixpoint indexed {A : Type} (i : nat) (l : list A) : list (string * A) :=
  match l with
  | [] => []
  | x :: rest => (nat_to_string i, x) :: indexed (S i) rest
  end.

Definition Object_entries (o : value) : res (list (string * value)) :=
  match o with
  | JUndef | JNull => Throw TypeError
  | JObj props => Ok props
  | JArr l => Ok (indexed 0 l)
  | JStr s => Ok (indexed 0 (map JStr (chars s)))
  | JNum _ | JBool _ | JFun _ => Ok []
  end.

(** [s.replace(/^    /gm, '        ')]: four spaces at the start of a
    line become eight.  [skip] counts the matched spaces still to drop. *)
Definition is_line_terminator (a : ascii) : bool :=
  let n := nat_of_ascii a in (n =? 10)%nat || (n =? 13)%nat.

Fixpoint reindent_from (skip : nat) (at_line_start : bool) (s : string)
    : string :=
  match s with
  | EmptyString => EmptyString
  | String a rest =>
      match skip with
      | S k => reindent_from k false rest
      | O =>
          if at_line_start && prefix "    " s
          then "        " ++ reindent_from 3 false rest
          else String a (reindent_from 0 (is_line_terminator a) rest)
      end
  end.

Definition reindent (s : string) : string := reindent_from 0 true s.

(** [`${layout.k || d}`] *)
Definition layout_dimension (layout : value) (k : string) (d : Z)
    : res string :=
  v <- get layout k ;; ToString (or_else v (JNum d)).

(** [generateNestedWidget(nestedWidget, index)], with the recursive call
    to [generateConfiguredWidget] passed in as [configured]. *)
Definition generateNestedWidget_with
    (configured : value -> value -> value -> res string)
    (widgetMappings nestedWidget : value) : res string :=
  cat [ lit (nl ++ "      widget {" ++ nl);
        (id <- get nestedWidget "id" ;; quoted_if_truthy "        id = " id);
        (layout <- get nestedWidget "layout" ;;
         if truthy layout then
           height <- layout_dimension layout "height" 8 ;;
           width <- layout_dimension layout "width" 12 ;;
           x <- layout_dimension layout "x" 0 ;;
           y <- layout_dimension layout "y" 0 ;;
           Ok ("        widget_layout {" ++ nl
               ++ "          height          = " ++ height ++ nl
               ++ "          is_column_break = false" ++ nl
               ++ "          width           = " ++ width ++ nl
               ++ "          x               = " ++ x ++ nl
               ++ "          y               = " ++ y ++ nl
               ++ "        }" ++ nl ++ nl)
         else Ok "");
        (d <- get nestedWidget "definition" ;;
         let nestedDefinition := or_else d (JObj []) in
         t <- get nestedDefinition "type" ;;
         let nestedType := or_else t (JStr "unknown") in
         widgetConfig <- registryLookup widgetMappings nestedType ;;
         if truthy widgetConfig then
           widgetHCL <- configured widgetConfig nestedDefinition nestedType ;;
           Ok (reindent widgetHCL)
         else
           ty <- ToString nestedType ;;
           cat [ lit ("        # " ++ ty
                      ++ " widget - configuration not yet supported" ++ nl);
                 lit ("        # Please add configuration for " ++ ty
                      ++ " to widget mappings" ++ nl);
                 (title <- get nestedDefinition "title" ;;
                  raw_if_truthy "        # Title: " title) ]);
        lit ("      }" ++ nl) ].

(** The nesting depth of a value: an upper bound on the depth of the
    group widgets inside it. *)
Fixpoint value_depth (v : value) : nat :=
  match v with
  | JArr l =>
      S ((fix deepest (l : list value) : nat :=
            match l with
            | [] => 0
            | x :: rest => Nat.max (value_depth x) (deepest rest)
            end) l)
  | JObj props =>
      S ((fix deepest (l : list (string * value)) : nat :=
            match l with
            | [] => 0
            | (_, x) :: rest => Nat.max (value_depth x) (deepest rest)
            end) props)
  | _ => 0
  end.

(** One common property of a configured widget. *)
Definition commonProperty (definition prop : value) : res string :=
  key <- ToString prop ;;
  v <- get definition key ;;
  if negb (is_undefined v) && negb (strict_eq_string prop "live_span") then
    value <- formatPropertyValue v ;;
    Ok ("      " ++ key ++ " = " ++ value ++ nl)
  else Ok "".

(** One kind-specific property of a configured widget. *)
Definition specificProperty (definition : value) (entry : string * value)
    : res string :=
  let (jsonProp, hclProp) := entry in
  v <- get definition jsonProp ;;
  if negb (is_undefined v) then
    if (jsonProp =? "timeseries_background") && (typeof v =? "object") then
      name <- ToString hclProp ;;
      cat [ lit ("      " ++ name ++ " {" ++ nl);
            (t <- get v "type" ;; quoted_if_truthy "        type = " t);
            lit ("      }" ++ nl) ]
    else
      value <- formatPropertyValue v ;;
      name <- ToString hclProp ;;
      Ok ("      " ++ name ++ " = " ++ value ++ nl)
  else Ok "".

(** [if (features.flag && definition.field) hcl += emit(definition.field)] *)
Definition feature_block (features definition : value) (flag field : string)
    (emit : value -> res string) : res string :=
  f <- get features flag ;;
  if truthy f then
    d <- get definition field ;;
    if truthy d then emit d else Ok ""
  else Ok "".

(** [generateConfiguredWidget(widgetConfig, definition, widgetType)].
    The recursion through nested group widgets is bounded by [depth]:
    each level of nesting uses one unit. *)
Fixpoint generateConfiguredWidget_rec (depth : nat)
    (widgetMappings widgetConfig definition widgetType : value)
    : res string :=
  cat [ (blockName <- get widgetConfig "blockName" ;;
         b <- ToString blockName ;;
         Ok ("    " ++ b ++ " {" ++ nl));
        (v <- get definition "live_span" ;;
         quoted_if_truthy "      live_span   = " v);
        (commonProperties <- get widgetConfig "commonProperties" ;;
         forEach commonProperties (commonProperty definition));
        (specificProperties <- get widgetConfig "specificProperties" ;;
         entries <- Object_entries specificProperties ;;
         forEach_list (specificProperty definition) entries);
        (requestStructure <- get widgetConfig "requestStructure" ;;
         requests <- get definition "requests" ;;
         if strict_eq_string requestStructure "modern" && truthy requests
         then generateModernRequests requests
         else if strict_eq_string requestStructure "legacy" && truthy requests
         then generateLegacyRequests requests
         else Ok "");
        (f <- get widgetConfig "features" ;;
         let features := or_else f (JObj []) in
         cat [ feature_block features definition "supportsYAxis" "yaxis"
                 generateYAxisConfiguration;
               feature_block features definition "supportsEvents" "events"
                 generateEventsConfiguration;
               feature_block features definition "supportsStyle" "style"
                 generateStyleConfiguration;
               feature_block features definition "supportsView" "view"
                 generateViewConfiguration;
               feature_block features definition "supportsSort" "sort"
                 generateSortConfiguration;
               feature_block features definition "hasNestedWidgets" "widgets"
                 (fun widgets =>
                    match depth with
                    | O => forEach widgets (fun _ => Throw RangeError)
                    | S d =>
                        forEach widgets
                          (generateNestedWidget_with
                             (generateConfiguredWidget_rec d widgetMappings)
                             widgetMappings)
                    end) ]);
        lit ("    }" ++ nl) ].

Definition generateConfiguredWidget
    (widgetMappings widgetConfig definition widgetType : value)
    : res string :=
  generateConfiguredWidget_rec (value_depth definition)
    widgetMappings widgetConfig definition widgetType.

(** [generateNestedWidget(nestedWidget, index)] *)
Definition generateNestedWidget (widgetMappings nestedWidget : value)
    : res string :=
  generateNestedWidget_with (generateConfiguredWidget widgetMappings)
    widgetMappings nestedWidget.

(** [generateModernWidgetHCL(widget, widgetType, definition)] *)
Definition generateModernWidgetHCL
    (widgetMappings widget widgetType definition : value) : res string :=
  cat [ lit (nl ++ "  widget {" ++ nl);
        (id <- get widget "id" ;; quoted_if_truthy "    id = " id);
        (layout <- get widget "layout" ;;
         if truthy layout then
           height <- layout_dimension layout "height" 8 ;;
           width <- layout_dimension layout "width" 12 ;;
           x <- layout_dimension layout "x" 0 ;;
           y <- layout_dimension layout "y" 0 ;;
           Ok ("    widget_layout {" ++ nl
               ++ "      height          = " ++ height ++ nl
               ++ "      is_column_break = false" ++ nl
               ++ "      width           = " ++ width ++ nl
               ++ "      x               = " ++ x ++ nl
               ++ "      y               = " ++ y ++ nl
               ++ "    }" ++ nl ++ nl)
         else Ok "");
        (widgetConfig <- registryLookup widgetMappings widgetType ;;
         if truthy widgetConfig then
           generateConfiguredWidget widgetMappings widgetConfig definition
             widgetType
         else
           ty <- ToString widgetType ;;
           cat [ lit ("    # " ++ ty
                      ++ " widget - configuration not yet supported" ++ nl);
                 lit ("    # Please add configuration for " ++ ty
                      ++ " to widget mappings" ++ nl);
                 (title <- get definition "title" ;;
                  raw_if_truthy "    # Title: " title);
                 (requests <- get definition "requests" ;;
                  has_requests <- nonempty_length requests ;;
                  if truthy has_requests then
                    len <- get requests "length" ;;
                    n <- ToString len ;;
                    Ok ("    # Has " ++ n ++ " request(s)" ++ nl)
                  else Ok "");
                 match JSON_stringify_4 definition with
                 | Some json =>
                     Ok ("    # Widget definition: "
                         ++ replaceAll (ascii_of_nat 10) (nl ++ "    # ") json
                         ++ nl)
                 | None => Throw TypeError
                 end ]);
        lit ("  }" ++ nl) ].

(** [generateWidgetHCL(widget, index)] *)
Definition generateWidgetHCL (widgetMappings widget : value) : res string :=
  d <- get widget "definition" ;;
  t <- get_opt d "type" ;;
  let widgetType := or_else t (JStr "unknown") in
  let definition := or_else d (JObj []) in
  generateModernWidgetHCL widgetMappings widget widgetType definition.

(** ** Dashboard emitter *)

(** [o.hasOwnProperty(k)]: the inherited method, unless the document
    itself has a property of that name, which is not callable. *)
Definition hasOwnProperty (o : value) (k : string) : res bool :=
  f <- get o "hasOwnProperty" ;;
  match f with
  | JFun _ =>
      Ok (match o with
          | JObj props => has_own k props
          | JArr l =>
              (k =? "length")
              || match index_get k 0 l with Some _ => true | None => false end
          | JStr s =>
              (k =? "length")
              || match index_get k 0 (chars s) with
                 | Some _ => true
                 | None => false
                 end
          | _ => false
          end)
  | _ => Throw TypeError
  end.

(** One [template_variable] block. *)
Definition templateVariable (variable : value) : res string :=
  cat [ lit ("  template_variable {" ++ nl);
        (av <- get variable "available_values" ;;
         if truthy av && isArray av
         then Ok ("    available_values = " ++ spliced (JSON_stringify av) ++ nl)
         else Ok ("    available_values = []" ++ nl));
        (default <- get variable "default" ;;
         if negb (is_undefined default) then
           let defaultValue :=
             if isArray default then default else JArr [default] in
           Ok ("    defaults         = "
               ++ spliced (JSON_stringify defaultValue) ++ nl)
         else
           defaults <- get variable "defaults" ;;
           if negb (is_undefined defaults)
           then Ok ("    defaults         = "
                    ++ spliced (JSON_stringify defaults) ++ nl)
           else Ok ("    defaults         = []" ++ nl));
        (name <- get variable "name" ;;
         n <- ToString name ;;
         Ok ("    name             = " ++ dq ++ n ++ dq ++ nl));
        (v <- get variable "prefix" ;;
         quoted_if_truthy "    prefix           = " v);
        lit ("  }" ++ nl) ].

(** [generateHCL(dashboardData)], reading the registry
    [this.widgetMappings]. *)
Definition generateHCL (widgetMappings dashboardData : value) : res string :=
  t <- get dashboardData "title" ;;
  title <- escapeHCLString (or_else t (JStr "Imported Dashboard")) ;;
  d <- get dashboardData "description" ;;
  description <- (if truthy d then e <- escapeHCLString d ;; Ok (Some e)
                  else Ok None) ;;
  lt <- get dashboardData "layout_type" ;;
  let layoutType := or_else lt (JStr "ordered") in
  resourceName <-
    generateResourceName (or_else t (JStr "imported_dashboard")) false ;;
  cat [ lit ("resource " ++ dq ++ "datadog_dashboard" ++ dq ++ " "
             ++ dq ++ resourceName ++ dq ++ " {" ++ nl);
        lit ("  title       = " ++ title ++ nl);
        match description with
        | Some e => Ok ("  description = " ++ e ++ nl)
        | None =>
            own <- hasOwnProperty dashboardData "description" ;;
            if own then Ok ("  description = " ++ dq ++ dq ++ nl) else Ok ""
        end;
        (v <- get dashboardData "reflow_type" ;;
         quoted_if_truthy "  reflow_type = " v);
        (l <- ToString layoutType ;;
         Ok ("  layout_type = " ++ dq ++ l ++ dq ++ nl));
        (notify_list <- get dashboardData "notify_list" ;;
         nonempty <- nonempty_length notify_list ;;
         if truthy nonempty
         then Ok ("  notify_list = " ++ spliced (JSON_stringify notify_list) ++ nl)
         else
           own <- hasOwnProperty dashboardData "notify_list" ;;
           if own then Ok ("  notify_list = []" ++ nl) else Ok "");
        (v <- get dashboardData "is_read_only" ;;
         raw_if_defined "  is_read_only = " v);
        (v <- get dashboardData "url" ;; quoted_if_truthy "  url = " v);
        (tags <- get dashboardData "tags" ;;
         nonempty <- nonempty_length tags ;;
         if truthy nonempty
         then Ok ("  tags = " ++ spliced (JSON_stringify tags) ++ nl)
         else Ok "");
        (template_variables <- get dashboardData "template_variables" ;;
         nonempty <- nonempty_length template_variables ;;
         if truthy nonempty
         then cat [ lit nl; forEach template_variables templateVariable ]
         else Ok "");
        (widgets <- get dashboardData "widgets" ;;
         nonempty <- nonempty_length widgets ;;
         if truthy nonempty
         then cat [ lit (nl ++ "  # long queue" ++ nl ++ nl);
                    forEach widgets (generateWidgetHCL widgetMappings) ]
         else Ok (nl ++ "  # No widgets found - add your widget configurations here"
                  ++ nl));
        lit ("}" ++ nl) ].

(** [validateDashboardData(data)]; the warnings go to the console only. *)
Definition validateDashboardData (data : value) : res unit :=
  if negb (truthy data) || negb (typeof data =? "object") then
    Throw (Error "Invalid JSON: Expected an object")
  else
    title <- get data "title" ;;
    id <- get data "id" ;;
    if negb (truthy title) && negb (truthy id) then
      Throw (Error "Dashboard must have either a title or id field")
    else Ok tt.

(** The conversion step of [processInput], from the parsed document to
    the text handed to [displayOutput]: validation first, then emission.
    Whatever is raised is caught by [processInput] and shown as an error
    message in place of any output. *)
Definition convert (widgetMappings dashboardData : value) : res string :=
  _ <- validateDashboardData dashboardData ;;
  generateHCL widgetMappings dashboardData.

(** The built-in registry of [initializeFallbackConfiguration]. *)
Definition str_list (l : list string) : value := JArr (map JStr l).
Definition same_names (l : list string) : value :=
  JObj (map (fun k => (k, JStr k)) l).

Definition fallbackWidgetMappings : value :=
  JObj
    [ ("layout",
       JObj [ ("blockName", JStr "widget_layout");
              ("properties",
               same_names ["x"; "y"; "width"; "height"; "is_column_break"]);
              ("defaults", JObj [("is_column_break", JBool false)]) ]);
      ("widgets",
       JObj
         [ ("timeseries",
            JObj [ ("blockName", JStr "timeseries_definition");
                   ("commonProperties",
                    str_list ["title"; "title_size"; "title_align"; "live_span"]);
                   ("specificProperties",
                    same_names ["show_legend"; "legend_layout";
                                "legend_columns"; "legend_size"]);
                   ("requestStructure", JStr "modern");
                   ("features", JObj [ ("supportsYAxis", JBool true);
                                       ("supportsEvents", JBool true) ]) ]);
           ("query_value",
            JObj [ ("blockName", JStr "query_value_definition");
                   ("commonProperties",
                    str_list ["title"; "title_size"; "title_align"; "live_span"]);
                   ("specificProperties",
                    same_names ["autoscale"; "precision"; "custom_unit";
                                "text_align"]);
                   ("requestStructure", JStr "modern");
                   ("features",
                    JObj [("supportsConditionalFormats", JBool true)]) ]);
           ("note",
            JObj [ ("blockName", JStr "note_definition");
                   ("commonProperties", str_list []);
                   ("specificProperties",
                    same_names ["content"; "background_color"; "font_size";
                                "text_align"; "vertical_align"; "show_tick";
                                "tick_pos"; "tick_edge"; "has_padding"]);
                   ("requestStructure", JStr "none");
                   ("features", JObj []) ]);
           ("group",
            JObj [ ("blockName", JStr "group_definition");
                   ("commonProperties", str_list ["title"; "layout_type"]);
                   ("specificProperties",
                    same_names ["background_color"; "banner_img"; "show_title"]);
                   ("requestStructure", JStr "none");
                   ("features", JObj [("hasNestedWidgets", JBool true)]) ]) ]);
      ("requestStructures",
       JObj
         [ ("legacy",
            JObj [ ("queryProperty", JStr "q");
                   ("supportsFormulas", JBool false);
                   ("supportsConditionalFormats", JBool true) ]);
           ("modern",
            JObj [ ("hasQueryBlock", JBool true);
                   ("supportsFormulas", JBool true);
                   ("supportsConditionalFormats", JBool true);
                   ("queryTypes",
                    JObj [ ("metric_query",
                            JObj [ ("properties",
                                    str_list ["data_source"; "name"; "query";
                                              "aggregator"]);
                                   ("required", str_list ["query"]) ]);
                           ("log_query",
                            JObj [ ("properties",
                                    str_list ["data_source"; "name"; "search";
                                              "indexes"; "group_by"; "compute"]);
                                   ("required", str_list ["search"]) ]) ]) ]) ]);
      ("styles",
       JObj
         [ ("conditional_formats",
            JObj [("properties",
                   str_list ["comparator"; "value"; "palette"; "hide_value"])]);
           ("style",
            JObj [("properties", str_list ["palette"; "line_type"; "line_width"])]);
           ("formula",
            JObj [("properties", str_list ["formula_expression"; "limit"])]) ]) ].

(** The end-to-end scenario: one timeseries widget with a metric query. *)
Definition sampleDashboard : value :=
  JObj [ ("title", JStr "Modern Sample Dashboard");
         ("layout_type", JStr "ordered");
         ("widgets",
          JArr [ JObj [ ("id", JStr "widget-1");
                        ("layout", JObj [ ("x", JNum 0); ("y", JNum 0);
                                          ("width", JNum 12);
                                          ("height", JNum 8) ]);
                        ("definition",
                         JObj [ ("type", JStr "timeseries");
                                ("title", JStr "CPU");
                                ("requests",
                                 JArr [ JObj [ ("queries",
                                                JArr [ JObj [ ("data_source", JStr "metrics");
                                                              ("name", JStr "query1");
                                                              ("query", JStr "avg:system.cpu.user{*}") ] ]) ] ]) ]) ] ]) ].


(** * Validator *)

(** ** Regular expressions

    A backtracking matcher for the constructs the syntax pass uses:
    classes, sequence, ordered alternative, greedy star, end of input.
    [rmatch r s k] tries to match [r] at the front of [s] and hands what
    is left to [k]; alternatives are tried in the engine's order. *)
Inductive re : Type :=
| Eps
| Eol
| Chr (p : ascii -> bool)
| Seq (a b : re)
| Alt (a b : re)
| Star (a : re).

Fixpoint rmatch {A : Type} (r : re) (s : string) (k : string -> option A)
    : option A :=
  match r with
  | Eps => k s
  | Eol => match s with EmptyString => k s | String _ _ => None end
  | Chr p =>
      match s with
      | String a rest => if p a then k rest else None
      | EmptyString => None
      end
  | Seq a b => rmatch a s (fun s' => rmatch b s' k)
  | Alt a b =>
      match rmatch a s k with
      | Some x => Some x
      | None => rmatch b s k
      end
  | Star a =>
      (fix star (fuel : nat) (s : string) : option A :=
         match fuel with
         | O => k s
         | S fuel' =>
             match rmatch a s
                     (fun s' =>
                        if (String.length s' <? String.length s)%nat
                        then star fuel' s' else None) with
             | Some x => Some x
             | None => k s
             end
         end) (String.length s) s
  end.

Definition is_char (c : ascii) (a : ascii) : bool := Ascii.eqb a c.
Definition one_of (cs : string) (a : ascii) : bool :=
  string_existsb (Ascii.eqb a) cs.
Definition none_of (cs : string) (a : ascii) : bool := negb (one_of cs a).

(** [\s] on code units below 256, also what [trim] strips. *)
Definition is_space (a : ascii) : bool :=
  let n := nat_of_ascii a in
  (n =? 9)%nat || (n =? 10)%nat || (n =? 11)%nat || (n =? 12)%nat
  || (n =? 13)%nat || (n =? 32)%nat || (n =? 160)%nat.

Definition is_ident_start (a : ascii) : bool :=
  is_lower a || is_upper a || Ascii.eqb a underscore.

(** [.] *)
Definition is_dot (a : ascii) : bool := negb (is_line_terminator a).

Fixpoint Lit (s : string) : re :=
  match s with
  | EmptyString => Eps
  | String a rest => Seq (Chr (is_char a)) (Lit rest)
  end.

Definition Opt (r : re) : re := Alt r Eps.
Definition Plus (r : re) : re := Seq r (Star r).
Definition ws : re := Star (Chr is_space).
Definition ident : re := Seq (Chr is_ident_start) (Star (Chr is_name_char)).
Definition number : re :=
  Seq (Opt (Lit "-"))
      (Seq (Plus (Chr is_digit))
           (Opt (Seq (Lit ".") (Plus (Chr is_digit))))).

(** [/^r/.test(s)] and [/r/.test(s)] *)
Definition test_at_start (r : re) (s : string) : bool :=
  match rmatch r s (fun _ => Some tt) with Some _ => true | None => false end.

Fixpoint test (r : re) (s : string) : bool :=
  test_at_start r s
  || match s with
     | EmptyString => false
     | String _ rest => test r rest
     end.

(** [s.includes(t)], [s.startsWith(t)], [s.trim()], [s.split('\n')] *)
Definition includes (t s : string) : bool := test (Lit t) s.
Definition startsWith (t s : string) : bool := prefix t s.

Fixpoint trimStart (s : string) : string :=
  match s with
  | String a rest => if is_space a then trimStart rest else s
  | EmptyString => s
  end.

Fixpoint trimEnd (s : string) : string :=
  match s with
  | EmptyString => EmptyString
  | String a rest =>
      match trimEnd rest with
      | EmptyString => if is_space a then EmptyString else String a EmptyString
      | t => String a t
      end
  end.

Definition trim (s : string) : string := trimEnd (trimStart s).

Fixpoint split_lines (s : string) : list string :=
  match s with
  | EmptyString => [EmptyString]
  | String a rest =>
      if (nat_of_ascii a =? 10)%nat then EmptyString :: split_lines rest
      else match split_lines rest with
           | [] => [String a EmptyString]
           | l :: ls => String a l :: ls
           end
  end.




(** ** Findings *)

Inductive severity : Type := error | warning | info.

Record issue : Type := mkIssue {
  issue_severity : severity;
  issue_title : string;
  issue_description : string;
  issue_line : option nat;
  issue_location : string
}.

Definition severity_eqb (a b : severity) : bool :=
  match a, b with
  | error, error | warning, warning | info, info => true
  | _, _ => false
  end.

(** ** Syntax pass *)

(** [this.validationPatterns.validIdentifier] *)
Definition validIdentifier : re := Seq ident Eol.

(** The quote-parity loop: a quote counts unless a backslash precedes it. *)
Fixpoint count_quotes (after_backslash : bool) (line : string) : nat :=
  match line with
  | EmptyString => 0
  | String a rest =>
      (if is_char (ascii_of_nat 34) a && negb after_backslash then 1 else 0)
      + count_quotes (is_char (ascii_of_nat 92) a) rest
  end.

(** The counters of the pass, and the findings pushed so far. *)
Record syntax_state : Type := mkState {
  braceCount : Z;
  bracketCount : Z;
  parenCount : Z;
  issues : list issue
}.

Definition push (i : issue) (st : syntax_state) : syntax_state :=
  mkState (braceCount st) (bracketCount st) (parenCount st)
          (issues st ++ [i])%list.

(** The [switch] over one character. *)
Definition count_char (st : syntax_state) (char : ascii) : syntax_state :=
  if is_char "{" char then
    mkState (braceCount st + 1) (bracketCount st) (parenCount st) (issues st)
  else if is_char "}" char then
    mkState (braceCount st - 1) (bracketCount st) (parenCount st) (issues st)
  else if is_char "[" char then
    mkState (braceCount st) (bracketCount st + 1) (parenCount st) (issues st)
  else if is_char "]" char then
    mkState (braceCount st) (bracketCount st - 1) (parenCount st) (issues st)
  else if is_char "(" char then
    mkState (braceCount st) (bracketCount st) (parenCount st + 1) (issues st)
  else if is_char ")" char then
    mkState (braceCount st) (bracketCount st) (parenCount st - 1) (issues st)
  else st.

Fixpoint count_line (st : syntax_state) (line : string) : syntax_state :=
  match line with
  | EmptyString => st
  | String char rest => count_line (count_char st char) rest
  end.

(** The text a group captured: what lies between two suffixes. *)
Definition captured (from rest : string) : string :=
  substring 0 (String.length from - String.length rest) from.

(** The identifier on the left of an assignment: group 1 of the
    pattern that reads optional blanks, an identifier, optional blanks
    and an equals sign from the start of the line. *)
Definition identifierMatch (line : string) : option string :=
  rmatch ws line (fun s1 =>
    rmatch ident s1 (fun s2 =>
      rmatch (Seq ws (Lit "=")) s2 (fun _ => Some (captured s1 s2)))).

Definition skipPatterns : list (bool * re) :=
  let assign (r : re) := (false, Seq (Lit "=") (Seq ws r)) in
  let closed (r : re) := assign (Seq r (Seq ws Eol)) in
  [ assign (Lit "[");
    assign (Lit "{");
    assign (Lit "${");
    assign (Lit "var.");
    assign (Lit "local.");
    assign (Lit "data.");
    assign (Lit "resource.");
    assign (Lit "module.");
    closed (Lit "true");
    closed (Lit "false");
    closed (Lit "null");
    closed number;
    closed (Seq (Chr (is_char (ascii_of_nat 34)))
                (Seq (Star (Chr (fun a => negb (is_char (ascii_of_nat 34) a))))
                     (Chr (is_char (ascii_of_nat 34)))));
    (true, Seq ws (Lit "#"));
    (true, Seq ws (Lit "//")) ].

(** A pattern with its anchoring: [true] for a leading [^]. *)
Definition pattern_test (p : bool * re) (s : string) : bool :=
  let (anchored, r) := p in
  if anchored then test_at_start r s else test r s.

(** The value on the right of an assignment: group 1 of the pattern
    that reads an equals sign, optional blanks, then a first character
    that is no quote, blank, opening bracket, opening brace or dollar,
    any run without comma or closing bracket or brace, and a last
    character that is none of these and no blank; taken at the leftmost
    position where the whole pattern matches. *)
Definition value_first (a : ascii) : bool :=
  negb (is_char (ascii_of_nat 34) a || is_char (ascii_of_nat 39) a
        || is_space a || one_of "[{$" a).
Definition value_middle (a : ascii) : bool := none_of ",]}" a.
Definition value_last (a : ascii) : bool := none_of ",]}" a && negb (is_space a).

Definition assignment_here (s : string) : option string :=
  rmatch (Seq (Lit "=") ws) s (fun s1 =>
    rmatch (Seq (Chr value_first) (Seq (Star (Chr value_middle)) (Chr value_last)))
      s1 (fun s2 => Some (captured s1 s2))).

Fixpoint assignmentMatch (line : string) : option string :=
  match assignment_here line with
  | Some v => Some v
  | None =>
      match line with
      | EmptyString => None
      | String _ rest => assignmentMatch rest
      end
  end.

Definition validUnquotedPatterns : list re :=
  let whole (r : re) := Seq r Eol in
  let dot := Lit "." in
  let any := Star (Chr is_dot) in
  [ whole number;
    whole (Alt (Lit "true") (Lit "false"));
    whole (Lit "null");
    whole ident;
    whole (Seq (Lit "[") (Seq any (Lit "]")));
    whole (Seq (Lit "{") (Seq any (Lit "}")));
    whole (Seq (Lit "${") (Seq any (Lit "}")));
    whole (Seq ident (Seq dot ident));
    whole (Seq (Lit "var.") ident);
    whole (Seq (Lit "local.") ident);
    whole (Seq (Lit "data.") (Seq ident (Seq dot ident)));
    whole (Seq (Lit "module.") (Seq ident (Seq dot ident))) ].

Definition line_location (lineIndex : nat) : string :=
  "Line " ++ nat_to_string (lineIndex + 1).

(** The callback of [lines.forEach] in [validateBasicSyntax]. *)
Definition syntax_line (st : syntax_state) (lineIndex : nat) (line : string)
    : syntax_state :=
  let trimmedLine := trim line in
  if (trimmedLine =? "") || startsWith "#" trimmedLine
     || startsWith "//" trimmedLine
  then st
  else
    let quoteCount := count_quotes false line in
    let st :=
      if negb (quoteCount mod 2 =? 0)%nat then
        push (mkIssue error "Unclosed string literal"
                "String literal is not properly closed with matching quotes."
                (Some (lineIndex + 1)) (line_location lineIndex)) st
      else st in
    let st := count_line st line in
    let st :=
      match identifierMatch line with
      | Some identifier =>
          if negb (test_at_start validIdentifier identifier) then
            push (mkIssue error "Invalid identifier"
                    ("Identifier " ++ dq ++ identifier ++ dq
                     ++ " contains invalid characters. Identifiers must start with a letter or underscore and contain only letters, numbers, and underscores.")
                    (Some (lineIndex + 1)) (line_location lineIndex)) st
          else st
      | None => st
      end in
    if includes "=" line && negb (includes "==" line)
       && negb (includes "!=" line) && negb (includes "<=" line)
       && negb (includes ">=" line)
    then
      let shouldSkip := existsb (fun p => pattern_test p line) skipPatterns in
      if negb shouldSkip then
        match assignmentMatch line with
        | Some v =>
            let value := trim v in
            let isValidUnquoted :=
              existsb (fun r => test_at_start r value) validUnquotedPatterns in
            if negb isValidUnquoted && (0 <? String.length value)%nat then
              push (mkIssue warning "Potentially unquoted string"
                      ("Value " ++ dq ++ value ++ dq
                       ++ " might need to be quoted if it's a string literal. If this is intentional (e.g., a reference or expression), you can ignore this warning.")
                      (Some (lineIndex + 1)) (line_location lineIndex)) st
            else st
        | None => st
        end
      else st
    else st.

Fixpoint syntax_lines (st : syntax_state) (lineIndex : nat)
    (lines : list string) : syntax_state :=
  match lines with
  | [] => st
  | line :: rest => syntax_lines (syntax_line st lineIndex line) (S lineIndex) rest
  end.

(** The closing checks: one finding per counter that is not zero. *)
Definition unmatched (count : Z) (what : string) : list issue :=
  if negb (count =? 0)%Z then
    [ mkIssue error ("Unmatched " ++ what)
        ("Found " ++ Z_to_string (Z.abs count) ++ " unmatched "
         ++ (if (0 <? count)%Z then "opening" else "closing") ++ " " ++ what ++ ".")
        None "Overall structure" ]
  else [].

(** [validateBasicSyntax(lines, issues)]: the findings array after the
    pass. *)
Definition validateBasicSyntax (lines : list string) (found : list issue)
    : list issue :=
  let st := syntax_lines (mkState 0 0 0 found) 0 lines in
  (issues st ++ unmatched (braceCount st) "braces"
   ++ unmatched (bracketCount st) "brackets"
   ++ unmatched (parenCount st) "parentheses")%list.


(** ** The validation run *)

Record summary : Type := mkSummary {
  errors : nat;
  warnings : nat;
  infos : nat;
  total : nat
}.

Record validation_result : Type := mkResult {
  isValid : bool;
  result_issues : list issue;
  result_summary : summary
}.

Definition with_severity (s : severity) (found : list issue) : list issue :=
  filter (fun i => severity_eqb (issue_severity i) s) found.

Section Validation.

(** The structural, domain and style passes read the text and push
    findings; they are taken as they come: each answers with the
    findings it pushes, in order. *)
Variables validateTerraformStructure validateDatadogProvider
          validateBestPractices : string -> list issue.

(** [performHCLValidation(hclContent)] *)
Definition performHCLValidation (hclContent : string) : validation_result :=
  let found := [] in
  let lines := split_lines hclContent in
  let found := validateBasicSyntax lines found in
  let found := (found ++ validateTerraformStructure hclContent)%list in
  let found := (found ++ validateDatadogProvider hclContent)%list in
  let found := (found ++ validateBestPractices hclContent)%list in
  let errors := with_severity error found in
  let warnings := with_severity warning found in
  let infos := with_severity info found in
  mkResult (Nat.eqb (List.length errors) 0)
           found
           (mkSummary (List.length errors) (List.length warnings)
                      (List.length infos) (List.length found)).

End Validation.

(** * The generator object

    The fields of [DatadogHCLGenerator] that the engine reads. *)
Record generator : Type := mkGenerator {
  version : string;
  widgetMappings : value;
  validationRules : value
}.

(** One invocation of the method [generateHCL] on the object [this]:
    what it returns or raises, and the object afterwards. *)
Definition invoke_generateHCL (this : generator) (dashboardData : value)
    : res string * generator :=
  (generateHCL (widgetMappings this) dashboardData, this).

(** * The specification's wording, as definitions

    What the specification says in words, written down independently of
    the code above, to be compared with it. *)

(** ** Resource naming, step by step *)

(** Repeated underscores collapsed to one: an underscore is dropped when
    the character before it was an underscore. *)
Fixpoint spec_collapse_from (after_underscore : bool) (s : string) : string :=
  match s with
  | EmptyString => EmptyString
  | String a rest =>
      if Ascii.eqb a underscore then
        if after_underscore then spec_collapse_from true rest
        else String a (spec_collapse_from true rest)
      else String a (spec_collapse_from false rest)
  end.

Definition spec_collapse (s : string) : string := spec_collapse_from false s.

(** Leading and trailing underscores trimmed: all of them. *)
Fixpoint drop_leading (s : string) : string :=
  match s with
  | String a rest => if Ascii.eqb a underscore then drop_leading rest else s
  | EmptyString => EmptyString
  end.

Fixpoint drop_trailing (s : string) : string :=
  match s with
  | EmptyString => EmptyString
  | String a rest =>
      match drop_trailing rest with
      | EmptyString =>
          if Ascii.eqb a underscore then EmptyString else String a EmptyString
      | t => String a t
      end
  end.

Definition spec_trim (s : string) : string := drop_trailing (drop_leading s).

(** The title lower-cased, every character outside lowercase letters,
    digits and underscore replaced by an underscore, repeated
    underscores collapsed, leading and trailing underscores trimmed,
    truncated to 50 characters. *)
Definition sanitized_title (title : string) : string :=
  substring 0 50
    (spec_trim
       (spec_collapse
          (replace_outside is_lower_name_char (toLowerCase title)))).

(** No two underscores in a row. *)
Fixpoint no_double_underscore (s : string) : bool :=
  match s with
  | EmptyString => true
  | String a rest =>
      match rest with
      | EmptyString => true
      | String b _ =>
          negb (Ascii.eqb a underscore && Ascii.eqb b underscore)
          && no_double_underscore rest
      end
  end.

(** ** Escaping, character by character *)

(** Backslash, double quote, newline, carriage return and tab each
    become a backslash and a letter; any other character stands for
    itself. *)
Definition escape_char (a : ascii) : string :=
  let n := nat_of_ascii a in
  if (n =? 92)%nat then chr 92 ++ chr 92
  else if (n =? 34)%nat then chr 92 ++ chr 34
  else if (n =? 10)%nat then chr 92 ++ "n"
  else if (n =? 13)%nat then chr 92 ++ "r"
  else if (n =? 9)%nat then chr 92 ++ "t"
  else String a EmptyString.

Fixpoint escape_chars (s : string) : string :=
  match s with
  | EmptyString => EmptyString
  | String a rest => escape_char a ++ escape_chars rest
  end.

(** Reading an escaped text back: a backslash announces the character
    that follows it. *)
Definition unescape_char (a : ascii) : ascii :=
  let n := nat_of_ascii a in
  if (n =? 110)%nat then ascii_of_nat 10
  else if (n =? 114)%nat then ascii_of_nat 13
  else if (n =? 116)%nat then ascii_of_nat 9
  else a.

Fixpoint unescape (s : string) : string :=
  match s with
  | EmptyString => EmptyString
  | String a rest =>
      if (nat_of_ascii a =? 92)%nat then
        match rest with
        | EmptyString => String a EmptyString
        | String b rest' => String (unescape_char b) (unescape rest')
        end
      else String a (unescape rest)
  end.

(** A control character: a code unit below 32. *)
Definition is_control (a : ascii) : bool := (nat_of_ascii a <? 32)%nat.

(** A double quote stands unescaped when no backslash announces it. *)
Fixpoint has_bare_quote (s : string) : bool :=
  match s with
  | EmptyString => false
  | String a rest =>
      if (nat_of_ascii a =? 92)%nat then
        match rest with
        | EmptyString => false
        | String _ rest' => has_bare_quote rest'
        end
      else (nat_of_ascii a =? 34)%nat || has_bare_quote rest
  end.

(** The values the string conversion accepts: no object with a
    [toString] property of its own, at the top or inside arrays. *)
Fixpoint convertible (v : value) : bool :=
  match v with
  | JArr l =>
      (fix all (l : list value) : bool :=
         match l with
         | [] => true
         | x :: rest => convertible x && all rest
         end) l
  | JObj props => negb (has_own "toString" props)
  | _ => true
  end.

(** ** Findings, counted *)

Fixpoint count_severity (s : severity) (found : list issue) : nat :=
  match found with
  | [] => 0
  | i :: rest =>
      (if severity_eqb (issue_severity i) s then 1 else 0)
      + count_severity s rest
  end.

Definition titled (title : string) (found : list issue) : list issue :=
  filter (fun i => issue_title i =? title) found.

(** ** Braces *)

(** The opening braces of a text that no closing brace matches: each
    closing brace closes the nearest opening brace still open before it. *)
Fixpoint open_braces_from (depth : nat) (s : string) : nat :=
  match s with
  | EmptyString => depth
  | String a rest =>
      if is_char "{" a then open_braces_from (S depth) rest
      else if is_char "}" a then open_braces_from (pred depth) rest
      else open_braces_from depth rest
  end.

Definition unmatched_opening_braces (text : string) : nat :=
  open_braces_from 0 text.

(** The lines the syntax pass reads: neither blank nor a comment. *)
Definition is_code_line (line : string) : bool :=
  negb ((trim line =? "") || startsWith "#" (trim line)
        || startsWith "//" (trim line)).

Fixpoint occurrences (c : ascii) (s : string) : nat :=
  match s with
  | EmptyString => 0
  | String a rest => (if is_char c a then 1 else 0) + occurrences c rest
  end.

(** Opening braces minus closing braces, over the lines that are read. *)
Fixpoint brace_balance (lines : list string) : Z :=
  match lines with
  | [] => 0
  | line :: rest =>
      (if is_code_line line
       then Z.of_nat (occurrences "{" line) - Z.of_nat (occurrences "}" line)
       else 0)
      + brace_balance rest
  end.

(** ** Well-formed documents

    A sufficient condition for emission to complete: the document is
    plain JSON, no object redefines [toString] or [hasOwnProperty], no
    array holds a null, the lists the emitters walk ([widgets],
    [requests], [template_variables]) are arrays where they are present,
    a widget kind is a string that names no inherited member, and a
    [timeseries_background] is not null. *)

Definition nullish (v : value) : bool :=
  match v with JUndef | JNull => true | _ => false end.

Definition array_or_falsy (o : option value) : bool :=
  match o with
  | None => true
  | Some (JArr _) => true
  | Some v => negb (truthy v)
  end.

Definition kind_ok (o : option value) : bool :=
  match o with
  | None => true
  | Some (JStr s) => negb (existsb (String.eqb s) object_prototype)
  | Some v => negb (truthy v)
  end.

Definition not_null (o : option value) : bool :=
  match o with Some JNull => false | _ => true end.

Fixpoint doc (v : value) : bool :=
  match v with
  | JUndef | JFun _ => false
  | JNull | JBool _ | JNum _ | JStr _ => true
  | JArr l =>
      (fix all (l : list value) : bool :=
         match l with
         | [] => true
         | x :: rest => negb (nullish x) && doc x && all rest
         end) l
  | JObj props =>
      negb (has_own "toString" props)
      && negb (has_own "hasOwnProperty" props)
      && array_or_falsy (lookup "widgets" props)
      && array_or_falsy (lookup "requests" props)
      && array_or_falsy (lookup "template_variables" props)
      && kind_ok (lookup "type" props)
      && not_null (lookup "timeseries_background" props)
      && (fix all (l : list (string * value)) : bool :=
            match l with
            | [] => true
            | (_, x) :: rest => doc x && all rest
            end) props
  end.

(** What a property read of a well-formed value can return: a
    well-formed value, [undefined], or an inherited method. *)
Definition ok (v : value) : bool :=
  match v with
  | JUndef | JFun _ => true
  | _ => doc v
  end.

(** A registry entry: an object with its two property tables. *)
Definition config_ok (cfg : value) : bool :=
  match cfg with
  | JObj props =>
      doc cfg
      && match lookup "commonProperties" props with
         | Some (JArr _) => true
         | _ => false
         end
      && match lookup "specificProperties" props with
         | Some (JObj _) => true
         | _ => false
         end
  | _ => false
  end.

(** A registry: not loaded, or an object whose widget table, when it
    has one, maps kinds to entries. *)
Definition registry_ok (widgetMappings : value) : bool :=
  match widgetMappings with
  | JUndef => true
  | JObj props =>
      match lookup "widgets" props with
      | None => true
      | Some (JObj table) => forallb (fun kv => config_ok (snd kv)) table
      | Some _ => false
      end
  | _ => false
  end.

(** A dashboard document: a well-formed object whose title, if it has
    one, is a string (or an empty stand-in such as null). *)
Definition dashboard_ok (dashboardData : value) : bool :=
  match dashboardData with
  | JObj props =>
      doc dashboardData
      && match lookup "title" props with
         | None | Some (JStr _) => true
         | Some v => negb (truthy v)
         end
  | _ => false
  end.

(** A computation that returns. *)
Definition returns {A : Type} (m : res A) : Prop := exists a, m = Ok a.

(** A computation that returns or raises a TypeError, nothing else. *)
Definition safe {A : Type} (m : res A) : Prop :=
  match m with
  | Ok _ => True
  | Throw TypeError => True
  | Throw _ => False
  end.

(** ** Requests *)

Definition nonempty_string (o : option value) : bool :=
  match o with
  | Some (JStr s) => negb (s =? "")
  | _ => false
  end.

Definition nonempty_array (o : option value) : bool :=
  match o with
  | Some (JArr (_ :: _)) => true
  | _ => false
  end.

(** Valid content: a flat query string, or a non-empty queries
    sequence, or a non-empty formulas sequence.  A flat query that is
    the empty string counts as no flat query. *)
Definition valid_content (props : list (string * value)) : bool :=
  nonempty_string (lookup "q" props)
  || nonempty_array (lookup "queries" props)
  || nonempty_array (lookup "formulas" props).

(** A request as the data model has it: the flat query a string, the
    queries and the formulas sequences, each where present. *)
Definition request_typed (props : list (string * value)) : bool :=
  match lookup "q" props with None | Some (JStr _) => true | _ => false end
  && match lookup "queries" props with
     | None | Some (JArr _) => true
     | _ => false
     end
  && match lookup "formulas" props with
     | None | Some (JArr _) => true
     | _ => false
     end.

Definition is_request_block (out : string) : Prop :=
  exists body,
    out = nl ++ "      request {" ++ nl ++ body ++ "      }" ++ nl.

(** A field of a value that may not be there: [undefined] when the
    value itself is missing. *)
Definition field (v : value) (k : string) : value :=
  match get v k with
  | Ok x => x
  | Throw _ => JUndef
  end.

(** The flat query a legacy request derives from its first query: the
    metric query expression when present; otherwise the log search
    expression; otherwise, for a logs query with a compute aggregation,
    the text [aggregation:metric], with any log search text after it.
    Present means there and not empty. *)
Definition derived_flat_query (query : value) : res (option value) :=
  let expression := field query "query" in
  let search := field (field query "search") "query" in
  let aggregation := field (field query "compute") "aggregation" in
  let metric := field (field query "compute") "metric" in
  if truthy expression then Ok (Some expression)
  else if truthy search then Ok (Some search)
  else if strict_eq_string (field query "data_source") "logs"
          && truthy aggregation
  then
    a <- ToString aggregation ;;
    m <- (if truthy metric then ToString metric else Ok "") ;;
    s <- (if truthy search then t <- ToString search ;; Ok (" " ++ t)
          else Ok "") ;;
    Ok (Some (JStr (a ++ ":" ++ m ++ s)))
  else Ok None.

(** ** Layout *)

(** The [widget_layout] sub-block at a given indentation. *)
Definition widget_layout_text (indent height width x y : string) : string :=
  indent ++ "widget_layout {" ++ nl
  ++ indent ++ "  height          = " ++ height ++ nl
  ++ indent ++ "  is_column_break = false" ++ nl
  ++ indent ++ "  width           = " ++ width ++ nl
  ++ indent ++ "  x               = " ++ x ++ nl
  ++ indent ++ "  y               = " ++ y ++ nl
  ++ indent ++ "}" ++ nl ++ nl.

(** A dimension as it is printed: the given value, or the default when
    the value is missing or falsy (zero, null, false, the empty
    string). *)
Definition dimension_text (given : option value) (default : Z) : res string :=
  match given with
  | None => Ok (Z_to_string default)
  | Some v => if truthy v then ToString v else Ok (Z_to_string default)
  end.

(** ** Input validation *)

(** The validation error of a parsed input, if it has one: not an
    object; or an object whose title and id are both missing or falsy. *)
Definition validation_error (data : value) : option string :=
  match data with
  | JObj props =>
      let missing (o : option value) :=
        match o with None => true | Some v => negb (truthy v) end in
      if missing (lookup "title" props) && missing (lookup "id" props)
      then Some "Dashboard must have either a title or id field"
      else None
  | JArr _ => Some "Dashboard must have either a title or id field"
  | _ => Some "Invalid JSON: Expected an object"
  end.

(** ** Shapes of a resource name *)

Definition starts_with_underscore (s : string) : bool :=
  match s with
  | String a _ => Ascii.eqb a underscore
  | EmptyString => false
  end.

Fixpoint ends_with_underscore (s : string) : bool :=
  match s with
  | EmptyString => false
  | String a EmptyString => Ascii.eqb a underscore
  | String _ rest => ends_with_underscore rest
  end.

(** What every generated resource name looks like: not empty, at most
    50 characters, lowercase letters, digits and underscores only, no
    two underscores in a row and none in front. *)
Definition name_shape (n : string) : bool :=
  negb (n =? "")
  && (String.length n <=? 50)%nat
  && string_forallb is_lower_name_char n
  && no_double_underscore n
  && negb (starts_with_underscore n).

(** ** Balance of a pair of delimiters *)

(** Opening minus closing delimiters, over the lines the syntax pass
    reads. *)
Fixpoint balance (opening closing : ascii) (lines : list string) : Z :=
  match lines with
  | [] => 0
  | line :: rest =>
      (if is_code_line line
       then Z.of_nat (occurrences opening line)
            - Z.of_nat (occurrences closing line)
       else 0)
      + balance opening closing rest
  end.

(** A finding about one line: it names the line, in its [line] field
    and in its [location], and is no mere suggestion. *)
Definition about_line (n : nat) (i : issue) : Prop :=
  issue_line i = Some n
  /\ issue_location i = "Line " ++ nat_to_string n
  /\ issue_severity i <> info
  /\ (issue_title i = "Unclosed string literal"
      \/ issue_title i = "Invalid identifier"
      \/ issue_title i = "Potentially unquoted string").

(** ** Quotes on a line *)

Fixpoint ends_with_backslash (s : string) : bool :=
  match s with
  | EmptyString => false
  | String a EmptyString => is_char (ascii_of_nat 92) a
  | String _ rest => ends_with_backslash rest
  end.

(** Neither a double quote nor a backslash. *)
Definition no_quote_no_backslash (a : ascii) : bool :=
  negb (is_char (ascii_of_nat 34) a) && negb (is_char (ascii_of_nat 92) a).

(** The findings about unclosed string literals that the lines from
    [lineIndex] on get: one for each line that is read and holds an odd
    number of counted quotes. *)
Fixpoint unclosed_strings (lineIndex : nat) (lines : list string)
    : list issue :=
  match lines with
  | [] => []
  | line :: rest =>
      (if is_code_line line
          && negb (count_quotes false line mod 2 =? 0)%nat
       then [ mkIssue error "Unclosed string literal"
                "String literal is not properly closed with matching quotes."
                (Some (lineIndex + 1)) (line_location lineIndex) ]
       else [])
      ++ unclosed_strings (S lineIndex) rest
  end%list.

(** ** Runs of a character class *)

(** A text that is not empty and holds characters of the class only. *)
Definition run_of (p : ascii -> bool) (u : string) : bool :=
  negb (u =? "") && string_forallb p u.

(** ** Text on one line *)

(** No control character: no code unit below 32, so no line break. *)
Definition no_control (s : string) : bool :=
  string_forallb (fun a => negb (is_control a)) s.

(** * The other passes of the validator

    The structure pass, the provider pass and the style pass of
    [performHCLValidation], and what [displayValidationResults] computes
    from the result.  Each pass answers with the findings it pushes, in
    order.  Where the source reads a group off a match it has not
    tested ([m.match(r)[1]]), a failed match raises a TypeError. *)

(** ** Searching and matching all *)

(** [s.match(/r/)]: the answer at the leftmost position that has one. *)
Fixpoint search {A : Type} (here : string -> option A) (s : string)
    : option A :=
  match here s with
  | Some x => Some x
  | None =>
      match s with
      | EmptyString => None
      | String _ rest => search here rest
      end
  end.

(** [s.match(/r/g)]: the texts matched, leftmost first; each search
    resumes where the last match ended, one code unit further after an
    empty match.  [here] answers with what follows the match. *)
Fixpoint match_all_from (here : string -> option string) (skip : nat)
    (s : string) : list string :=
  match skip with
  | S n =>
      match s with
      | String _ rest => match_all_from here n rest
      | EmptyString => []
      end
  | O =>
      match here s with
      | Some rest =>
          let m := captured s rest in
          m :: match s with
               | String _ tail =>
                   match_all_from here (String.length m - 1) tail
               | EmptyString => []
               end
      | None =>
          match s with
          | String _ tail => match_all_from here 0 tail
          | EmptyString => []
          end
      end
  end.

Definition match_all (here : string -> option string) (s : string)
    : list string :=
  match_all_from here 0 s.

(** A literal under the flag [i], for patterns of ASCII characters: a
    letter matches in either case. *)
Fixpoint Lit_i (s : string) : re :=
  match s with
  | EmptyString => Eps
  | String c rest =>
      Seq (Chr (fun a => Ascii.eqb (lower_char a) (lower_char c))) (Lit_i rest)
  end.

(** [r{n}] *)
Fixpoint Rep (n : nat) (r : re) : re :=
  match n with
  | O => Eps
  | S n' => Seq r (Rep n' r)
  end.

Definition is_quote (a : ascii) : bool := is_char (ascii_of_nat 34) a.
Definition not_quote (a : ascii) : bool := negb (is_quote a).
Definition is_letter (a : ascii) : bool := is_lower a || is_upper a.

(** A quoted text that is not empty, [dq] included on both sides; the
    text is the group. *)
Definition quoted {A : Type} (s : string) (k : string -> string -> option A)
    : option A :=
  rmatch (Lit dq) s (fun s1 =>
    rmatch (Plus (Chr not_quote)) s1 (fun s2 =>
      rmatch (Lit dq) s2 (fun s3 => k (captured s1 s2) s3))).

(** ** Structure pass *)

(** The resource pattern: the word [resource], blanks, a quoted type,
    blanks, a quoted name.  The answer holds the type, the name and
    what follows the match. *)
Definition resource_here (s : string) : option (string * string * string) :=
  rmatch (Seq (Lit "resource") (Plus (Chr is_space))) s (fun s1 =>
    quoted s1 (fun resourceType s2 =>
      rmatch (Plus (Chr is_space)) s2 (fun s3 =>
        quoted s3 (fun resourceName s4 =>
          Some (resourceType, resourceName, s4))))).

Definition resource_end (s : string) : option string :=
  option_map snd (resource_here s).

(** [this.validationPatterns.validResourceType] and
    [this.validationPatterns.validResourceName] *)
Definition validResourceType : re :=
  Seq (Plus (Chr is_lower))
      (Seq (Lit "_")
           (Seq (Plus (Chr (fun a => is_lower a || Ascii.eqb a underscore)))
                Eol)).

Definition validResourceName : re :=
  Seq (Chr is_letter)
      (Seq (Star (Chr (fun a => is_name_char a || is_char "-" a))) Eol).

(** The callback of [resourceMatches.forEach]. *)
Definition resource_findings (m : string) : list issue :=
  match search resource_here m with
  | Some (resourceType, resourceName, _) =>
      ((if negb (test_at_start validResourceType resourceType) then
          [ mkIssue error "Invalid resource type"
              ("Resource type " ++ dq ++ resourceType ++ dq
               ++ " is not valid. Must be in format " ++ dq
               ++ "provider_resource" ++ dq ++ ".")
              None ("Resource: " ++ resourceType ++ "." ++ resourceName) ]
        else [])
       ++
       (if negb (test_at_start validResourceName resourceName) then
          [ mkIssue error "Invalid resource name"
              ("Resource name " ++ dq ++ resourceName ++ dq
               ++ " is not valid. Must start with a letter and contain only letters, numbers, hyphens, and underscores.")
              None ("Resource: " ++ resourceType ++ "." ++ resourceName) ]
        else []))%list
  | None => []
  end.

(** The loop over [duplicateCheck], with the names seen so far. *)
Fixpoint duplicate_findings (resourceNames : list string)
    (matches : list string) : res (list issue) :=
  match matches with
  | [] => Ok []
  | m :: rest =>
      match search resource_here m with
      | Some (_, name, _) =>
          if existsb (String.eqb name) resourceNames then
            found <- duplicate_findings resourceNames rest ;;
            Ok (mkIssue error "Duplicate resource name"
                  ("Resource name " ++ dq ++ name ++ dq
                   ++ " is used multiple times. Each resource must have a unique name.")
                  None ("Resource name: " ++ name) :: found)
          else duplicate_findings (resourceNames ++ [name])%list rest
      | None => Throw TypeError
      end
  end.

(** [validateTerraformStructure(hclContent, issues)] *)
Definition validateTerraformStructure (hclContent : string)
    : res (list issue) :=
  if negb (includes ("resource " ++ dq ++ "datadog_dashboard" ++ dq)
             hclContent)
  then
    Ok [ mkIssue error "Missing dashboard resource"
           "HCL must contain a datadog_dashboard resource block."
           None "Overall structure" ]
  else
    let resourceMatches := match_all resource_end hclContent in
    let duplicateCheck := match_all resource_end hclContent in
    duplicates <- duplicate_findings [] duplicateCheck ;;
    Ok (flat_map resource_findings resourceMatches ++ duplicates)%list.

(** ** Provider pass *)

(** [this.validationRules], as [initializeValidation] sets them. *)
Definition required_dashboard_fields : list string :=
  [ "title"; "layout_type" ].

Definition valid_layout_types : list string := [ "ordered"; "free" ].

Definition valid_widget_types : list string :=
  [ "group"; "timeseries"; "query_value"; "note"; "toplist";
    "scatterplot"; "heatmap"; "distribution"; "check_status";
    "hostmap"; "service_map"; "log_stream"; "trace_service";
    "iframe"; "image"; "free_text"; "alert_graph"; "alert_value";
    "change"; "event_stream"; "event_timeline"; "slo";
    "monitor_summary"; "manage_status"; "geomap" ].

(** [arr.join(', ')] *)
Fixpoint join (sep : string) (l : list string) : string :=
  match l with
  | [] => ""
  | [x] => x
  | x :: rest => x ++ sep ++ join sep rest
  end.

(** The pattern built for a required field: the field under the flag
    [i], optional blanks, an equals sign.  The fields hold letters and
    underscores only, which stand for themselves in a pattern. *)
Definition fieldPattern (field : string) : re :=
  Seq (Lit_i field) (Seq ws (Lit "=")).

Definition equals_quoted {A : Type} (s : string)
    (k : string -> string -> option A) : option A :=
  rmatch (Seq ws (Seq (Lit "=") ws)) s (fun s1 => quoted s1 k).

(** The [layout_type] pattern; the answer is the quoted text. *)
Definition layout_type_here (s : string) : option string :=
  rmatch (Lit "layout_type") s (fun s1 =>
    equals_quoted s1 (fun layoutType _ => Some layoutType)).

(** [\w] *)
Definition is_word (a : ascii) : bool := is_name_char a.

(** A word, then [_definition]; the answer holds the word and what
    follows. *)
Definition definition_here (s : string) : option (string * string) :=
  rmatch (Plus (Chr is_word)) s (fun s1 =>
    rmatch (Lit "_definition") s1 (fun s2 => Some (captured s s1, s2))).

(** The same, then optional blanks and an opening brace. *)
Definition definition_block_end (s : string) : option string :=
  rmatch (Plus (Chr is_word)) s (fun s1 =>
    rmatch (Seq (Lit "_definition") (Seq ws (Lit "{"))) s1 (fun s2 =>
      Some s2)).

(** The query pattern: [q], an equals sign between optional blanks, a
    quoted text. *)
Definition query_here (s : string) : option (string * string) :=
  rmatch (Lit "q") s (fun s1 =>
    equals_quoted s1 (fun query s2 => Some (query, s2))).

(** The color pattern: [background_color] or [color], an equals sign
    between optional blanks, a quoted text. *)
Definition color_here (s : string) : option (string * string * string) :=
  let value (field : string) (s1 : string) :=
    equals_quoted s1 (fun colorValue s2 => Some (field, colorValue, s2)) in
  match rmatch (Lit "background_color") s (value "background_color") with
  | Some x => Some x
  | None => rmatch (Lit "color") s (value "color")
  end.

Definition is_hex (a : ascii) : bool :=
  is_digit a || in_range 97 102 a || in_range 65 70 a.

(** [this.validationPatterns.validColor]: a hash and six hexadecimal
    digits, or letters and underscores. *)
Definition validColor : re :=
  Alt (Seq (Lit "#") (Seq (Rep 6 (Chr is_hex)) Eol))
      (Seq (Plus (Chr (fun a => is_letter a || Ascii.eqb a underscore))) Eol).

Definition missing_field (field : string) : issue :=
  mkIssue error ("Missing required field: " ++ field)
    ("Dashboard resource must include the " ++ dq ++ field ++ dq ++ " field.")
    None "Dashboard resource".

(** A loop that reads a group off each match. *)
Fixpoint each_match {A : Type} (here : string -> option A)
    (finding : A -> list issue) (matches : list string) : res (list issue) :=
  match matches with
  | [] => Ok []
  | m :: rest =>
      match search here m with
      | Some groups =>
          found <- each_match here finding rest ;;
          Ok (finding groups ++ found)%list
      | None => Throw TypeError
      end
  end.

Definition placeholderPatterns : list (string * string) :=
  [ ("DASHBOARD_ID_PLACEHOLDER", "Dashboard ID");
    ("imported_dashboard", "Resource name");
    ("Imported Dashboard", "Dashboard title") ].

Definition use_variables (what : string) : issue :=
  mkIssue info "Consider using variables"
    (what ++ " appears to be hardcoded. Consider using Terraform variables for better reusability.")
    None what.

(** [validateDatadogProvider(hclContent, issues)] *)
Definition validateDatadogProvider (hclContent : string) : res (list issue) :=
  let fields :=
    flat_map (fun field =>
                if negb (test (fieldPattern field) hclContent)
                then [ missing_field field ] else [])
      required_dashboard_fields in
  let layout :=
    match search layout_type_here hclContent with
    | Some layoutType =>
        if negb (existsb (String.eqb layoutType) valid_layout_types) then
          [ mkIssue error "Invalid layout_type"
              ("Layout type " ++ dq ++ layoutType ++ dq
               ++ " is not valid. Must be one of: "
               ++ join ", " valid_layout_types ++ ".")
              None "Dashboard resource" ]
        else []
    | None => []
    end in
  widgets <-
    each_match definition_here
      (fun groups =>
         let widgetType := fst groups in
         if negb (existsb (String.eqb widgetType) valid_widget_types) then
           [ mkIssue warning "Unknown widget type"
               ("Widget type " ++ dq ++ widgetType ++ dq
                ++ " might not be supported by the Datadog provider.")
               None ("Widget: " ++ widgetType ++ "_definition") ]
         else [])
      (match_all definition_block_end hclContent) ;;
  queries <-
    each_match query_here
      (fun groups =>
         let query := fst groups in
         if (String.length query <? 3)%nat then
           [ mkIssue warning "Suspiciously short metric query"
               ("Metric query " ++ dq ++ query ++ dq
                ++ " seems too short. Verify it's a valid Datadog metric query.")
               None "Widget request" ]
         else [])
      (match_all (fun s => option_map snd (query_here s)) hclContent) ;;
  colors <-
    each_match color_here
      (fun groups =>
         let field := fst (fst groups) in
         let colorValue := snd (fst groups) in
         if negb (test_at_start validColor colorValue) then
           [ mkIssue warning "Invalid color format"
               ("Color value " ++ dq ++ colorValue ++ dq
                ++ " should be a hex color (#RRGGBB) or a valid color name.")
               None ("Color field: " ++ field) ]
         else [])
      (match_all (fun s => option_map snd (color_here s)) hclContent) ;;
  let placeholders :=
    flat_map (fun p =>
                if includes (fst p) hclContent
                then [ use_variables (snd p) ] else [])
      placeholderPatterns in
  Ok (fields ++ layout ++ widgets ++ queries ++ colors ++ placeholders)%list.

(** ** Style pass *)

(** The run of blanks at the start of a line: group 1 of the pattern
    that reads them, which matches every line. *)
Fixpoint leading_blanks (line : string) : nat :=
  match line with
  | String a rest => if is_space a then S (leading_blanks rest) else 0
  | EmptyString => 0
  end.

Fixpoint endsWith_char (c : ascii) (s : string) : bool :=
  match s with
  | EmptyString => false
  | String a EmptyString => is_char c a
  | String _ rest => endsWith_char c rest
  end.

(** The indentation walk: the indentation expected so far and whether
    the finding has been pushed; it is pushed once at most. *)
Fixpoint indentation (expectedIndent : Z) (inconsistentIndentation : bool)
    (index : nat) (lines : list string) : list issue :=
  match lines with
  | [] => []
  | line :: rest =>
      if trim line =? "" then
        indentation expectedIndent inconsistentIndentation (S index) rest
      else
        let actualIndent := Z.of_nat (leading_blanks line) in
        let trimmedLine := trim line in
        let expectedIndent :=
          if endsWith_char "{" trimmedLine then (expectedIndent + 2)%Z
          else if trimmedLine =? "}" then (expectedIndent - 2)%Z
          else expectedIndent in
        if (2 <? Z.abs (actualIndent - expectedIndent))%Z
           && negb inconsistentIndentation
        then
          mkIssue info "Inconsistent indentation"
            "Consider using consistent 2-space indentation for better readability."
            (Some (index + 1)) (line_location index)
          :: indentation expectedIndent true (S index) rest
        else
          indentation expectedIndent inconsistentIndentation (S index) rest
  end.

Fixpoint long_lines (index : nat) (lines : list string) : list issue :=
  match lines with
  | [] => []
  | line :: rest =>
      (if (120 <? String.length line)%nat then
         [ mkIssue info "Long line"
             "Consider breaking long lines for better readability (recommended: < 120 characters)."
             (Some (index + 1))
             (line_location index ++ " ("
              ++ nat_to_string (String.length line) ++ " characters)") ]
       else [])
      ++ long_lines (S index) rest
  end%list.

Definition is_id_char (a : ascii) : bool :=
  in_range 97 102 a || is_digit a || is_char "-" a.

(** The three patterns for hard-coded values.  In the second and the
    third the alternation splits the whole pattern: the quote belongs
    to the first and to the last alternative only. *)
Definition hardcodedPatterns : list (re * string) :=
  [ (Seq (Lit dq) (Seq (Rep 36 (Chr is_id_char)) (Lit dq)), "Dashboard ID");
    (Alt (Lit_i (dq ++ "prod")) (Alt (Lit_i "staging") (Lit_i ("dev" ++ dq))),
     "Environment");
    (Alt (Lit_i (dq ++ "us-east-1"))
         (Alt (Lit_i "us-west-2") (Lit_i ("eu-west-1" ++ dq))),
     "Region") ].

(** [validateBestPractices(hclContent, issues)] *)
Definition validateBestPractices (hclContent : string) : list issue :=
  let lines := split_lines hclContent in
  (indentation 0 false 0 lines
   ++ long_lines 0 lines
   ++ (if negb (includes "#" hclContent) && negb (includes "//" hclContent)
       then [ mkIssue info "No comments found"
                "Consider adding comments to explain complex configurations."
                None "Overall structure" ]
       else [])
   ++ flat_map (fun p =>
                  if test (fst p) hclContent
                  then [ use_variables (snd p) ] else [])
        hardcodedPatterns)%list.

(** ** The run, with the passes of the source *)

(** [performHCLValidation(hclContent)] with its own three passes: it
    raises when one of them does. *)
Definition runHCLValidation (hclContent : string) : res validation_result :=
  structure <- validateTerraformStructure hclContent ;;
  provider <- validateDatadogProvider hclContent ;;
  Ok (performHCLValidation (fun _ => structure) (fun _ => provider)
        validateBestPractices hclContent).

(** ** What is shown of a result *)

(** The class of the summary in [displayValidationResults]. *)
Definition summaryClass (result : validation_result) : string :=
  if isValid result then "valid"
  else if (0 <? errors (result_summary result))%nat then "invalid"
  else "warning".

(** The score shown with the statistics. *)
Definition score (s : summary) : Z :=
  Z.max 0 (100 - Z.of_nat (errors s) * 10 - Z.of_nat (warnings s) * 5).

(** ** Auxiliary notions of the properties *)

(** Where a run of the class ends. *)
Definition stops (p : ascii -> bool) (v : string) : bool :=
  match v with
  | String a _ => negb (p a)
  | EmptyString => true
  end.

(** The findings of a run of lines name lines of the run. *)
Definition within (first count : nat) (i : issue) : Prop :=
  exists n, first < n <= first + count /\ about_line n i.

(** A finding that is a suggestion only. *)
Definition suggestion (i : issue) : Prop := issue_severity i = info.

(** A text the resource pattern matches, and a text the pattern for an
    equals sign and a quoted text matches. *)
Definition resource_text (blanks1 resourceType blanks2 resourceName : string)
    : string :=
  "resource" ++ blanks1 ++ dq ++ resourceType ++ dq
  ++ blanks2 ++ dq ++ resourceName ++ dq.

Definition assigned (blanks1 blanks2 text : string) : string :=
  blanks1 ++ "=" ++ blanks2 ++ dq ++ text ++ dq.

(** Two findings of the passes. *)
Definition invalid_resource_name (resourceType resourceName : string) : issue :=
  mkIssue error "Invalid resource name"
    ("Resource name " ++ dq ++ resourceName ++ dq
     ++ " is not valid. Must start with a letter and contain only letters, numbers, hyphens, and underscores.")
    None ("Resource: " ++ resourceType ++ "." ++ resourceName).

(** A text within one line. *)
Definition no_newline (s : string) : bool :=
  string_forallb (fun a => negb (nat_of_ascii a =? 10)%nat) s.

Definition unclosed_at (n : nat) : issue :=
  mkIssue error "Unclosed string literal"
    "String literal is not properly closed with matching quotes."
    (Some n) ("Line " ++ nat_to_string n).

(** Neither a missing-field finding nor an error of another title. *)
Definition other_finding (i : issue) : Prop :=
  issue_title i = "Invalid layout_type" \/ issue_severity i <> error.

(** The items of an array and the members of an object, compact. *)
Definition json_item (x : value) : string :=
  match SerializeJSONProperty "" "" x with
  | Some s => s
  | None => "null"
  end.

Fixpoint json_members (props : list (string * value)) : list string :=
  match props with
  | [] => []
  | (k, x) :: rest =>
      match SerializeJSONProperty "" "" x with
      | Some s => (QuoteJSONString k ++ ":" ++ s) :: json_members rest
      | None => json_members rest
      end
  end.

(** The compact JSON text of a value holds no control character. *)
Definition one_line (v : value) : Prop :=
  forall out, SerializeJSONProperty "" "" v = Some out -> no_control out = true.


(** * Sanity checks: the embedding on concrete inputs *)

Example ex_name_1 :
  generateResourceName (JStr "Sample Application Dashboard") false
  = Ok "sample_application_dashboard".
Proof. reflexivity. Qed.

Example ex_name_2 :
  generateResourceName (JStr "  --My  (prod) Dash!! ") false = Ok "my_prod_dash".
Proof. reflexivity. Qed.

Example ex_escape_1 :
  escapeHCLString (JStr ("a" ++ dq ++ "b" ++ nl ++ "c" ++ chr 92))
  = Ok (dq ++ "a" ++ chr 92 ++ dq ++ "b" ++ chr 92 ++ "nc" ++ chr 92 ++ chr 92 ++ dq).
Proof. reflexivity. Qed.

Example ex_tostring_1 :
  ToString (JArr [JNum 1; JNull; JArr [JStr "a"; JBool true]; JNum (-12)])
  = Ok "1,,a,true,-12".
Proof. reflexivity. Qed.

Example ex_json_1 :
  JSON_stringify (JObj [("a", JArr [JNum 1; JStr "x"; JUndef]); ("b", JUndef);
                        ("c", JObj []); ("d", JBool false)])
  = Some ("{" ++ dq ++ "a" ++ dq ++ ":[1," ++ dq ++ "x" ++ dq ++ ",null],"
          ++ dq ++ "c" ++ dq ++ ":{}," ++ dq ++ "d" ++ dq ++ ":false}").
Proof. reflexivity. Qed.

Example ex_json_2 :
  JSON_stringify_4 (JObj [("a", JArr [JNum 1]); ("b", JStr (chr 27))])
  = Some ("{" ++ nl ++ "    " ++ dq ++ "a" ++ dq ++ ": [" ++ nl
          ++ "        1" ++ nl ++ "    ]," ++ nl
          ++ "    " ++ dq ++ "b" ++ dq ++ ": " ++ dq ++ chr 92 ++ "u001b" ++ dq
          ++ nl ++ "}").
Proof. reflexivity. Qed.

Example ex_legacy_1 :
  generateLegacyRequests
    (JArr [ JObj [("display_type", JStr "line")];
            JObj [("queries",
                   JArr [JObj [("data_source", JStr "logs");
                               ("compute", JObj [("aggregation", JStr "count");
                                                 ("metric", JStr "@duration")])]])] ])
  = Ok (nl ++ "      request {" ++ nl
        ++ "        q          = " ++ dq ++ "count:@duration" ++ dq ++ nl
        ++ "      }" ++ nl).
Proof. reflexivity. Qed.

Example ex_modern_1 :
  generateModernRequests
    (JArr [ JObj [("q", JStr "avg:system.cpu.user{*}")] ])
  = Ok (nl ++ "      request {" ++ nl
        ++ nl ++ "        query {" ++ nl
        ++ "          metric_query {" ++ nl
        ++ "            aggregator  = " ++ dq ++ "avg" ++ dq ++ nl
        ++ "            data_source = " ++ dq ++ "metrics" ++ dq ++ nl
        ++ "            name        = " ++ dq ++ "query1" ++ dq ++ nl
        ++ "            query       = " ++ dq ++ "avg:system.cpu.user{*}" ++ dq ++ nl
        ++ "          }" ++ nl
        ++ "        }" ++ nl
        ++ "      }" ++ nl).
Proof. reflexivity. Qed.

Example ex_sample :
  convert fallbackWidgetMappings sampleDashboard
  = Ok ("resource " ++ dq ++ "datadog_dashboard" ++ dq ++ " " ++ dq
        ++ "modern_sample_dashboard" ++ dq ++ " {" ++ nl
        ++ "  title       = " ++ dq ++ "Modern Sample Dashboard" ++ dq ++ nl
        ++ "  layout_type = " ++ dq ++ "ordered" ++ dq ++ nl
        ++ nl ++ "  # long queue" ++ nl ++ nl
        ++ nl ++ "  widget {" ++ nl
        ++ "    id = " ++ dq ++ "widget-1" ++ dq ++ nl
        ++ "    widget_layout {" ++ nl
        ++ "      height          = 8" ++ nl
        ++ "      is_column_break = false" ++ nl
        ++ "      width           = 12" ++ nl
        ++ "      x               = 0" ++ nl
        ++ "      y               = 0" ++ nl
        ++ "    }" ++ nl ++ nl
        ++ "    timeseries_definition {" ++ nl
        ++ "      title = " ++ dq ++ "CPU" ++ dq ++ nl
        ++ nl ++ "      request {" ++ nl
        ++ nl ++ "        query {" ++ nl
        ++ nl ++ "          metric_query {" ++ nl
        ++ "            data_source = " ++ dq ++ "metrics" ++ dq ++ nl
        ++ "            name        = " ++ dq ++ "query1" ++ dq ++ nl
        ++ "            query       = " ++ dq ++ "avg:system.cpu.user{*}" ++ dq ++ nl
        ++ "          }" ++ nl
        ++ "        }" ++ nl
        ++ "      }" ++ nl
        ++ "    }" ++ nl
        ++ "  }" ++ nl
        ++ "}" ++ nl).
Proof. vm_compute. reflexivity. Qed.

Example ex_split : split_lines ("a" ++ nl ++ nl ++ "b {" ++ nl) = ["a"; ""; "b {"; ""].
Proof. reflexivity. Qed.

Example ex_trim : trim ("  a b " ++ chr 9) = "a b".
Proof. reflexivity. Qed.

Example ex_number :
  (test_at_start (Seq number Eol) "-12.50", test_at_start (Seq number Eol) "12.",
   test (Seq (Lit "=") (Seq ws (Seq number (Seq ws Eol)))) "x = 42 ")
  = (true, false, true).
Proof. reflexivity. Qed.

Example ex_syntax_1 :
  validateBasicSyntax (split_lines ("resource x {" ++ nl ++ "  a = foo bar" ++ nl)) []
  = [ mkIssue warning "Potentially unquoted string"
        ("Value " ++ dq ++ "foo bar" ++ dq
         ++ " might need to be quoted if it's a string literal. If this is intentional (e.g., a reference or expression), you can ignore this warning.")
        (Some 2) "Line 2";
      mkIssue error "Unmatched braces" "Found 1 unmatched opening braces."
        None "Overall structure" ].
Proof. vm_compute. reflexivity. Qed.

(** ** The validator on small texts *)

Example ex_name_truncated :
  let title :=
    "aaaaaaaaaaaaaaaaaaaaaaaaaaaaaaaaaaaaaaaaaaaaaaaaa b" in
  generateResourceName (JStr title) false
  = Ok "aaaaaaaaaaaaaaaaaaaaaaaaaaaaaaaaaaaaaaaaaaaaaaaaa_"
  /\ generateResourceName
       (JStr "aaaaaaaaaaaaaaaaaaaaaaaaaaaaaaaaaaaaaaaaaaaaaaaaa_") false
     = Ok "aaaaaaaaaaaaaaaaaaaaaaaaaaaaaaaaaaaaaaaaaaaaaaaaa".
Proof. split; vm_compute; reflexivity. Qed.

Example ex_match_all :
  match_all (fun s => option_map snd (color_here s))
    ("  background_color = " ++ dq ++ "#12345" ++ dq
     ++ " text_color=" ++ dq ++ "red" ++ dq)
  = [ "background_color = " ++ dq ++ "#12345" ++ dq;
      "color=" ++ dq ++ "red" ++ dq ].
Proof. vm_compute. reflexivity. Qed.

Example ex_structure :
  option_map (map issue_title)
    (match validateTerraformStructure
             ("resource " ++ dq ++ "datadog_dashboard" ++ dq ++ " " ++ dq
              ++ "2x" ++ dq ++ " {}  resource " ++ dq ++ "Bad" ++ dq ++ " "
              ++ dq ++ "2x" ++ dq) with
     | Ok found => Some found
     | Throw _ => None
     end)
  = Some [ "Invalid resource name"; "Invalid resource type";
           "Invalid resource name"; "Duplicate resource name" ].
Proof. vm_compute. reflexivity. Qed.

Example ex_provider :
  option_map (map issue_title)
    (match validateDatadogProvider
             ("  background_color = " ++ dq ++ "#12345" ++ dq
              ++ " q = " ++ dq ++ "ab" ++ dq
              ++ " layout_type = " ++ dq ++ "grid" ++ dq
              ++ " foo_definition {") with
     | Ok found => Some found
     | Throw _ => None
     end)
  = Some [ "Missing required field: title"; "Invalid layout_type";
           "Unknown widget type"; "Suspiciously short metric query";
           "Invalid color format" ].
Proof. vm_compute. reflexivity. Qed.

Example ex_style :
  map issue_title
    (validateBestPractices
       ("a {" ++ nl ++ "        b = 1" ++ nl ++ "}" ++ nl ++ "upstaging"))
  = [ "Inconsistent indentation"; "No comments found";
      "Consider using variables" ].
Proof. vm_compute. reflexivity. Qed.

Example ex_run_sample :
  match convert fallbackWidgetMappings sampleDashboard with
  | Ok text =>
      match runHCLValidation text with
      | Ok result =>
          isValid result = true
          /\ summaryClass result = "valid"
          /\ score (result_summary result) = 100%Z
      | Throw _ => False
      end
  | Throw _ => False
  end.
Proof. vm_compute. repeat split; reflexivity. Qed.

(** * Properties *)

(** ** Resource naming *)

Section Naming.

Lemma underscore_eqb_refl : Ascii.eqb underscore underscore = true.
Proof. reflexivity. Qed.

Lemma collapse_underscore_cons (b : ascii) (r : string) :
  collapse_underscores (String underscore (String b r))
  = if Ascii.eqb b underscore then collapse_underscores (String b r)
    else String underscore (collapse_underscores (String b r)).
Proof. reflexivity. Qed.

Lemma collapse_other_cons (a : ascii) (r : string) :
  Ascii.eqb a underscore = false ->
  collapse_underscores (String a r) = String a (collapse_underscores r).
Proof. intros Ha. cbn [collapse_underscores]. rewrite Ha. reflexivity. Qed.

Lemma collapse_keeps_leading (r : string) :
  exists t, collapse_underscores (String underscore r) = String underscore t.
Proof.
  induction r as [|b r' IH].
  - exists EmptyString. reflexivity.
  - rewrite collapse_underscore_cons.
    destruct (Ascii.eqb b underscore) eqn:Hb.
    + apply Ascii.eqb_eq in Hb. subst b. exact IH.
    + eexists. reflexivity.
Qed.

(** The code keeps the last underscore of a run, the wording the
    first: the same string. *)
Lemma collapse_is_spec_collapse (s : string) :
  spec_collapse_from false s = collapse_underscores s
  /\ spec_collapse_from true s = strip_leading (collapse_underscores s).
Proof.
  induction s as [|a r [IHf IHt]].
  - split; reflexivity.
  - destruct (Ascii.eqb a underscore) eqn:Ha.
    + apply Ascii.eqb_eq in Ha. subst a.
      cbn [spec_collapse_from]. rewrite underscore_eqb_refl.
      destruct r as [|b r'].
      * split; reflexivity.
      * rewrite collapse_underscore_cons, IHt.
        destruct (Ascii.eqb b underscore) eqn:Hb.
        -- apply Ascii.eqb_eq in Hb. subst b.
           destruct (collapse_keeps_leading r') as [t Ht].
           rewrite Ht. cbn [strip_leading].
           rewrite underscore_eqb_refl. split; reflexivity.
        -- rewrite (collapse_other_cons _ _ Hb).
           cbn [strip_leading]. rewrite Hb, underscore_eqb_refl.
           split; reflexivity.
    + cbn [spec_collapse_from]. rewrite (collapse_other_cons _ _ Ha).
      cbn [strip_leading]. rewrite Ha, IHf. split; reflexivity.
Qed.

Lemma collapse_no_double (s : string) :
  no_double_underscore (collapse_underscores s) = true.
Proof.
  induction s as [|a r IH]; [reflexivity|].
  destruct (Ascii.eqb a underscore) eqn:Ha.
  - apply Ascii.eqb_eq in Ha. subst a.
    destruct r as [|b r']; [reflexivity|].
    rewrite collapse_underscore_cons.
    destruct (Ascii.eqb b underscore) eqn:Hb; [exact IH|].
    rewrite (collapse_other_cons _ _ Hb) in *.
    change (no_double_underscore
              (String underscore (String b (collapse_underscores r'))))
      with (negb (Ascii.eqb underscore underscore && Ascii.eqb b underscore)
            && no_double_underscore (String b (collapse_underscores r'))).
    rewrite Hb, andb_false_r. exact IH.
  - rewrite (collapse_other_cons _ _ Ha).
    destruct (collapse_underscores r) as [|b t] eqn:Hc; [reflexivity|].
    change (no_double_underscore (String a (String b t)))
      with (negb (Ascii.eqb a underscore && Ascii.eqb b underscore)
            && no_double_underscore (String b t)).
    rewrite Ha. exact IH.
Qed.

Lemma no_double_tail (a : ascii) (s : string) :
  no_double_underscore (String a s) = true -> no_double_underscore s = true.
Proof.
  destruct s as [|b r]; [reflexivity|].
  cbn [no_double_underscore]. intros H.
  apply andb_true_iff in H. exact (proj2 H).
Qed.

Lemma strip_leading_is_drop (s : string) :
  no_double_underscore s = true -> strip_leading s = drop_leading s.
Proof.
  destruct s as [|a r]; [reflexivity|].
  cbn [strip_leading drop_leading].
  destruct (Ascii.eqb a underscore) eqn:Ha; [|reflexivity].
  destruct r as [|b r']; [reflexivity|].
  cbn [no_double_underscore drop_leading]. rewrite Ha.
  destruct (Ascii.eqb b underscore); [discriminate | reflexivity].
Qed.

Lemma drop_trailing_empty (b : ascii) (r : string) :
  drop_trailing (String b r) = EmptyString -> Ascii.eqb b underscore = true.
Proof.
  cbn [drop_trailing].
  destruct (drop_trailing r); [|discriminate].
  destruct (Ascii.eqb b underscore); [reflexivity | discriminate].
Qed.

Lemma strip_trailing_is_drop (s : string) :
  no_double_underscore s = true -> strip_trailing s = drop_trailing s.
Proof.
  induction s as [|a r IH]; [reflexivity|].
  intros Hnd. specialize (IH (no_double_tail _ _ Hnd)).
  destruct r as [|b r']; [reflexivity|].
  change (strip_trailing (String a (String b r')))
    with (String a (strip_trailing (String b r'))).
  rewrite IH.
  change (drop_trailing (String a (String b r')))
    with (match drop_trailing (String b r') with
          | EmptyString =>
              if Ascii.eqb a underscore then EmptyString
              else String a EmptyString
          | t => String a t
          end).
  destruct (drop_trailing (String b r')) as [|c t] eqn:Hd; [|reflexivity].
  apply drop_trailing_empty in Hd.
  cbn [no_double_underscore] in Hnd. rewrite Hd in Hnd.
  destruct (Ascii.eqb a underscore); [discriminate | reflexivity].
Qed.

Lemma strip_leading_no_double (s : string) :
  no_double_underscore s = true ->
  no_double_underscore (strip_leading s) = true.
Proof.
  destruct s as [|a r]; [reflexivity|].
  cbn [strip_leading]. intros H.
  destruct (Ascii.eqb a underscore); [|exact H].
  exact (no_double_tail _ _ H).
Qed.

(** The code's pipeline is the one the specification words. *)
Lemma pipeline_is_sanitized_title (title : string) :
  substring 0 50
    (trim_underscores
       (collapse_underscores
          (replace_outside is_lower_name_char (toLowerCase title))))
  = sanitized_title title.
Proof.
  unfold sanitized_title, trim_underscores, spec_trim, spec_collapse.
  set (s := replace_outside is_lower_name_char (toLowerCase title)).
  rewrite (proj1 (collapse_is_spec_collapse s)).
  pose proof (collapse_no_double s) as Hnd.
  rewrite (strip_trailing_is_drop _ (strip_leading_no_double _ Hnd)).
  rewrite (strip_leading_is_drop _ Hnd). reflexivity.
Qed.

Lemma generateResourceName_sanitized (title : string) :
  generateResourceName (JStr title) false
  = Ok (nonempty_or (sanitized_title title) "imported_dashboard").
Proof.
  unfold generateResourceName.
  rewrite pipeline_is_sanitized_title. reflexivity.
Qed.

End Naming.

(** C2, as the code has it: for every title string the resource name is
    the title lower-cased, with every character outside lowercase
    letters, digits and underscore replaced by an underscore, repeated
    underscores collapsed to one, leading and trailing underscores
    trimmed, and the result truncated to 50 characters; when nothing is
    left, the name is the fallback [imported_dashboard].  In particular
    "Sample Application Dashboard" yields [sample_application_dashboard],
    and an empty or absent title yields the fallback. *)
Theorem C2_resource_name :
  (forall title : string,
      generateResourceName (JStr title) false
      = Ok (nonempty_or (sanitized_title title) "imported_dashboard"))
  /\ generateResourceName (JStr "Sample Application Dashboard") false
     = Ok "sample_application_dashboard"
  /\ generateResourceName (or_else (JStr "") (JStr "imported_dashboard")) false
     = Ok "imported_dashboard"
  /\ generateResourceName (or_else JUndef (JStr "imported_dashboard")) false
     = Ok "imported_dashboard"
  /\ generateResourceName (or_else JNull (JStr "imported_dashboard")) false
     = Ok "imported_dashboard".
Proof.
  split; [exact generateResourceName_sanitized|].
  repeat split; reflexivity.
Qed.

(** C2, as stated, fails at the title "!!!": the five steps leave the
    empty string, and the generated name is the fallback instead. *)
Lemma C2_counterexample :
  sanitized_title "!!!" = EmptyString
  /\ generateResourceName (JStr "!!!") false = Ok "imported_dashboard".
Proof. split; reflexivity. Qed.

(** C10: a non-empty title that sanitizes to the empty string gets the
    fallback name [imported_dashboard], the name [generateHCL] derives
    for an absent title. *)
Theorem C10_fallback_name (title : string) :
  title <> EmptyString ->
  sanitized_title title = EmptyString ->
  generateResourceName (or_else (JStr title) (JStr "imported_dashboard")) false
  = Ok "imported_dashboard"
  /\ generateResourceName (or_else (JStr title) (JStr "imported_dashboard")) false
     = generateResourceName (or_else JUndef (JStr "imported_dashboard")) false.
Proof.
  intros Hne Hs.
  assert (Ht : or_else (JStr title) (JStr "imported_dashboard") = JStr title).
  { unfold or_else, truthy. destruct (String.eqb_spec title ""); [contradiction|].
    reflexivity. }
  rewrite Ht, generateResourceName_sanitized, Hs. split; reflexivity.
Qed.

Lemma C10_fallback_name_witness :
  "!!!" <> EmptyString
  /\ sanitized_title "!!!" = EmptyString
  /\ generateResourceName (or_else (JStr "!!!") (JStr "imported_dashboard")) false
     = Ok "imported_dashboard"
  /\ generateResourceName (or_else (JStr "!!!") (JStr "imported_dashboard")) false
     = generateResourceName (or_else JUndef (JStr "imported_dashboard")) false.
Proof.
  split; [discriminate|]. split; [reflexivity|].
  apply (C10_fallback_name "!!!"); [discriminate | reflexivity].
Defined.

(** ** Induction over values *)

Section ValueInduction.

Variable P : value -> Prop.
Hypothesis P_undef : P JUndef.
Hypothesis P_null : P JNull.
Hypothesis P_bool : forall b, P (JBool b).
Hypothesis P_num : forall n, P (JNum n).
Hypothesis P_str : forall s, P (JStr s).
Hypothesis P_fun : forall name, P (JFun name).
Hypothesis P_arr : forall l, Forall P l -> P (JArr l).
Hypothesis P_obj :
  forall props, Forall (fun kv => P (snd kv)) props -> P (JObj props).

Fixpoint value_induction (v : value) : P v :=
  match v with
  | JUndef => P_undef
  | JNull => P_null
  | JBool b => P_bool b
  | JNum n => P_num n
  | JStr s => P_str s
  | JFun name => P_fun name
  | JArr l =>
      P_arr l
        ((fix each (l : list value) : Forall P l :=
            match l with
            | [] => Forall_nil P
            | x :: rest => Forall_cons x (value_induction x) (each rest)
            end) l)
  | JObj props =>
      P_obj props
        ((fix each (l : list (string * value))
            : Forall (fun kv => P (snd kv)) l :=
            match l with
            | [] => Forall_nil _
            | kv :: rest =>
                Forall_cons kv (value_induction (snd kv)) (each rest)
            end) props)
  end.

End ValueInduction.

(** ** Text *)

Lemma string_app_assoc (a b c : string) : (a ++ b) ++ c = a ++ (b ++ c).
Proof. induction a as [|x a IH]; [reflexivity|]. cbn. now rewrite IH. Qed.

Lemma string_app_nil_r (a : string) : a ++ "" = a.
Proof. induction a as [|x a IH]; [reflexivity|]. cbn. now rewrite IH. Qed.

Lemma string_app_length (a b : string) :
  String.length (a ++ b) = String.length a + String.length b.
Proof. induction a as [|x a IH]; [reflexivity|]. cbn. now rewrite IH. Qed.

(** ** Value formatter *)

Section Escaping.

Lemma replaceAll_app (c : ascii) (by_ s1 s2 : string) :
  replaceAll c by_ (s1 ++ s2) = replaceAll c by_ s1 ++ replaceAll c by_ s2.
Proof.
  induction s1 as [|a r IH]; [reflexivity|].
  cbn [append replaceAll]. rewrite IH.
  destruct (Ascii.eqb a c); [|reflexivity].
  now rewrite string_app_assoc.
Qed.

(** The five replacements in a row, as [escapeHCLString] applies them. *)
Definition five_replacements (s : string) : string :=
  replaceAll (ascii_of_nat 9) (chr 92 ++ "t")
    (replaceAll (ascii_of_nat 13) (chr 92 ++ "r")
       (replaceAll (ascii_of_nat 10) (chr 92 ++ "n")
          (replaceAll (ascii_of_nat 34) (chr 92 ++ dq)
             (replaceAll (ascii_of_nat 92) (chr 92 ++ chr 92) s)))).

Lemma five_replacements_app (s1 s2 : string) :
  five_replacements (s1 ++ s2) = five_replacements s1 ++ five_replacements s2.
Proof.
  unfold five_replacements. now rewrite !replaceAll_app.
Qed.

Lemma five_replacements_char (a : ascii) :
  five_replacements (String a EmptyString) = escape_char a.
Proof.
  destruct a as [[] [] [] [] [] [] [] []]; reflexivity.
Qed.

(** No replacement disturbs what an earlier one wrote: in a row they
    do what one pass over the characters does. *)
Lemma five_replacements_escape (s : string) :
  five_replacements s = escape_chars s.
Proof.
  induction s as [|a r IH]; [reflexivity|].
  change (String a r) with (String a EmptyString ++ r).
  rewrite five_replacements_app, five_replacements_char, IH. reflexivity.
Qed.

Lemma escapeHCLString_string (s : string) :
  escapeHCLString (JStr s) = Ok (dq ++ escape_chars s ++ dq).
Proof.
  unfold escapeHCLString. fold (five_replacements s).
  rewrite five_replacements_escape. reflexivity.
Qed.

Ltac eval_escape_char :=
  match goal with
  | |- context [escape_char ?a] =>
      let v := eval vm_compute in (escape_char a) in
      change (escape_char a) with v
  end.

Lemma unescape_backslash (b : ascii) (r : string) :
  unescape (String (ascii_of_nat 92) (String b r))
  = String (unescape_char b) (unescape r).
Proof. reflexivity. Qed.

Lemma unescape_other (a : ascii) (r : string) :
  (nat_of_ascii a =? 92)%nat = false ->
  unescape (String a r) = String a (unescape r).
Proof. intros H. cbn [unescape]. rewrite H. reflexivity. Qed.

Lemma unescape_escape (s : string) : unescape (escape_chars s) = s.
Proof.
  induction s as [|a r IH]; [reflexivity|].
  destruct a as [[] [] [] [] [] [] [] []];
    cbn [escape_chars]; eval_escape_char; cbn [append];
    first [ rewrite (unescape_backslash _ (escape_chars r))
          | rewrite unescape_other by reflexivity ];
    rewrite IH; reflexivity.
Qed.

Lemma bare_quote_backslash (b : ascii) (r : string) :
  has_bare_quote (String (ascii_of_nat 92) (String b r)) = has_bare_quote r.
Proof. reflexivity. Qed.

Lemma bare_quote_other (a : ascii) (r : string) :
  (nat_of_ascii a =? 92)%nat = false ->
  (nat_of_ascii a =? 34)%nat = false ->
  has_bare_quote (String a r) = has_bare_quote r.
Proof. intros H1 H2. cbn [has_bare_quote]. rewrite H1, H2. reflexivity. Qed.

Lemma escape_no_bare_quote (s : string) :
  has_bare_quote (escape_chars s) = false.
Proof.
  induction s as [|a r IH]; [reflexivity|].
  destruct a as [[] [] [] [] [] [] [] []];
    cbn [escape_chars]; eval_escape_char; cbn [append];
    first [ rewrite (bare_quote_backslash _ (escape_chars r))
          | rewrite bare_quote_other by reflexivity ];
    exact IH.
Qed.

(** Newline, carriage return and tab never survive as themselves. *)
Definition is_line_control (a : ascii) : bool :=
  let n := nat_of_ascii a in (n =? 9)%nat || (n =? 10)%nat || (n =? 13)%nat.

Lemma line_control_cons (a : ascii) (r : string) :
  is_line_control a = false ->
  string_existsb is_line_control (String a r)
  = string_existsb is_line_control r.
Proof. intros H. cbn [string_existsb]. rewrite H. reflexivity. Qed.

Lemma escape_no_line_control (s : string) :
  string_existsb is_line_control (escape_chars s) = false.
Proof.
  induction s as [|a r IH]; [reflexivity|].
  destruct a as [[] [] [] [] [] [] [] []];
    cbn [escape_chars]; eval_escape_char; cbn [append];
    rewrite !line_control_cons by reflexivity; exact IH.
Qed.

(** Every character that is not one of the five is copied. *)
Lemma escape_char_other (a : ascii) :
  one_of (chr 92 ++ chr 34 ++ chr 10 ++ chr 13 ++ chr 9) a = false ->
  escape_char a = String a EmptyString.
Proof.
  destruct a as [[] [] [] [] [] [] [] []]; intros H;
    try reflexivity; discriminate H.
Qed.

Definition ToString_element (x : value) : res string :=
  match x with
  | JUndef | JNull => Ok ""
  | _ => ToString x
  end.

Lemma ToString_array_cons (x : value) (rest : list value) :
  ToString (JArr (x :: rest))
  = (s <- ToString_element x ;;
     match rest with
     | [] => Ok s
     | _ :: _ => r <- ToString (JArr rest) ;; Ok (s ++ "," ++ r)
     end).
Proof. reflexivity. Qed.

Lemma convertible_array_cons (x : value) (rest : list value) :
  convertible (JArr (x :: rest)) = convertible x && convertible (JArr rest).
Proof. reflexivity. Qed.

(** The string conversion raises exactly on the values that are not
    [convertible], and then a TypeError. *)
Lemma ToString_convertible (v : value) :
  match ToString v with
  | Ok _ => convertible v = true
  | Throw e => e = TypeError /\ convertible v = false
  end.
Proof.
  induction v as [| | b | n | s | name | l IH | props _] using value_induction;
    try reflexivity.
  - destruct b; reflexivity.
  - induction IH as [|x rest Hx _ IHrest]; [reflexivity|].
    rewrite ToString_array_cons, convertible_array_cons.
    assert (Hhead :
      match ToString_element x with
      | Ok _ => convertible x = true
      | Throw e => e = TypeError /\ convertible x = false
      end).
    { destruct x; try exact Hx; reflexivity. }
    destruct (ToString_element x) as [sx|e]; cbn [bind].
    + rewrite Hhead. cbn [andb].
      destruct rest as [|y rest']; [reflexivity|].
      destruct (ToString (JArr (y :: rest'))) as [sr|e]; cbn [bind];
        exact IHrest.
    + destruct Hhead as [-> ->]. split; reflexivity.
  - cbn [ToString convertible].
    destruct (has_own "toString" props); [split|]; reflexivity.
Qed.

Lemma escapeHCLString_other (v : value) :
  escapeHCLString v
  = match v with
    | JStr s => Ok (dq ++ escape_chars s ++ dq)
    | _ => s <- ToString v ;; Ok (dq ++ s ++ dq)
    end.
Proof.
  destruct v; try reflexivity. apply escapeHCLString_string.
Qed.

Lemma escapeHCLString_convertible (v : value) :
  match escapeHCLString v with
  | Ok _ => convertible v = true
  | Throw e => e = TypeError /\ convertible v = false
  end.
Proof.
  rewrite escapeHCLString_other.
  pose proof (ToString_convertible v) as H.
  destruct v; try reflexivity;
    destruct (ToString _) as [s|e]; cbn [bind]; exact H.
Qed.

End Escaping.

(** C4, as the code has it: for every string the formatter returns the
    string between double quotes with backslash, double quote, newline,
    carriage return and tab each replaced by their two-character
    backslash escape, every other character copied as it is; the literal
    then holds no raw newline, carriage return or tab and no unescaped
    double quote, and reads back to the input.  A value that is not a
    string is coerced to its quoted string form, and the formatter
    raises, with a TypeError, exactly when that conversion does: on an
    object with a [toString] property of its own, alone or inside an
    array. *)
Theorem C4_escapeHCLString :
  (forall s : string,
      escapeHCLString (JStr s) = Ok (dq ++ escape_chars s ++ dq)
      /\ unescape (escape_chars s) = s
      /\ has_bare_quote (escape_chars s) = false
      /\ string_existsb is_line_control (escape_chars s) = false)
  /\ (forall a : ascii,
        one_of (chr 92 ++ chr 34 ++ chr 10 ++ chr 13 ++ chr 9) a = false ->
        escape_char a = String a EmptyString)
  /\ (forall v : value,
        escapeHCLString v
        = match v with
          | JStr s => Ok (dq ++ escape_chars s ++ dq)
          | _ => s <- ToString v ;; Ok (dq ++ s ++ dq)
          end)
  /\ (forall v : value,
        match escapeHCLString v with
        | Ok _ => convertible v = true
        | Throw e => e = TypeError /\ convertible v = false
        end).
Proof.
  split; [|split; [|split]].
  - intros s. split; [apply escapeHCLString_string|]. split; [apply unescape_escape|].
    split; [apply escape_no_bare_quote | apply escape_no_line_control].
  - exact escape_char_other.
  - exact escapeHCLString_other.
  - exact escapeHCLString_convertible.
Qed.

(** C4, as stated, fails on a backspace: the literal carries the control
    character unescaped.  And an input can raise: an object with a
    [toString] property of its own has no string form. *)
Lemma C4_counterexample :
  escapeHCLString (JStr (chr 8)) = Ok (dq ++ chr 8 ++ dq)
  /\ string_existsb is_control (dq ++ chr 8 ++ dq) = true
  /\ escapeHCLString (JObj [("toString", JNum 1)]) = Throw TypeError.
Proof. repeat split; reflexivity. Qed.

(** ** Validator *)

Section ValidationRun.

Variables validateTerraformStructure validateDatadogProvider
          validateBestPractices : string -> list issue.

Lemma with_severity_length (s : severity) (found : list issue) :
  List.length (with_severity s found) = count_severity s found.
Proof.
  induction found as [|i rest IH]; [reflexivity|].
  cbn [with_severity filter count_severity].
  fold (with_severity s rest).
  destruct (severity_eqb (issue_severity i) s); cbn [List.length]; lia.
Qed.

Lemma count_severity_total (found : list issue) :
  count_severity error found + count_severity warning found
  + count_severity info found = List.length found.
Proof.
  induction found as [|i rest IH]; [reflexivity|].
  cbn [count_severity List.length].
  destruct (issue_severity i); cbn [severity_eqb]; lia.
Qed.

Lemma count_severity_zero (s : severity) (found : list issue) :
  count_severity s found = 0
  <-> Forall (fun i => severity_eqb (issue_severity i) s = false) found.
Proof.
  induction found as [|i rest IH].
  - split; [constructor | reflexivity].
  - cbn [count_severity]. split.
    + intros H. destruct (severity_eqb (issue_severity i) s) eqn:E;
        [discriminate|].
      constructor; [exact E | apply IH; exact H].
    + intros H. inversion H as [|? ? Hi Hrest]; subst.
      rewrite Hi. apply IH. exact Hrest.
Qed.

(** C5: the validity flag of a validation run is true exactly when no
    finding has severity error, whatever warnings and infos there are;
    the summary counts the findings of each severity and their total. *)
Theorem C5_validity (hclContent : string) :
  let r := performHCLValidation validateTerraformStructure
             validateDatadogProvider validateBestPractices hclContent in
  (isValid r = true
   <-> Forall (fun i => severity_eqb (issue_severity i) error = false)
         (result_issues r))
  /\ (isValid r = true <-> count_severity error (result_issues r) = 0)
  /\ errors (result_summary r) = count_severity error (result_issues r)
  /\ warnings (result_summary r) = count_severity warning (result_issues r)
  /\ infos (result_summary r) = count_severity info (result_issues r)
  /\ total (result_summary r) = List.length (result_issues r)
  /\ errors (result_summary r) + warnings (result_summary r)
     + infos (result_summary r) = total (result_summary r)
  /\ result_issues r
     = (validateBasicSyntax (split_lines hclContent) []
        ++ validateTerraformStructure hclContent
        ++ validateDatadogProvider hclContent
        ++ validateBestPractices hclContent)%list.
Proof.
  intros r. subst r. unfold performHCLValidation.
  cbn [isValid result_issues result_summary errors warnings infos total].
  rewrite !with_severity_length.
  set (found := (((validateBasicSyntax (split_lines hclContent) []
                   ++ validateTerraformStructure hclContent)
                  ++ validateDatadogProvider hclContent)
                 ++ validateBestPractices hclContent)%list).
  assert (Hv : Nat.eqb (count_severity error found) 0 = true
               <-> count_severity error found = 0) by apply Nat.eqb_eq.
  split; [rewrite Hv; apply count_severity_zero|].
  split; [exact Hv|].
  repeat (split; [reflexivity|]).
  split; [apply count_severity_total|].
  subst found. now rewrite <- !app_assoc.
Qed.

End ValidationRun.

Section SyntaxPass.

Lemma count_char_issues (st : syntax_state) (a : ascii) :
  issues (count_char st a) = issues st.
Proof.
  unfold count_char.
  repeat match goal with |- context [if ?b then _ else _] => destruct b end;
    reflexivity.
Qed.

Lemma count_char_brace (st : syntax_state) (a : ascii) :
  braceCount (count_char st a)
  = (braceCount st + (if is_char "{" a then 1 else 0)
     - (if is_char "}" a then 1 else 0))%Z.
Proof.
  unfold count_char.
  destruct (is_char "{" a) eqn:Ho.
  - assert (is_char "}" a = false) as ->.
    { unfold is_char in *. apply Ascii.eqb_eq in Ho. subst a. reflexivity. }
    cbn [braceCount]. lia.
  - repeat match goal with |- context [if ?b then _ else _] => destruct b end;
      cbn [braceCount]; lia.
Qed.

Lemma count_line_issues (line : string) (st : syntax_state) :
  issues (count_line st line) = issues st.
Proof.
  revert st. induction line as [|a r IH]; intros st; [reflexivity|].
  cbn [count_line]. rewrite IH. apply count_char_issues.
Qed.

Lemma count_line_brace (line : string) (st : syntax_state) :
  braceCount (count_line st line)
  = (braceCount st + Z.of_nat (occurrences "{" line)
     - Z.of_nat (occurrences "}" line))%Z.
Proof.
  revert st. induction line as [|a r IH]; intros st.
  - cbn. lia.
  - cbn [count_line occurrences]. rewrite IH, count_char_brace.
    destruct (is_char "{" a), (is_char "}" a); lia.
Qed.

(** What one line adds: findings under three titles, never the
    closing ones. *)
Definition line_finding (i : issue) : Prop :=
  issue_title i = "Unclosed string literal"
  \/ issue_title i = "Invalid identifier"
  \/ issue_title i = "Potentially unquoted string".

Lemma syntax_line_effect (st : syntax_state) (lineIndex : nat) (line : string) :
  braceCount (syntax_line st lineIndex line)
  = (braceCount st
     + (if is_code_line line
        then Z.of_nat (occurrences "{" line) - Z.of_nat (occurrences "}" line)
        else 0))%Z
  /\ exists new,
       issues (syntax_line st lineIndex line) = (issues st ++ new)%list
       /\ Forall line_finding new.
Proof.
  unfold syntax_line, is_code_line.
  destruct ((trim line =? "") || startsWith "#" (trim line)
            || startsWith "//" (trim line)).
  - cbn [negb]. split; [lia|]. exists []. rewrite app_nil_r. split; constructor.
  - cbn [negb].
    repeat match goal with
           | |- context [if ?b then _ else _] => destruct b
           | |- context [match ?o with Some _ => _ | None => _ end] => destruct o
           end;
      unfold push; cbn [braceCount issues];
      rewrite ?count_line_brace, ?count_line_issues; cbn [braceCount issues];
      (split; [lia|]);
      rewrite <- ?app_assoc;
      first [ exists []; rewrite app_nil_r; split; [reflexivity | constructor]
            | eexists; (split; [reflexivity|]);
              repeat first
                [ apply Forall_nil
                | apply Forall_cons;
                  [ unfold line_finding; cbn [issue_title]; auto | ] ] ].
Qed.

Lemma syntax_lines_effect (lines : list string) :
  forall (st : syntax_state) (lineIndex : nat),
    braceCount (syntax_lines st lineIndex lines)
    = (braceCount st + brace_balance lines)%Z
    /\ exists new,
         issues (syntax_lines st lineIndex lines) = (issues st ++ new)%list
         /\ Forall line_finding new.
Proof.
  induction lines as [|line rest IH]; intros st lineIndex.
  - cbn. split; [lia|]. exists []. rewrite app_nil_r. split; constructor.
  - cbn [syntax_lines brace_balance].
    destruct (IH (syntax_line st lineIndex line) (S lineIndex))
      as [Hb [new2 [Hi Hf2]]].
    destruct (syntax_line_effect st lineIndex line) as [Hb1 [new1 [Hi1 Hf1]]].
    rewrite Hb, Hb1, Hi, Hi1. split; [lia|].
    exists (new1 ++ new2)%list. rewrite app_assoc. split; [reflexivity|].
    apply Forall_app. split; assumption.
Qed.

Lemma titled_app (title : string) (a b : list issue) :
  titled title (a ++ b) = (titled title a ++ titled title b)%list.
Proof. apply filter_app. Qed.

Lemma titled_line_findings (new : list issue) :
  Forall line_finding new -> titled "Unmatched braces" new = [].
Proof.
  induction 1 as [|i rest Hi _ IH]; [reflexivity|].
  cbn [titled filter]. fold (titled "Unmatched braces" rest). rewrite IH.
  destruct Hi as [-> | [-> | ->]]; reflexivity.
Qed.

Lemma titled_unmatched_other (count : Z) (what : string) :
  (what =? "braces") = false ->
  titled "Unmatched braces" (unmatched count what) = [].
Proof.
  intros Hw. unfold unmatched.
  destruct (negb (count =? 0)%Z); [|reflexivity].
  cbn [titled filter issue_title].
  replace ("Unmatched " ++ what =? "Unmatched braces") with (what =? "braces");
    [rewrite Hw; reflexivity|].
  reflexivity.
Qed.

(** The findings titled "Unmatched braces" that the pass adds: one when
    the balance is not zero, none otherwise. *)
Lemma unmatched_braces_findings (lines : list string) :
  titled "Unmatched braces" (validateBasicSyntax lines [])
  = unmatched (brace_balance lines) "braces".
Proof.
  unfold validateBasicSyntax.
  destruct (syntax_lines_effect lines (mkState 0 0 0 []) 0)
    as [Hb [new [Hi Hf]]].
  cbn [braceCount issues app] in Hb, Hi.
  rewrite Hb, Hi, !titled_app, (titled_line_findings new Hf).
  rewrite (titled_unmatched_other _ "brackets") by reflexivity.
  rewrite (titled_unmatched_other _ "parentheses") by reflexivity.
  rewrite !app_nil_r. cbn [app Z.add].
  unfold unmatched. destruct (negb (brace_balance lines =? 0)%Z); reflexivity.
Qed.

End SyntaxPass.

(** C8, as the code has it: for every text in which, over the lines that
    are neither blank nor comments, the opening braces outnumber the
    closing braces by exactly one, the syntax pass produces exactly one
    finding titled "Unmatched braces": an error that reports 1 unmatched
    opening brace. *)
Theorem C8_unmatched_brace (text : string) :
  brace_balance (split_lines text) = 1%Z ->
  titled "Unmatched braces" (validateBasicSyntax (split_lines text) [])
  = [ mkIssue error "Unmatched braces" "Found 1 unmatched opening braces."
        None "Overall structure" ].
Proof.
  intros H. rewrite unmatched_braces_findings, H. reflexivity.
Qed.

Lemma C8_unmatched_brace_witness :
  brace_balance (split_lines ("resource x {" ++ nl ++ "  y {" ++ nl ++ "  }")) = 1%Z
  /\ titled "Unmatched braces"
       (validateBasicSyntax
          (split_lines ("resource x {" ++ nl ++ "  y {" ++ nl ++ "  }")) [])
     = [ mkIssue error "Unmatched braces" "Found 1 unmatched opening braces."
           None "Overall structure" ].
Proof.
  split; [reflexivity|].
  apply (C8_unmatched_brace ("resource x {" ++ nl ++ "  y {" ++ nl ++ "  }")).
  reflexivity.
Defined.

(** C8, as stated, fails on two texts that each hold exactly one
    unmatched opening brace: in the first a closing brace comes before
    it and the counts cancel, in the second it stands on a comment line,
    which the pass skips.  Neither yields a finding. *)
Lemma C8_counterexample :
  unmatched_opening_braces "}{" = 1
  /\ validateBasicSyntax (split_lines "}{") [] = []
  /\ unmatched_opening_braces "# {" = 1
  /\ validateBasicSyntax (split_lines "# {") [] = [].
Proof. repeat split; vm_compute; reflexivity. Qed.

(** ** Determinism *)

Section Determinism.

Lemma forEach_list_ext {A : Type} (f g : A -> res string) (l : list A) :
  (forall x, In x l -> f x = g x) -> forEach_list f l = forEach_list g l.
Proof.
  induction l as [|x rest IH]; intros H; [reflexivity|].
  cbn [forEach_list]. rewrite (H x (or_introl eq_refl)).
  rewrite IH; [reflexivity|]. intros y Hy. apply H. right. exact Hy.
Qed.

Lemma forEach_ext (f g : value -> res string) (xs : value) :
  (forall x, f x = g x) -> forEach xs f = forEach xs g.
Proof.
  intros H. destruct xs; try reflexivity.
  apply forEach_list_ext. intros x _. apply H.
Qed.

Lemma bind_ext {A B : Type} (m : res A) (k k' : A -> res B) :
  (forall a, m = Ok a -> k a = k' a) -> bind m k = bind m k'.
Proof. intros H. destruct m; [apply H; reflexivity | reflexivity]. Qed.

Variables widgetMappings1 widgetMappings2 : value.
Hypothesis same_registry :
  get_opt widgetMappings1 "widgets" = get_opt widgetMappings2 "widgets".

Lemma registryLookup_same (widgetType : value) :
  registryLookup widgetMappings1 widgetType
  = registryLookup widgetMappings2 widgetType.
Proof. unfold registryLookup. rewrite same_registry. reflexivity. Qed.

Lemma generateNestedWidget_with_same
    (f g : value -> value -> value -> res string) (nestedWidget : value) :
  (forall c d t, f c d t = g c d t) ->
  generateNestedWidget_with f widgetMappings1 nestedWidget
  = generateNestedWidget_with g widgetMappings2 nestedWidget.
Proof.
  intros H. unfold generateNestedWidget_with.
  destruct (get nestedWidget "definition") as [d|e]; [|reflexivity].
  cbn [bind].
  destruct (get (or_else d (JObj [])) "type") as [t|e]; [|reflexivity].
  cbn [bind]. rewrite registryLookup_same.
  destruct (registryLookup widgetMappings2 (or_else t (JStr "unknown")))
    as [cfg|e]; [|reflexivity].
  cbn [bind]. rewrite H. reflexivity.
Qed.

Lemma feature_block_ext (features definition : value) (flag field : string)
    (emit emit' : value -> res string) :
  (forall d, emit d = emit' d) ->
  feature_block features definition flag field emit
  = feature_block features definition flag field emit'.
Proof.
  intros H. unfold feature_block.
  destruct (get features flag) as [f|e]; [|reflexivity]. cbn [bind].
  destruct (truthy f); [|reflexivity].
  destruct (get definition field) as [d|e]; [|reflexivity]. cbn [bind].
  destruct (truthy d); [apply H | reflexivity].
Qed.

Lemma generateConfiguredWidget_rec_same (depth : nat) :
  forall widgetConfig definition widgetType,
    generateConfiguredWidget_rec depth widgetMappings1 widgetConfig definition
      widgetType
    = generateConfiguredWidget_rec depth widgetMappings2 widgetConfig definition
        widgetType.
Proof.
  induction depth as [|d IH]; intros cfg def ty; [reflexivity|].
  cbn [generateConfiguredWidget_rec].
  apply (f_equal cat). do 5 (apply (f_equal2 cons eq_refl)).
  apply (f_equal2 cons); [|reflexivity].
  apply bind_ext; intros f _.
  apply (f_equal cat). do 5 (apply (f_equal2 cons eq_refl)).
  apply (f_equal2 cons); [|reflexivity].
  apply feature_block_ext.
  intros widgets. apply forEach_ext. intros w.
  apply generateNestedWidget_with_same. exact IH.
Qed.

Lemma generateWidgetHCL_same (widget : value) :
  generateWidgetHCL widgetMappings1 widget
  = generateWidgetHCL widgetMappings2 widget.
Proof.
  unfold generateWidgetHCL, generateModernWidgetHCL, generateConfiguredWidget.
  destruct (get widget "definition") as [d|e]; [|reflexivity]. cbn [bind].
  destruct (get_opt d "type") as [t|e]; [|reflexivity]. cbn [bind].
  rewrite registryLookup_same.
  destruct (registryLookup widgetMappings2 (or_else t (JStr "unknown")))
    as [cfg|e]; [|reflexivity].
  cbn [bind]. rewrite generateConfiguredWidget_rec_same. reflexivity.
Qed.

(** The output depends on the registry through its widget table only. *)
Lemma generateHCL_same (dashboardData : value) :
  generateHCL widgetMappings1 dashboardData
  = generateHCL widgetMappings2 dashboardData.
Proof.
  unfold generateHCL.
  destruct (get dashboardData "widgets") as [ws|e]; [|reflexivity].
  cbn [bind].
  rewrite (forEach_ext (generateWidgetHCL widgetMappings1)
             (generateWidgetHCL widgetMappings2) ws generateWidgetHCL_same).
  reflexivity.
Qed.

End Determinism.



(** ** Emission completes on well-formed documents *)

Section Returns.

Lemma returns_Ok {A : Type} (a : A) : returns (Ok a).
Proof. exists a. reflexivity. Qed.

Lemma returns_bind {A B : Type} (m : res A) (k : A -> res B) :
  returns m -> (forall a, m = Ok a -> returns (k a)) -> returns (bind m k).
Proof.
  intros [a Ha] Hk. rewrite Ha. cbn [bind]. apply Hk. exact Ha.
Qed.

Lemma returns_cat (pieces : list (res string)) :
  Forall returns pieces -> returns (cat pieces).
Proof.
  induction 1 as [|m rest [s Hs] _ [t Ht]]; [apply returns_Ok|].
  cbn [cat]. rewrite Hs, Ht. apply returns_Ok.
Qed.

Lemma returns_forEach_list {A : Type} (f : A -> res string) (l : list A) :
  (forall x, In x l -> returns (f x)) -> returns (forEach_list f l).
Proof.
  induction l as [|x rest IH]; intros H; [apply returns_Ok|].
  cbn [forEach_list].
  destruct (H x (or_introl eq_refl)) as [s Hs].
  destruct IH as [t Ht]; [intros y Hy; apply H; right; exact Hy|].
  rewrite Hs, Ht. apply returns_Ok.
Qed.

Lemma doc_array_cons (x : value) (rest : list value) :
  doc (JArr (x :: rest)) = negb (nullish x) && doc x && doc (JArr rest).
Proof. reflexivity. Qed.

Lemma doc_array_element (l : list value) (x : value) :
  doc (JArr l) = true -> In x l -> doc x = true /\ nullish x = false.
Proof.
  induction l as [|y rest IH]; intros Hd Hin; [contradiction|].
  rewrite doc_array_cons in Hd.
  apply andb_true_iff in Hd. destruct Hd as [Hd Hrest].
  apply andb_true_iff in Hd. destruct Hd as [Hn Hy].
  destruct Hin as [<-|Hin].
  - split; [exact Hy|]. now apply negb_true_iff in Hn.
  - apply IH; assumption.
Qed.

(** The part of [doc] that speaks of the members of an object. *)
Fixpoint doc_members (l : list (string * value)) : bool :=
  match l with
  | [] => true
  | (_, x) :: rest => doc x && doc_members rest
  end.

Lemma doc_object (props : list (string * value)) :
  doc (JObj props)
  = negb (has_own "toString" props)
    && negb (has_own "hasOwnProperty" props)
    && array_or_falsy (lookup "widgets" props)
    && array_or_falsy (lookup "requests" props)
    && array_or_falsy (lookup "template_variables" props)
    && kind_ok (lookup "type" props)
    && not_null (lookup "timeseries_background" props)
    && doc_members props.
Proof. reflexivity. Qed.

Lemma doc_members_lookup (props : list (string * value)) (k : string) (v : value) :
  doc_members props = true -> lookup k props = Some v -> doc v = true.
Proof.
  induction props as [|[k' x] rest IH]; intros Hd Hl; [discriminate|].
  cbn [doc_members] in Hd. apply andb_true_iff in Hd. destruct Hd as [Hx Hrest].
  cbn [lookup] in Hl. destruct (k' =? k).
  - inversion Hl. subst. exact Hx.
  - apply IH; assumption.
Qed.

Lemma doc_lookup (props : list (string * value)) (k : string) (v : value) :
  doc (JObj props) = true -> lookup k props = Some v -> doc v = true.
Proof.
  rewrite doc_object. intros Hd. apply andb_true_iff in Hd.
  apply doc_members_lookup. exact (proj2 Hd).
Qed.

Lemma doc_ok (v : value) : doc v = true -> ok v = true.
Proof. destruct v; intros H; try exact H; reflexivity. Qed.

Lemma ok_inherited (names : list string) (k : string) :
  ok (inherited names k) = true.
Proof. unfold inherited. destruct (existsb _ _); reflexivity. Qed.

Lemma index_get_In {A : Type} (k : string) (l : list A) :
  forall i x, index_get k i l = Some x -> In x l.
Proof.
  induction l as [|y rest IH]; intros i x H; [discriminate|].
  cbn [index_get] in H. destruct (k =? nat_to_string i).
  - inversion H. left. reflexivity.
  - right. exact (IH _ _ H).
Qed.

(** Reading a property of a well-formed value that is there. *)
Lemma get_ok (o : value) (k : string) :
  ok o = true -> nullish o = false ->
  exists v, get o k = Ok v /\ ok v = true.
Proof.
  intros Ho Hn. destruct o; try discriminate; cbn [get].
  - eexists. split; [reflexivity | apply ok_inherited].
  - eexists. split; [reflexivity | apply ok_inherited].
  - eexists. split; [reflexivity|].
    destruct (k =? "length"); [reflexivity|].
    destruct (index_get k 0 (chars s)); [reflexivity | apply ok_inherited].
  - eexists. split; [reflexivity|].
    destruct (k =? "length"); [reflexivity|].
    destruct (index_get k 0 elems) as [v|] eqn:E; [|apply ok_inherited].
    apply doc_ok. apply (doc_array_element elems v Ho).
    exact (index_get_In _ _ _ _ E).
  - eexists. split; [reflexivity|].
    destruct (lookup k props) as [v|] eqn:E; [|apply ok_inherited].
    apply doc_ok. exact (doc_lookup _ _ _ Ho E).
  - eexists. split; [reflexivity | apply ok_inherited].
Qed.

Lemma truthy_not_nullish (v : value) : truthy v = true -> nullish v = false.
Proof. destruct v; intros H; try reflexivity; discriminate. Qed.

Lemma doc_convertible (v : value) : doc v = true -> convertible v = true.
Proof.
  induction v as [| | b | n | s | name | l IH | props _] using value_induction;
    intros H; try reflexivity.
  - induction IH as [|x rest Hx _ IHrest]; [reflexivity|].
    rewrite doc_array_cons in H. rewrite convertible_array_cons.
    apply andb_true_iff in H. destruct H as [H Hrest].
    apply andb_true_iff in H. destruct H as [_ Hd].
    rewrite (Hx Hd), (IHrest Hrest). reflexivity.
  - rewrite doc_object in H. cbn [convertible].
    repeat (apply andb_true_iff in H; destruct H as [H _]). exact H.
Qed.

Lemma ok_convertible (v : value) : ok v = true -> convertible v = true.
Proof. destruct v; try reflexivity; apply doc_convertible. Qed.

Lemma returns_ToString (v : value) : ok v = true -> returns (ToString v).
Proof.
  intros H. apply ok_convertible in H.
  pose proof (ToString_convertible v) as Hc.
  destruct (ToString v) as [s|e]; [apply returns_Ok|].
  destruct Hc as [_ Hc]. congruence.
Qed.

Lemma returns_escapeHCLString (v : value) :
  ok v = true -> returns (escapeHCLString v).
Proof.
  intros H. apply ok_convertible in H.
  pose proof (escapeHCLString_convertible v) as Hc.
  destruct (escapeHCLString v) as [s|e]; [apply returns_Ok|].
  destruct Hc as [_ Hc]. congruence.
Qed.

(** *** Reading a property by an ordinary name *)

Definition starts_with_digit (k : string) : bool :=
  match k with
  | String a _ => is_digit a
  | EmptyString => false
  end.

(** A name that is no array index, not [length], and no inherited
    method: only an object can have such a property. *)
Definition plain_name (k : string) : bool :=
  negb (starts_with_digit k)
  && negb (k =? "length")
  && negb (existsb (String.eqb k)
             (array_prototype ++ string_prototype ++ number_prototype
              ++ object_prototype)%list).

Lemma uint_string_digit (d : Decimal.uint) :
  starts_with_digit (NilZero.string_of_uint d) = true.
Proof. destruct d; reflexivity. Qed.

Lemma nat_to_string_digit (i : nat) :
  starts_with_digit (nat_to_string i) = true.
Proof.
  unfold nat_to_string, Z_to_string.
  destruct (Z.of_nat i) as [|p|p] eqn:E.
  - reflexivity.
  - apply uint_string_digit.
  - lia.
Qed.

Lemma index_get_plain {A : Type} (k : string) (l : list A) :
  starts_with_digit k = false -> forall i, index_get k i l = None.
Proof.
  intros Hk. induction l as [|x rest IH]; intros i; [reflexivity|].
  cbn [index_get]. destruct (String.eqb_spec k (nat_to_string i)) as [E|_].
  - rewrite E, nat_to_string_digit in Hk. discriminate.
  - apply IH.
Qed.

Lemma inherited_plain (names : list string) (k : string) :
  existsb (String.eqb k) (names ++ object_prototype)%list = false ->
  inherited names k = JUndef.
Proof. intros H. unfold inherited. rewrite H. reflexivity. Qed.

Lemma get_plain (o : value) (k : string) :
  plain_name k = true -> nullish o = false ->
  get o k
  = Ok (match o with
        | JObj props =>
            match lookup k props with Some v => v | None => JUndef end
        | _ => JUndef
        end).
Proof.
  unfold plain_name. intros Hk Hn.
  apply andb_true_iff in Hk. destruct Hk as [Hk Hp].
  apply andb_true_iff in Hk. destruct Hk as [Hd Hl].
  apply negb_true_iff in Hd, Hl, Hp.
  rewrite !existsb_app in Hp.
  apply orb_false_iff in Hp. destruct Hp as [Ha Hp].
  apply orb_false_iff in Hp. destruct Hp as [Hs Hp].
  apply orb_false_iff in Hp. destruct Hp as [Hnum Ho].
  destruct o; try discriminate; cbn [get].
  - rewrite inherited_plain; [reflexivity|]. exact Ho.
  - rewrite inherited_plain; [reflexivity|].
    rewrite existsb_app, Hnum, Ho. reflexivity.
  - rewrite Hl, (index_get_plain k (chars s) Hd).
    rewrite inherited_plain; [reflexivity|].
    rewrite existsb_app, Hs, Ho. reflexivity.
  - rewrite Hl, (index_get_plain k elems Hd).
    rewrite inherited_plain; [reflexivity|].
    rewrite existsb_app, Ha, Ho. reflexivity.
  - destruct (lookup k props); [reflexivity|].
    rewrite inherited_plain; [reflexivity|]. exact Ho.
  - rewrite inherited_plain; [reflexivity|]. exact Ho.
Qed.

End Returns.

Section ReturnsEmitters.

Lemma ok_or_else (a b : value) :
  ok a = true -> ok b = true -> ok (or_else a b) = true.
Proof. intros Ha Hb. unfold or_else. destruct (truthy a); assumption. Qed.

Lemma or_else_not_nullish (a b : value) :
  nullish b = false -> nullish (or_else a b) = false.
Proof.
  intros Hb. unfold or_else. destruct (truthy a) eqn:E; [|exact Hb].
  apply truthy_not_nullish. exact E.
Qed.

Lemma ok_array_doc (l : list value) : ok (JArr l) = true -> doc (JArr l) = true.
Proof. intros H. exact H. Qed.

Lemma returns_forEach (xs : value) (f : value -> res string) :
  ok xs = true -> isArray xs = true ->
  (forall x, ok x = true -> nullish x = false -> returns (f x)) ->
  returns (forEach xs f).
Proof.
  intros Hok Harr Hf. destruct xs; try discriminate.
  cbn [forEach]. apply returns_forEach_list. intros x Hx.
  destruct (doc_array_element elems x Hok Hx) as [Hd Hn].
  apply Hf; [apply doc_ok; exact Hd | exact Hn].
Qed.

Lemma returns_gt_zero (v : value) : ok v = true -> returns (gt_zero v).
Proof.
  intros H. destruct v; cbn [gt_zero]; try apply returns_Ok;
    (destruct (returns_ToString _ H) as [s ->]; apply returns_Ok).
Qed.

(** One step of a proof that an emitter returns. *)
Ltac side :=
  first [ assumption
        | reflexivity
        | apply truthy_not_nullish; assumption
        | apply doc_ok; assumption
        | apply ok_or_else; [assumption | reflexivity]
        | apply or_else_not_nullish; reflexivity ].

Create HintDb ret discriminated.

#[local] Hint Resolve truthy_not_nullish doc_ok : ret.

Ltac ret_step :=
  match goal with
  | |- returns _ => solve [auto 3 with ret nocore]
  | |- returns (Ok _) => apply returns_Ok
  | |- returns (lit _) => apply returns_Ok
  | |- returns (cat _) =>
      apply returns_cat; repeat apply Forall_cons; try apply Forall_nil
  | |- returns (bind (get ?o ?k) _) =>
      let v := fresh "v" in
      let Hv := fresh "Hv" in
      let Hok := fresh "Hok" in
      destruct (get_ok o k) as [v [Hv Hok]];
      [side | side | rewrite Hv; cbn [bind]]
  | |- returns (get ?o ?k) =>
      let v := fresh "v" in
      let Hv := fresh "Hv" in
      let Hok := fresh "Hok" in
      destruct (get_ok o k) as [v [Hv Hok]];
      [side | side | rewrite Hv; apply returns_Ok]
  | |- returns (bind (ToString ?v) _) =>
      let s := fresh "s" in
      let Hs := fresh "Hs" in
      destruct (returns_ToString v) as [s Hs]; [side | rewrite Hs; cbn [bind]]
  | |- returns (ToString ?v) => apply returns_ToString; side
  | |- returns (bind (escapeHCLString ?v) _) =>
      let s := fresh "s" in
      let Hs := fresh "Hs" in
      destruct (returns_escapeHCLString v) as [s Hs];
      [side | rewrite Hs; cbn [bind]]
  | |- returns (escapeHCLString ?v) => apply returns_escapeHCLString; side
  | |- returns (bind (gt_zero ?v) _) =>
      let b := fresh "b" in
      let Hb := fresh "Hb" in
      destruct (returns_gt_zero v) as [b Hb]; [side | rewrite Hb; cbn [bind]]
  | |- returns (if ?b then _ else _) => destruct b eqn:?
  | |- returns (quoted_if_truthy _ _) => unfold quoted_if_truthy
  | |- returns (raw_if_truthy _ _) => unfold raw_if_truthy
  | |- returns (raw_if_defined _ _) => unfold raw_if_defined
  | |- returns (quoted_if_defined _ _) => unfold quoted_if_defined
  | |- returns (escaped_if_truthy _ _) => unfold escaped_if_truthy
  | |- returns (and_get _ _) => unfold and_get
  | |- returns (bind (and_get _ _) _) => unfold and_get
  | |- returns (bind (if ?b then _ else _) _) => destruct b eqn:?; cbn [bind]
  | |- returns (bind (Ok _) _) => cbn [bind]
  | |- returns (forEach ?xs _) =>
      apply returns_forEach;
      [ side
      | first [ assumption
              | reflexivity
              | match goal with
                | H : _ && isArray xs = true |- _ =>
                    apply andb_true_iff in H; exact (proj2 H)
                end ]
      | intros ? ? ? ]
  | |- returns (bind ?m _) =>
      apply returns_bind; [solve [auto 3 with ret nocore] | intros ? _]
  end.

Ltac ret := repeat ret_step.

Lemma returns_generateYAxisConfiguration (yaxis : value) :
  ok yaxis = true -> nullish yaxis = false ->
  returns (generateYAxisConfiguration yaxis).
Proof. intros Hok Hn. unfold generateYAxisConfiguration. ret. Qed.

#[local] Hint Resolve returns_generateYAxisConfiguration : ret.

Lemma returns_generateEventsConfiguration (events : value) :
  ok events = true -> returns (generateEventsConfiguration events).
Proof. intros Hok. unfold generateEventsConfiguration. ret. Qed.

#[local] Hint Resolve returns_generateEventsConfiguration : ret.

Lemma returns_generateStyleConfiguration (style : value) :
  ok style = true -> nullish style = false ->
  returns (generateStyleConfiguration style).
Proof. intros Hok Hn. unfold generateStyleConfiguration. ret. Qed.

#[local] Hint Resolve returns_generateStyleConfiguration : ret.

Lemma returns_generateViewConfiguration (view : value) :
  ok view = true -> nullish view = false ->
  returns (generateViewConfiguration view).
Proof. intros Hok Hn. unfold generateViewConfiguration. ret. Qed.

#[local] Hint Resolve returns_generateViewConfiguration : ret.

Lemma returns_generateSortConfiguration (sort : value) :
  ok sort = true -> nullish sort = false ->
  returns (generateSortConfiguration sort).
Proof. intros Hok Hn. unfold generateSortConfiguration. ret. Qed.

#[local] Hint Resolve returns_generateSortConfiguration : ret.

Lemma nonempty_length_ok (x : value) :
  ok x = true -> exists v, nonempty_length x = Ok v /\ ok v = true.
Proof.
  intros Hok. unfold nonempty_length.
  destruct (truthy x) eqn:Ht; [|exists x; split; [reflexivity | exact Hok]].
  destruct (get_ok x "length" Hok (truthy_not_nullish x Ht)) as [len [Hl Hlok]].
  rewrite Hl. cbn [bind].
  destruct (returns_gt_zero len Hlok) as [b Hb]. rewrite Hb. cbn [bind].
  exists (JBool b). split; reflexivity.
Qed.

Lemma hasValidRequestContent_ok (request : value) :
  ok request = true -> nullish request = false ->
  exists v, hasValidRequestContent request = Ok v.
Proof.
  intros Hok Hn. unfold hasValidRequestContent.
  destruct (get_ok request "q" Hok Hn) as [q [Hq Hqok]]. rewrite Hq. cbn [bind].
  destruct (truthy q); [eexists; reflexivity|].
  destruct (get_ok request "queries" Hok Hn) as [qs [Hqs Hqsok]].
  rewrite Hqs. cbn [bind].
  destruct (nonempty_length_ok qs Hqsok) as [v [Hv _]]. rewrite Hv. cbn [bind].
  destruct (truthy v); [eexists; reflexivity|].
  destruct (get_ok request "formulas" Hok Hn) as [fs [Hfs Hfsok]].
  rewrite Hfs. cbn [bind].
  destruct (nonempty_length_ok fs Hfsok) as [w [Hw _]]. rewrite Hw.
  eexists; reflexivity.
Qed.

Lemma returns_conditional_formats_blocks (request : value) :
  ok request = true -> nullish request = false ->
  returns (conditional_formats_blocks request).
Proof. intros Hok Hn. unfold conditional_formats_blocks. ret. Qed.

#[local] Hint Resolve returns_conditional_formats_blocks : ret.

Lemma returns_request_style_block (label : string) (request : value) :
  ok request = true -> nullish request = false ->
  returns (request_style_block label request).
Proof. intros Hok Hn. unfold request_style_block. ret. Qed.

#[local] Hint Resolve returns_request_style_block : ret.

Lemma returns_generateQueryBlock (query : value) :
  ok query = true -> nullish query = false ->
  returns (generateQueryBlock query).
Proof. intros Hok Hn. unfold generateQueryBlock. ret. Qed.

#[local] Hint Resolve returns_generateQueryBlock : ret.

Lemma returns_formula_block (formula : value) :
  ok formula = true -> nullish formula = false ->
  returns (formula_block formula).
Proof. intros Hok Hn. unfold formula_block. ret. Qed.

#[local] Hint Resolve returns_formula_block : ret.

Lemma returns_modernRequest (request : value) :
  ok request = true -> nullish request = false ->
  returns (modernRequest request).
Proof.
  intros Hok Hn. unfold modernRequest.
  destruct (hasValidRequestContent_ok request Hok Hn) as [valid Hv].
  rewrite Hv. cbn [bind].
  destruct (truthy valid); [|apply returns_Ok].
  ret.
Qed.

#[local] Hint Resolve returns_modernRequest : ret.

Lemma and_get_ok (a : value) (k : string) :
  ok a = true -> exists v, and_get a k = Ok v /\ ok v = true.
Proof.
  intros Hok. unfold and_get. destruct (truthy a) eqn:Ht.
  - apply get_ok; [exact Hok | apply truthy_not_nullish; exact Ht].
  - exists a. split; [reflexivity | exact Hok].
Qed.

Lemma legacyLogQuery_ok (query : value) :
  ok query = true -> nullish query = false ->
  exists v, legacyLogQuery query = Ok v /\ ok v = true.
Proof.
  intros Hok Hn. unfold legacyLogQuery.
  destruct (get_ok query "compute" Hok Hn) as [compute [Hc Hcok]].
  rewrite Hc. cbn [bind].
  destruct (and_get_ok compute "aggregation" Hcok) as [agg [Ha Haok]].
  rewrite Ha. cbn [bind].
  assert (Hlog : exists logQuery,
             (if truthy agg
              then a <- ToString agg ;;
                   metric <- get compute "metric" ;;
                   if truthy metric
                   then m <- ToString metric ;; Ok (JStr (a ++ ":" ++ m))
                   else Ok (JStr (a ++ ":"))
              else Ok (JStr "")) = Ok logQuery /\ ok logQuery = true).
  { destruct (truthy agg) eqn:Ht; [|eexists; split; reflexivity].
    destruct (returns_ToString agg Haok) as [a Hs]. rewrite Hs. cbn [bind].
    assert (Hcn : nullish compute = false).
    { unfold and_get in Ha. destruct (truthy compute) eqn:Htc.
      - apply truthy_not_nullish. exact Htc.
      - inversion Ha. subst. rewrite Ht in Htc. discriminate. }
    destruct (get_ok compute "metric" Hcok Hcn) as [metric [Hm Hmok]].
    rewrite Hm. cbn [bind].
    destruct (truthy metric); [|eexists; split; reflexivity].
    destruct (returns_ToString metric Hmok) as [m Hms]. rewrite Hms.
    eexists; split; reflexivity. }
  destruct Hlog as [logQuery [Hl Hlok]]. rewrite Hl. cbn [bind].
  destruct (get_ok query "search" Hok Hn) as [search [Hse Hseok]].
  rewrite Hse. cbn [bind].
  destruct (and_get_ok search "query" Hseok) as [sq [Hsq Hsqok]].
  rewrite Hsq. cbn [bind].
  destruct (truthy sq && negb (truthy logQuery));
    [exists sq; split; [reflexivity | exact Hsqok]|].
  destruct (truthy sq); [|exists logQuery; split; [reflexivity | exact Hlok]].
  destruct (returns_ToString logQuery Hlok) as [l Hls]. rewrite Hls.
  destruct (returns_ToString sq Hsqok) as [t Hts]. rewrite Hts.
  eexists; split; reflexivity.
Qed.

Lemma returns_legacyQueryLine (request : value) :
  ok request = true -> nullish request = false ->
  returns (legacyQueryLine request).
Proof.
  intros Hok Hn. unfold legacyQueryLine.
  destruct (get_ok request "q" Hok Hn) as [q [Hq Hqok]]. rewrite Hq. cbn [bind].
  destruct (truthy q) eqn:Htq; [ret|].
  destruct (get_ok request "queries" Hok Hn) as [qs [Hqs Hqsok]].
  rewrite Hqs. cbn [bind].
  destruct (truthy qs && isArray qs) eqn:Harr; [|apply returns_Ok].
  apply andb_true_iff in Harr. destruct Harr as [Htqs _].
  destruct (get_ok qs "0" Hqsok (truthy_not_nullish qs Htqs)) as [query [Hq0 Hq0ok]].
  rewrite Hq0. cbn [bind].
  destruct (and_get_ok query "query" Hq0ok) as [qq [Hqq Hqqok]].
  rewrite Hqq. cbn [bind].
  destruct (truthy qq); [ret|].
  destruct (and_get_ok query "search" Hq0ok) as [search [Hse Hseok]].
  rewrite Hse. cbn [bind].
  destruct (and_get_ok search "query" Hseok) as [sq [Hsq Hsqok]].
  rewrite Hsq. cbn [bind].
  destruct (truthy sq); [ret|].
  destruct (truthy query) eqn:Htquery; [|apply returns_Ok].
  destruct (get_ok query "data_source" Hq0ok (truthy_not_nullish query Htquery))
    as [ds [Hds _]].
  rewrite Hds. cbn [bind].
  destruct (strict_eq_string ds "logs"); [|apply returns_Ok].
  destruct (legacyLogQuery_ok query Hq0ok (truthy_not_nullish query Htquery))
    as [logQuery [Hl Hlok]].
  rewrite Hl. cbn [bind]. ret.
Qed.

#[local] Hint Resolve returns_legacyQueryLine : ret.

Lemma returns_legacyRequest (request : value) :
  ok request = true -> nullish request = false ->
  returns (legacyRequest request).
Proof.
  intros Hok Hn. unfold legacyRequest.
  destruct (hasValidRequestContent_ok request Hok Hn) as [valid Hv].
  rewrite Hv. cbn [bind].
  destruct (truthy valid); [|apply returns_Ok].
  ret.
Qed.

#[local] Hint Resolve returns_legacyRequest : ret.

Lemma returns_generateModernRequests (requests : value) :
  ok requests = true -> isArray requests = true ->
  returns (generateModernRequests requests).
Proof. intros Hok Harr. unfold generateModernRequests. ret. Qed.

Lemma returns_generateLegacyRequests (requests : value) :
  ok requests = true -> isArray requests = true ->
  returns (generateLegacyRequests requests).
Proof. intros Hok Harr. unfold generateLegacyRequests. ret. Qed.

#[local] Hint Resolve returns_generateModernRequests
  returns_generateLegacyRequests : ret.

Lemma returns_formatPropertyValue (v : value) :
  ok v = true -> returns (formatPropertyValue v).
Proof. intros Hok. unfold formatPropertyValue. ret. Qed.

#[local] Hint Resolve returns_formatPropertyValue : ret.

Lemma returns_commonProperty (definition prop : value) :
  ok definition = true -> nullish definition = false -> ok prop = true ->
  returns (commonProperty definition prop).
Proof. intros Hok Hn Hp. unfold commonProperty. ret. Qed.

#[local] Hint Resolve returns_commonProperty : ret.

(** What the well-formedness of a document says about the properties
    the emitters single out. *)
Lemma get_plain_doc (o : value) (k : string) :
  plain_name k = true -> ok o = true -> nullish o = false ->
  exists v, get o k = Ok v
            /\ (v = JUndef
                \/ (doc v = true
                    /\ exists props, o = JObj props /\ lookup k props = Some v)).
Proof.
  intros Hk Hok Hn. rewrite (get_plain o k Hk Hn).
  destruct o; try (eexists; split; [reflexivity | left; reflexivity]).
  destruct (lookup k props) as [v|] eqn:E;
    [|eexists; split; [reflexivity | left; reflexivity]].
  exists v. split; [reflexivity|]. right.
  split; [exact (doc_lookup props k v Hok E)|]. exists props. split; reflexivity || exact E.
Qed.

Lemma doc_field (props : list (string * value)) :
  doc (JObj props) = true ->
  array_or_falsy (lookup "widgets" props) = true
  /\ array_or_falsy (lookup "requests" props) = true
  /\ array_or_falsy (lookup "template_variables" props) = true
  /\ kind_ok (lookup "type" props) = true
  /\ not_null (lookup "timeseries_background" props) = true
  /\ has_own "hasOwnProperty" props = false.
Proof.
  rewrite doc_object. intros H.
  apply andb_true_iff in H. destruct H as [H _].
  apply andb_true_iff in H. destruct H as [H Hbg].
  apply andb_true_iff in H. destruct H as [H Hkind].
  apply andb_true_iff in H. destruct H as [H Htv].
  apply andb_true_iff in H. destruct H as [H Hreq].
  apply andb_true_iff in H. destruct H as [H Hw].
  apply andb_true_iff in H. destruct H as [_ Hown].
  apply negb_true_iff in Hown. repeat split; assumption.
Qed.

(** A list the emitters walk is an array when it is truthy. *)
Lemma walked_list (o : value) (k : string) :
  k = "widgets" \/ k = "requests" ->
  ok o = true -> nullish o = false ->
  exists v, get o k = Ok v /\ ok v = true
            /\ (truthy v = true ->
                isArray v = true
                /\ exists props, o = JObj props /\ lookup k props = Some v).
Proof.
  intros Hk Hok Hn.
  assert (Hp : plain_name k = true) by (destruct Hk; subst; reflexivity).
  destruct (get_plain_doc o k Hp Hok Hn) as [v [Hv [->|[Hd [props [-> Hl]]]]]].
  - exists JUndef. split; [exact Hv|]. split; [reflexivity | discriminate].
  - exists v. split; [exact Hv|]. split; [apply doc_ok; exact Hd|].
    intros Ht. split; [|exists props; split; [reflexivity | exact Hl]].
    destruct (doc_field props Hok) as [Hw [Hr _]].
    assert (Ha : array_or_falsy (Some v) = true).
    { destruct Hk; subst k; rewrite <- Hl; assumption. }
    unfold array_or_falsy in Ha.
    destruct v; try reflexivity; rewrite Ht in Ha; discriminate.
Qed.

(** The kind of a definition names no inherited member. *)
Lemma kind_of_definition (definition t : value) :
  ok definition = true -> nullish definition = false ->
  get definition "type" = Ok t ->
  exists s, or_else t (JStr "unknown") = JStr s
            /\ existsb (String.eqb s) object_prototype = false.
Proof.
  intros Hok Hn Ht.
  destruct (get_plain_doc definition "type" eq_refl Hok Hn)
    as [v [Hv [->|[Hd [props [-> Hl]]]]]]; rewrite Hv in Ht; inversion Ht; subst t.
  - exists "unknown". split; reflexivity.
  - destruct (doc_field props Hok) as [_ [_ [_ [Hkind _]]]].
    rewrite Hl in Hkind. unfold kind_ok in Hkind. unfold or_else.
    destruct v;
      try (apply negb_true_iff in Hkind; rewrite Hkind;
           exists "unknown"; split; reflexivity).
    destruct (truthy (JStr s)).
    + exists s. split; [reflexivity | now apply negb_true_iff in Hkind].
    + exists "unknown". split; reflexivity.
Qed.

Lemma forallb_lookup (table : list (string * value)) (k : string) (v : value) :
  forallb (fun kv => config_ok (snd kv)) table = true ->
  lookup k table = Some v -> config_ok v = true.
Proof.
  induction table as [|[k' x] rest IH]; intros H Hl; [discriminate|].
  cbn [forallb snd] in H. apply andb_true_iff in H. destruct H as [Hx Hrest].
  cbn [lookup] in Hl. destruct (k' =? k).
  - inversion Hl. subst. exact Hx.
  - apply IH; assumption.
Qed.

(** Looking a kind up in a well-formed registry: no entry, or a
    well-formed one. *)
Lemma registryLookup_ok (widgetMappings : value) (s : string) :
  registry_ok widgetMappings = true ->
  existsb (String.eqb s) object_prototype = false ->
  exists cfg, registryLookup widgetMappings (JStr s) = Ok cfg
              /\ (cfg = JUndef \/ config_ok cfg = true).
Proof.
  intros Hr Hs. unfold registryLookup.
  destruct widgetMappings; try discriminate.
  - exists JUndef. split; [reflexivity | left; reflexivity].
  - cbn [get_opt get registry_ok] in *.
    destruct (lookup "widgets" props) as [w|] eqn:E.
    + destruct w; try discriminate. cbn [bind ToString get].
      destruct (lookup s props0) as [cfg|] eqn:El.
      * exists cfg. split; [reflexivity|]. right.
        exact (forallb_lookup props0 s cfg Hr El).
      * exists JUndef. split; [|left; reflexivity].
        rewrite inherited_plain; [reflexivity | exact Hs].
    + exists JUndef. split; [reflexivity | left; reflexivity].
Qed.

Lemma returns_specificProperty (definition : value) (entry : string * value) :
  ok definition = true -> nullish definition = false ->
  ok (snd entry) = true ->
  returns (specificProperty definition entry).
Proof.
  intros Hok Hn He. destruct entry as [jsonProp hclProp]. cbn [snd] in He.
  unfold specificProperty.
  destruct (get_ok definition jsonProp Hok Hn) as [v [Hv Hvok]].
  rewrite Hv. cbn [bind].
  destruct (negb (is_undefined v)); [|apply returns_Ok].
  destruct ((jsonProp =? "timeseries_background") && (typeof v =? "object"))
    eqn:Hb; [|ret].
  apply andb_true_iff in Hb. destruct Hb as [Hj Ht].
  apply String.eqb_eq in Hj. subst jsonProp.
  assert (Hvn : nullish v = false).
  { destruct (get_plain_doc definition "timeseries_background" eq_refl Hok Hn)
      as [w [Hw [->|[_ [props [-> Hl]]]]]]; rewrite Hw in Hv; inversion Hv; subst.
    - discriminate.
    - destruct (doc_field props Hok) as [_ [_ [_ [_ [Hbg _]]]]].
      rewrite Hl in Hbg. destruct v; try reflexivity; discriminate. }
  ret.
Qed.

#[local] Hint Resolve returns_specificProperty : ret.

Lemma returns_feature_block (features definition : value) (flag field : string)
    (emit : value -> res string) :
  ok features = true -> nullish features = false ->
  ok definition = true -> nullish definition = false ->
  (forall d, get definition field = Ok d -> ok d = true -> truthy d = true ->
             returns (emit d)) ->
  returns (feature_block features definition flag field emit).
Proof.
  intros Hf Hfn Hd Hdn He. unfold feature_block.
  destruct (get_ok features flag Hf Hfn) as [f [Hgf _]]. rewrite Hgf. cbn [bind].
  destruct (truthy f); [|apply returns_Ok].
  destruct (get_ok definition field Hd Hdn) as [d [Hgd Hdok]].
  rewrite Hgd. cbn [bind].
  destruct (truthy d) eqn:Ht; [|apply returns_Ok].
  apply He; assumption.
Qed.

Lemma returns_layout_dimension (layout : value) (k : string) (d : Z) :
  ok layout = true -> nullish layout = false ->
  returns (layout_dimension layout k d).
Proof. intros Hok Hn. unfold layout_dimension. ret. Qed.

#[local] Hint Resolve returns_layout_dimension : ret.

Lemma value_depth_array_cons (x : value) (rest : list value) :
  value_depth (JArr (x :: rest))
  = S (Nat.max (value_depth x) (pred (value_depth (JArr rest)))).
Proof. reflexivity. Qed.

Lemma value_depth_element (l : list value) (x : value) :
  In x l -> value_depth x < value_depth (JArr l).
Proof.
  induction l as [|y rest IH]; intros Hin; [contradiction|].
  rewrite value_depth_array_cons. destruct Hin as [<-|Hin]; [lia|].
  specialize (IH Hin). lia.
Qed.

Lemma value_depth_object_cons (k : string) (x : value)
    (rest : list (string * value)) :
  value_depth (JObj ((k, x) :: rest))
  = S (Nat.max (value_depth x) (pred (value_depth (JObj rest)))).
Proof. reflexivity. Qed.

Lemma value_depth_lookup (props : list (string * value)) (k : string) (v : value) :
  lookup k props = Some v -> value_depth v < value_depth (JObj props).
Proof.
  induction props as [|[k' x] rest IH]; intros Hl; [discriminate|].
  rewrite value_depth_object_cons. cbn [lookup] in Hl.
  destruct (k' =? k).
  - inversion Hl. subst. lia.
  - specialize (IH Hl). lia.
Qed.

Lemma doc_truthy_not_nullish (a : value) :
  nullish (or_else a (JObj [])) = false.
Proof. apply or_else_not_nullish. reflexivity. Qed.

(** The definition of a widget, as the emitters take it:
    [widget.definition || {}]. *)
Lemma definition_of_widget (widget : value) :
  ok widget = true -> nullish widget = false ->
  exists d, get widget "definition" = Ok d
            /\ doc (or_else d (JObj [])) = true
            /\ value_depth (or_else d (JObj []))
               <= Nat.max (pred (value_depth widget)) 1.
Proof.
  intros Hok Hn.
  destruct (get_plain_doc widget "definition" eq_refl Hok Hn)
    as [d [Hd [->|[Hdoc [props [-> Hl]]]]]]; exists d || exists JUndef.
  - split; [exact Hd|]. split; [reflexivity|]. cbn. lia.
  - split; [exact Hd|]. unfold or_else. destruct (truthy d).
    + split; [exact Hdoc|]. pose proof (value_depth_lookup props _ d Hl). lia.
    + split; [reflexivity|]. cbn [value_depth]. lia.
Qed.

Lemma returns_generateNestedWidget_with
    (configured : value -> value -> value -> res string)
    (widgetMappings nestedWidget : value) :
  registry_ok widgetMappings = true ->
  ok nestedWidget = true -> nullish nestedWidget = false ->
  (forall cfg def ty,
      config_ok cfg = true -> doc def = true -> nullish def = false ->
      value_depth def <= Nat.max (pred (value_depth nestedWidget)) 1 ->
      returns (configured cfg def ty)) ->
  returns (generateNestedWidget_with configured widgetMappings nestedWidget).
Proof.
  intros Hr Hok Hn Hc. unfold generateNestedWidget_with.
  apply returns_cat. repeat apply Forall_cons; try apply Forall_nil;
    try solve [ret].
  destruct (definition_of_widget nestedWidget Hok Hn) as [d [Hd [Hdoc Hdepth]]].
  rewrite Hd. cbn [bind].
  set (nestedDefinition := or_else d (JObj [])) in *.
  assert (Hdn : nullish nestedDefinition = false)
    by apply doc_truthy_not_nullish.
  destruct (get_ok nestedDefinition "type" (doc_ok _ Hdoc) Hdn) as [t [Ht _]].
  rewrite Ht. cbn [bind].
  destruct (kind_of_definition nestedDefinition t (doc_ok _ Hdoc) Hdn Ht)
    as [s [Hs Hproto]].
  rewrite Hs.
  destruct (registryLookup_ok widgetMappings s Hr Hproto) as [cfg [Hl Hcfg]].
  rewrite Hl. cbn [bind].
  destruct Hcfg as [->|Hcfg].
  - cbn [truthy ToString bind]. pose proof (doc_ok _ Hdoc). ret.
  - assert (Htc : truthy cfg = true) by (destruct cfg; try discriminate; reflexivity).
    rewrite Htc.
    destruct (Hc cfg nestedDefinition (JStr s) Hcfg Hdoc Hdn Hdepth) as [out Hout].
    rewrite Hout. apply returns_Ok.
Qed.

Lemma doc_members_In (l : list (string * value)) (kv : string * value) :
  doc_members l = true -> In kv l -> doc (snd kv) = true.
Proof.
  induction l as [|[k x] rest IH]; intros Hd Hin; [contradiction|].
  cbn [doc_members] in Hd. apply andb_true_iff in Hd. destruct Hd as [Hx Hrest].
  destruct Hin as [<-|Hin]; [exact Hx | apply IH; assumption].
Qed.

Lemma doc_object_members (props : list (string * value)) :
  doc (JObj props) = true -> doc_members props = true.
Proof.
  rewrite doc_object. intros H. apply andb_true_iff in H. exact (proj2 H).
Qed.

Lemma config_ok_fields (cfg : value) :
  config_ok cfg = true ->
  doc cfg = true /\ nullish cfg = false
  /\ (exists l, get cfg "commonProperties" = Ok (JArr l) /\ doc (JArr l) = true)
  /\ (exists sp, get cfg "specificProperties" = Ok (JObj sp)
                  /\ doc (JObj sp) = true).
Proof.
  intros H. destruct cfg; try discriminate. cbn [config_ok] in H.
  apply andb_true_iff in H. destruct H as [H Hsp].
  apply andb_true_iff in H. destruct H as [Hdoc Hcp].
  split; [exact Hdoc|]. split; [reflexivity|]. cbn [get]. split.
  - destruct (lookup "commonProperties" props) as [v|] eqn:E; [|discriminate].
    destruct v; try discriminate. exists elems. split; [reflexivity|].
    exact (doc_lookup props _ _ Hdoc E).
  - destruct (lookup "specificProperties" props) as [v|] eqn:E; [|discriminate].
    destruct v; try discriminate. exists props0. split; [reflexivity|].
    exact (doc_lookup props _ _ Hdoc E).
Qed.

Lemma returns_generateConfiguredWidget_rec (depth : nat) :
  forall widgetMappings widgetConfig definition widgetType,
    registry_ok widgetMappings = true ->
    config_ok widgetConfig = true ->
    doc definition = true -> nullish definition = false ->
    value_depth definition <= depth ->
    returns (generateConfiguredWidget_rec depth widgetMappings widgetConfig
               definition widgetType).
Proof.
  induction depth as [|depth' IH]; intros wm cfg def ty Hr Hcfg Hdoc Hn Hdepth.
  all: destruct (config_ok_fields cfg Hcfg)
         as [Hcdoc [Hcn [[cp [Hcp Hcpdoc]] [sp [Hsp Hspdoc]]]]].
  all: pose proof (doc_ok _ Hdoc) as Hok; pose proof (doc_ok _ Hcdoc) as Hcok.
  all: cbn [generateConfiguredWidget_rec]; rewrite Hcp, Hsp; cbn [bind Object_entries].
  all: apply returns_cat; repeat apply Forall_cons; try apply Forall_nil;
       try solve [ret].
  all: try solve [ apply returns_forEach_list; intros kv Hin;
                   apply returns_specificProperty; try assumption;
                   apply doc_ok;
                   exact (doc_members_In sp kv (doc_object_members sp Hspdoc) Hin) ].
  all: try solve [ destruct (get_ok cfg "requestStructure" Hcok Hcn) as [rs [Hrs _]];
                   rewrite Hrs; cbn [bind];
                   destruct (walked_list def "requests" (or_intror eq_refl) Hok Hn)
                     as [r [Hgr [Hrok Harr]]];
                   rewrite Hgr; cbn [bind];
                   destruct (truthy r) eqn:Htr;
                   [ destruct (Harr eq_refl) as [Ha _];
                     rewrite !andb_true_r;
                     destruct (strict_eq_string rs "modern");
                     [ apply returns_generateModernRequests; assumption
                     | destruct (strict_eq_string rs "legacy");
                       [ apply returns_generateLegacyRequests; assumption
                       | apply returns_Ok ] ]
                   | rewrite !andb_false_r; apply returns_Ok ] ].
  all: destruct (get_ok cfg "features" Hcok Hcn) as [f [Hf Hfok]];
       rewrite Hf; cbn [bind];
       assert (Hfeat : ok (or_else f (JObj [])) = true)
         by (apply ok_or_else; [exact Hfok | reflexivity]);
       assert (Hfeatn : nullish (or_else f (JObj [])) = false)
         by apply doc_truthy_not_nullish;
       apply returns_cat; repeat apply Forall_cons; try apply Forall_nil.
  all: apply returns_feature_block; try assumption.
  all: try solve [intros d _ Hdok Ht; auto 3 with ret nocore].
  all: intros ws Hws _ Htws;
       destruct (walked_list def "widgets" (or_introl eq_refl) Hok Hn)
         as [ws' [Hws' [_ Harr]]];
       rewrite Hws in Hws'; inversion Hws'; subst ws'; clear Hws';
       destruct (Harr Htws) as [Ha [props [-> Hl]]];
       destruct ws as [| | | | |l| |]; try discriminate;
       pose proof (value_depth_lookup props _ _ Hl) as Hlt.
  - destruct l as [|w l']; [apply returns_Ok|].
    pose proof (value_depth_element (w :: l') w (or_introl eq_refl)). lia.
  - cbn [forEach]. apply returns_forEach_list. intros w Hin.
    pose proof (doc_lookup props _ _ Hdoc Hl) as Hldoc.
    destruct (doc_array_element l w Hldoc Hin) as [Hwdoc Hwn].
    pose proof (value_depth_element l w Hin) as Hw.
    apply returns_generateNestedWidget_with; try assumption;
      [apply doc_ok; exact Hwdoc|].
    intros cfg' def' ty' Hcfg' Hdoc' Hn' Hd'.
    apply IH; try assumption. lia.
Qed.

Lemma returns_generateConfiguredWidget
    (widgetMappings widgetConfig definition widgetType : value) :
  registry_ok widgetMappings = true ->
  config_ok widgetConfig = true ->
  doc definition = true -> nullish definition = false ->
  returns (generateConfiguredWidget widgetMappings widgetConfig definition
             widgetType).
Proof.
  intros. unfold generateConfiguredWidget.
  apply returns_generateConfiguredWidget_rec; try assumption. lia.
Qed.

Lemma nonempty_length_truthy (x v : value) :
  nonempty_length x = Ok v -> truthy v = true -> truthy x = true.
Proof.
  unfold nonempty_length. destruct (truthy x) eqn:E; [reflexivity|].
  intros H Hv. inversion H. subst. congruence.
Qed.

Lemma JSON_stringify_4_doc (v : value) :
  doc v = true -> exists s, JSON_stringify_4 v = Some s.
Proof.
  intros H. destruct v; try discriminate; try destruct b; eexists; reflexivity.
Qed.

Lemma returns_generateModernWidgetHCL
    (widgetMappings widget definition : value) (s : string) :
  registry_ok widgetMappings = true ->
  ok widget = true -> nullish widget = false ->
  existsb (String.eqb s) object_prototype = false ->
  doc definition = true -> nullish definition = false ->
  returns (generateModernWidgetHCL widgetMappings widget (JStr s) definition).
Proof.
  intros Hr Hok Hn Hs Hdoc Hdn. unfold generateModernWidgetHCL.
  pose proof (doc_ok _ Hdoc) as Hdok.
  apply returns_cat. repeat apply Forall_cons; try apply Forall_nil;
    try solve [ret].
  destruct (registryLookup_ok widgetMappings s Hr Hs) as [cfg [Hl Hcfg]].
  rewrite Hl. cbn [bind]. destruct Hcfg as [->|Hcfg].
  - cbn [truthy ToString bind].
    apply returns_cat. repeat apply Forall_cons; try apply Forall_nil;
      try solve [ret].
    + destruct (get_ok definition "requests" Hdok Hdn) as [r [Hgr Hrok]].
      rewrite Hgr. cbn [bind].
      destruct (nonempty_length_ok r Hrok) as [v [Hv _]]. rewrite Hv. cbn [bind].
      destruct (truthy v) eqn:Htv; [|apply returns_Ok].
      pose proof (nonempty_length_truthy r v Hv Htv). ret.
    + destruct (JSON_stringify_4_doc definition Hdoc) as [json ->].
      apply returns_Ok.
  - assert (Htc : truthy cfg = true)
      by (destruct cfg; try discriminate; reflexivity).
    rewrite Htc. apply returns_generateConfiguredWidget; assumption.
Qed.

Lemma returns_generateWidgetHCL (widgetMappings widget : value) :
  registry_ok widgetMappings = true ->
  ok widget = true -> nullish widget = false ->
  returns (generateWidgetHCL widgetMappings widget).
Proof.
  intros Hr Hok Hn. unfold generateWidgetHCL.
  destruct (definition_of_widget widget Hok Hn) as [d [Hd [Hdoc _]]].
  destruct (get_ok widget "definition" Hok Hn) as [d' [Hd' Hdok]].
  rewrite Hd in Hd'. inversion Hd'. subst d'. clear Hd'.
  rewrite Hd. cbn [bind].
  assert (Hkind : exists t s,
             get_opt d "type" = Ok t
             /\ or_else t (JStr "unknown") = JStr s
             /\ existsb (String.eqb s) object_prototype = false).
  { destruct (nullish d) eqn:Hdn.
    - exists JUndef, "unknown". destruct d; try discriminate;
        repeat split; reflexivity.
    - destruct (get_ok d "type" Hdok Hdn) as [t [Ht _]].
      destruct (kind_of_definition d t Hdok Hdn Ht) as [s [Hs Hp]].
      exists t, s. split; [|split; assumption].
      destruct d; try discriminate; exact Ht. }
  destruct Hkind as [t [s [Ht [Hs Hp]]]]. rewrite Ht. cbn [bind]. rewrite Hs.
  apply returns_generateModernWidgetHCL; try assumption.
  apply doc_truthy_not_nullish.
Qed.

#[local] Hint Resolve returns_generateWidgetHCL : ret.

Lemma returns_templateVariable (variable : value) :
  ok variable = true -> nullish variable = false ->
  returns (templateVariable variable).
Proof. intros Hok Hn. unfold templateVariable. ret. Qed.

#[local] Hint Resolve returns_templateVariable : ret.

Lemma hasOwnProperty_doc (props : list (string * value)) (k : string) :
  doc (JObj props) = true ->
  hasOwnProperty (JObj props) k = Ok (has_own k props).
Proof.
  intros Hdoc. destruct (doc_field props Hdoc) as [_ [_ [_ [_ [_ Hown]]]]].
  unfold hasOwnProperty, has_own in *. cbn [get].
  destruct (lookup "hasOwnProperty" props); [discriminate|]. reflexivity.
Qed.

(** A truthy [nonempty_length] of a list the dashboard emitter walks
    means an array. *)
Lemma walked_dashboard_list (props : list (string * value)) (k : string)
    (x v : value) :
  k = "widgets" \/ k = "template_variables" ->
  doc (JObj props) = true ->
  get (JObj props) k = Ok x ->
  nonempty_length x = Ok v -> truthy v = true ->
  isArray x = true /\ ok x = true.
Proof.
  intros Hk Hdoc Hx Hv Ht.
  pose proof (nonempty_length_truthy x v Hv Ht) as Htx.
  destruct (doc_field props Hdoc) as [Hw [_ [Htv _]]].
  cbn [get] in Hx.
  assert (Ha : exists o, lookup k props = o /\ array_or_falsy o = true).
  { destruct Hk; subst k; eexists; split; try reflexivity; assumption. }
  destruct Ha as [o [Ho Ha]]. rewrite Ho in Hx.
  destruct o as [y|].
  - inversion Hx. subst y. rewrite <- Ho in Ha.
    pose proof (doc_lookup props k x Hdoc) as Hd. rewrite Ho in *.
    specialize (Hd eq_refl).
    unfold array_or_falsy in Ha.
    destruct x; try (rewrite Htx in Ha; discriminate).
    split; [reflexivity | exact Hd].
  - inversion Hx. subst x.
    destruct Hk; subst k; discriminate Htx.
Qed.

Lemma returns_generateHCL (widgetMappings dashboardData : value) :
  registry_ok widgetMappings = true ->
  dashboard_ok dashboardData = true ->
  returns (generateHCL widgetMappings dashboardData).
Proof.
  intros Hr Hd. destruct dashboardData; try discriminate.
  cbn [dashboard_ok] in Hd. apply andb_true_iff in Hd. destruct Hd as [Hdoc Htitle].
  pose proof (doc_ok _ Hdoc) as Hok.
  assert (Hn : nullish (JObj props) = false) by reflexivity.
  unfold generateHCL.
  destruct (get_ok (JObj props) "title" Hok Hn) as [t [Ht Htok]].
  rewrite Ht. cbn [bind].
  destruct (returns_escapeHCLString (or_else t (JStr "Imported Dashboard")))
    as [title Hti]; [apply ok_or_else; [exact Htok | reflexivity]|].
  rewrite Hti. cbn [bind].
  destruct (get_ok (JObj props) "description" Hok Hn) as [d [Hgd Hdok]].
  rewrite Hgd. cbn [bind].
  assert (Hdesc : exists description,
             (if truthy d then e <- escapeHCLString d ;; Ok (Some e)
              else Ok None) = Ok description).
  { destruct (truthy d); [|eexists; reflexivity].
    destruct (returns_escapeHCLString d Hdok) as [e ->]. eexists; reflexivity. }
  destruct Hdesc as [description ->]. cbn [bind].
  destruct (get_ok (JObj props) "layout_type" Hok Hn) as [lt [Hlt Hltok]].
  rewrite Hlt. cbn [bind].
  assert (Hname : exists title',
             or_else t (JStr "imported_dashboard") = JStr title').
  { cbn [get] in Ht. inversion Ht as [Ht']. clear Ht.
    destruct (lookup "title" props) as [v|].
    - subst t. unfold or_else.
      destruct v; try (apply negb_true_iff in Htitle; rewrite Htitle);
        try (eexists; reflexivity).
      destruct (truthy (JStr s)); eexists; reflexivity.
    - subst t. eexists; reflexivity. }
  destruct Hname as [title' ->].
  cbn [generateResourceName bind].
  apply returns_cat. repeat apply Forall_cons; try apply Forall_nil;
    try solve [ret].
  - destruct description; [apply returns_Ok|].
    rewrite (hasOwnProperty_doc props _ Hdoc). cbn [bind]. ret.
  - destruct (get_ok (JObj props) "notify_list" Hok Hn) as [nlist [Hg Hgok]].
    rewrite Hg. cbn [bind].
    destruct (nonempty_length_ok nlist Hgok) as [v [Hv _]]. rewrite Hv. cbn [bind].
    destruct (truthy v); [apply returns_Ok|].
    rewrite (hasOwnProperty_doc props _ Hdoc). cbn [bind]. ret.
  - destruct (get_ok (JObj props) "tags" Hok Hn) as [tags [Hg Hgok]].
    rewrite Hg. cbn [bind].
    destruct (nonempty_length_ok tags Hgok) as [v [Hv _]]. rewrite Hv. cbn [bind].
    ret.
  - destruct (get_ok (JObj props) "template_variables" Hok Hn) as [tv [Hg Hgok]].
    rewrite Hg. cbn [bind].
    destruct (nonempty_length_ok tv Hgok) as [v [Hv _]]. rewrite Hv. cbn [bind].
    destruct (truthy v) eqn:Htv; [|apply returns_Ok].
    destruct (walked_dashboard_list props "template_variables" tv v
                (or_intror eq_refl) Hdoc Hg Hv Htv) as [Harr _].
    ret.
  - destruct (get_ok (JObj props) "widgets" Hok Hn) as [ws [Hg Hgok]].
    rewrite Hg. cbn [bind].
    destruct (nonempty_length_ok ws Hgok) as [v [Hv _]]. rewrite Hv. cbn [bind].
    destruct (truthy v) eqn:Htv; [|apply returns_Ok].
    destruct (walked_dashboard_list props "widgets" ws v
                (or_introl eq_refl) Hdoc Hg Hv Htv) as [Harr _].
    ret.
Qed.

End ReturnsEmitters.

(** ** The recursion through nested widgets

    [generateConfiguredWidget] gives the recursion room for the depth of
    the definition; more room changes nothing, so the function satisfies
    the recursive equation of the source. *)

Section Fuel.

Lemma value_depth_inherited (names : list string) (k : string) :
  value_depth (inherited names k) = 0.
Proof. unfold inherited. destruct (existsb _ _); reflexivity. Qed.

Lemma value_depth_get (o : value) (k : string) (v : value) :
  get o k = Ok v -> value_depth v <= pred (value_depth o).
Proof.
  destruct o; cbn [get]; intros H; inversion H; subst; clear H;
    rewrite ?value_depth_inherited; try lia.
  - destruct (k =? "length"); [cbn; lia|].
    destruct (index_get k 0 (chars s)); [cbn; lia|].
    rewrite value_depth_inherited. lia.
  - destruct (k =? "length"); [cbn; lia|].
    destruct (index_get k 0 elems) as [x|] eqn:E.
    + pose proof (value_depth_element elems x (index_get_In _ _ _ _ E)). lia.
    + rewrite value_depth_inherited. lia.
  - destruct (lookup k props) as [x|] eqn:E.
    + pose proof (value_depth_lookup props k x E). lia.
    + rewrite value_depth_inherited. lia.
Qed.

Lemma feature_block_agree (features definition : value) (flag field : string)
    (emit emit' : value -> res string) :
  (forall d, get definition field = Ok d -> truthy d = true ->
             emit d = emit' d) ->
  feature_block features definition flag field emit
  = feature_block features definition flag field emit'.
Proof.
  intros H. unfold feature_block.
  destruct (get features flag) as [f|e]; [|reflexivity]. cbn [bind].
  destruct (truthy f); [|reflexivity].
  destruct (get definition field) as [d|e] eqn:E; [|reflexivity]. cbn [bind].
  destruct (truthy d) eqn:Ht; [apply H; [reflexivity | exact Ht] | reflexivity].
Qed.

Lemma generateNestedWidget_with_agree
    (f g : value -> value -> value -> res string)
    (widgetMappings nestedWidget : value) :
  (forall cfg def ty,
      value_depth def <= Nat.max (pred (value_depth nestedWidget)) 1 ->
      f cfg def ty = g cfg def ty) ->
  generateNestedWidget_with f widgetMappings nestedWidget
  = generateNestedWidget_with g widgetMappings nestedWidget.
Proof.
  intros H. unfold generateNestedWidget_with.
  destruct (get nestedWidget "definition") as [d|e] eqn:E; [|reflexivity].
  cbn [bind].
  destruct (get (or_else d (JObj [])) "type") as [t|e]; [|reflexivity].
  cbn [bind].
  destruct (registryLookup widgetMappings (or_else t (JStr "unknown")))
    as [cfg|e]; [|reflexivity].
  cbn [bind]. rewrite H; [reflexivity|].
  pose proof (value_depth_get _ _ _ E).
  unfold or_else. destruct (truthy d); cbn [value_depth]; lia.
Qed.

(** Two emissions of a configured widget that differ in the emitter of
    the nested widgets only: what is left to show is that the two
    emitters agree. *)
Ltac at_nested_widgets :=
  apply (f_equal cat); do 5 (apply (f_equal2 cons eq_refl));
  apply (f_equal2 cons); [|reflexivity];
  apply bind_ext; intros ?f _;
  apply (f_equal cat); do 5 (apply (f_equal2 cons eq_refl));
  apply (f_equal2 cons); [|reflexivity].

Lemma generateConfiguredWidget_rec_room (n : nat) :
  forall m widgetMappings widgetConfig definition widgetType,
    value_depth definition <= n -> value_depth definition <= m ->
    generateConfiguredWidget_rec n widgetMappings widgetConfig definition
      widgetType
    = generateConfiguredWidget_rec m widgetMappings widgetConfig definition
        widgetType.
Proof.
  induction n as [|n' IH]; intros m wm cfg def ty Hn Hm.
  all: destruct m as [|m'].
  1: reflexivity.
  all: cbn [generateConfiguredWidget_rec]; at_nested_widgets.
  all: apply feature_block_agree.
  all: intros ws Hws Ht; pose proof (value_depth_get _ _ _ Hws) as Hd;
       destruct ws; try reflexivity; cbn [forEach];
       apply forEach_list_ext; intros w Hin;
       pose proof (value_depth_element elems w Hin) as Hw;
       try lia.
  apply generateNestedWidget_with_agree. intros cfg' def' ty' Hdef'.
  apply IH; lia.
Qed.

(** The recursive equation of [generateConfiguredWidget], as the source
    writes it. *)
Lemma generateConfiguredWidget_equation
    (widgetMappings widgetConfig definition widgetType : value) :
  generateConfiguredWidget widgetMappings widgetConfig definition widgetType
  = cat [ (blockName <- get widgetConfig "blockName" ;;
           b <- ToString blockName ;;
           Ok ("    " ++ b ++ " {" ++ nl));
          (v <- get definition "live_span" ;;
           quoted_if_truthy "      live_span   = " v);
          (commonProperties <- get widgetConfig "commonProperties" ;;
           forEach commonProperties (commonProperty definition));
          (specificProperties <- get widgetConfig "specificProperties" ;;
           entries <- Object_entries specificProperties ;;
           forEach_list (specificProperty definition) entries);
          (requestStructure <- get widgetConfig "requestStructure" ;;
           requests <- get definition "requests" ;;
           if strict_eq_string requestStructure "modern" && truthy requests
           then generateModernRequests requests
           else if strict_eq_string requestStructure "legacy" && truthy requests
           then generateLegacyRequests requests
           else Ok "");
          (f <- get widgetConfig "features" ;;
           let features := or_else f (JObj []) in
           cat [ feature_block features definition "supportsYAxis" "yaxis"
                   generateYAxisConfiguration;
                 feature_block features definition "supportsEvents" "events"
                   generateEventsConfiguration;
                 feature_block features definition "supportsStyle" "style"
                   generateStyleConfiguration;
                 feature_block features definition "supportsView" "view"
                   generateViewConfiguration;
                 feature_block features definition "supportsSort" "sort"
                   generateSortConfiguration;
                 feature_block features definition "hasNestedWidgets" "widgets"
                   (fun widgets =>
                      forEach widgets (generateNestedWidget widgetMappings)) ]);
          lit ("    }" ++ nl) ].
Proof.
  unfold generateConfiguredWidget.
  rewrite (generateConfiguredWidget_rec_room (value_depth definition)
             (S (value_depth definition))) by lia.
  cbn [generateConfiguredWidget_rec]. at_nested_widgets.
  apply feature_block_agree.
  intros ws Hws Ht. pose proof (value_depth_get _ _ _ Hws) as Hd.
  destruct ws; try reflexivity. cbn [forEach].
  apply forEach_list_ext. intros w Hin.
  pose proof (value_depth_element elems w Hin) as Hw.
  unfold generateNestedWidget.
  apply generateNestedWidget_with_agree. intros cfg' def' ty' Hdef'.
  unfold generateConfiguredWidget.
  apply generateConfiguredWidget_rec_room; lia.
Qed.

End Fuel.

(** ** Emission raises nothing but a TypeError *)

Section Safe.

Lemma safe_bind {A B : Type} (m : res A) (k : A -> res B) :
  safe m -> (forall a, m = Ok a -> safe (k a)) -> safe (bind m k).
Proof.
  intros Hm Hk. destruct m as [a|e]; [apply Hk; reflexivity | exact Hm].
Qed.

Lemma safe_cat (pieces : list (res string)) :
  Forall safe pieces -> safe (cat pieces).
Proof.
  induction 1 as [|m rest Hm _ IH]; [exact I|].
  cbn [cat]. apply safe_bind; [exact Hm|]. intros s _.
  apply safe_bind; [exact IH|]. intros t _. exact I.
Qed.

Lemma safe_forEach_list {A : Type} (f : A -> res string) (l : list A) :
  (forall x, In x l -> safe (f x)) -> safe (forEach_list f l).
Proof.
  induction l as [|x rest IH]; intros H; [exact I|].
  cbn [forEach_list]. apply safe_bind; [apply H; left; reflexivity|].
  intros s _. apply safe_bind; [|intros t _; exact I].
  apply IH. intros y Hy. apply H. right. exact Hy.
Qed.

Lemma safe_forEach (xs : value) (f : value -> res string) :
  (forall x, safe (f x)) -> safe (forEach xs f).
Proof.
  intros H. destruct xs; try exact I. cbn [forEach].
  apply safe_forEach_list. intros x _. apply H.
Qed.

Lemma safe_get (o : value) (k : string) : safe (get o k).
Proof. destruct o; exact I. Qed.

Lemma safe_get_opt (o : value) (k : string) : safe (get_opt o k).
Proof. destruct o; exact I. Qed.

Lemma safe_ToString (v : value) : safe (ToString v).
Proof.
  pose proof (ToString_convertible v) as H.
  destruct (ToString v) as [s|e]; [exact I|]. destruct H as [-> _]. exact I.
Qed.

Lemma safe_escapeHCLString (v : value) : safe (escapeHCLString v).
Proof.
  pose proof (escapeHCLString_convertible v) as H.
  destruct (escapeHCLString v) as [s|e]; [exact I|]. destruct H as [-> _]. exact I.
Qed.

Lemma safe_gt_zero (v : value) : safe (gt_zero v).
Proof.
  destruct v; try exact I; cbn [gt_zero];
    (apply safe_bind; [apply safe_ToString | intros; exact I]).
Qed.

Lemma safe_Object_entries (o : value) : safe (Object_entries o).
Proof. destruct o; exact I. Qed.

Lemma safe_generateResourceName (title : value) (p : bool) :
  safe (generateResourceName title p).
Proof. destruct title; try exact I. cbn. destruct p; exact I. Qed.

Create HintDb safe discriminated.

#[local] Hint Resolve safe_get safe_get_opt safe_ToString safe_escapeHCLString
  safe_gt_zero safe_Object_entries safe_generateResourceName : safe.

Ltac safe_step :=
  match goal with
  | |- safe _ => solve [auto 2 with safe nocore]
  | |- safe (Ok _) => exact I
  | |- safe (lit _) => exact I
  | |- safe (Throw TypeError) => exact I
  | |- safe (cat _) =>
      apply safe_cat; repeat apply Forall_cons; try apply Forall_nil
  | |- safe (bind _ _) => apply safe_bind; [|intros ? _]
  | |- safe (forEach _ _) => apply safe_forEach; intros ?
  | |- safe (forEach_list _ _) => apply safe_forEach_list; intros ? _
  | |- safe (if ?b then _ else _) => destruct b
  | |- safe (match ?x with _ => _ end) => destruct x
  | |- safe (let (_, _) := ?x in _) => destruct x
  | |- safe (quoted_if_truthy _ _) => unfold quoted_if_truthy
  | |- safe (raw_if_truthy _ _) => unfold raw_if_truthy
  | |- safe (raw_if_defined _ _) => unfold raw_if_defined
  | |- safe (quoted_if_defined _ _) => unfold quoted_if_defined
  | |- safe (escaped_if_truthy _ _) => unfold escaped_if_truthy
  | |- safe (and_get _ _) => unfold and_get
  | |- safe (nonempty_length _) => unfold nonempty_length
  | |- safe (layout_dimension _ _ _) => unfold layout_dimension
  end.

Ltac safe_tac := repeat safe_step.

Lemma safe_generateYAxisConfiguration (v : value) :
  safe (generateYAxisConfiguration v).
Proof. unfold generateYAxisConfiguration. safe_tac. Qed.

Lemma safe_generateEventsConfiguration (v : value) :
  safe (generateEventsConfiguration v).
Proof. unfold generateEventsConfiguration. safe_tac. Qed.

Lemma safe_generateStyleConfiguration (v : value) :
  safe (generateStyleConfiguration v).
Proof. unfold generateStyleConfiguration. safe_tac. Qed.

Lemma safe_generateViewConfiguration (v : value) :
  safe (generateViewConfiguration v).
Proof. unfold generateViewConfiguration. safe_tac. Qed.

Lemma safe_generateSortConfiguration (v : value) :
  safe (generateSortConfiguration v).
Proof. unfold generateSortConfiguration. safe_tac. Qed.

Lemma safe_hasValidRequestContent (v : value) :
  safe (hasValidRequestContent v).
Proof. unfold hasValidRequestContent. safe_tac. Qed.

Lemma safe_conditional_formats_blocks (v : value) :
  safe (conditional_formats_blocks v).
Proof. unfold conditional_formats_blocks. safe_tac. Qed.

Lemma safe_request_style_block (l : string) (v : value) :
  safe (request_style_block l v).
Proof. unfold request_style_block. safe_tac. Qed.

Lemma safe_generateQueryBlock (v : value) : safe (generateQueryBlock v).
Proof. unfold generateQueryBlock. safe_tac. Qed.

Lemma safe_formula_block (v : value) : safe (formula_block v).
Proof. unfold formula_block. safe_tac. Qed.

#[local] Hint Resolve safe_generateYAxisConfiguration
  safe_generateEventsConfiguration safe_generateStyleConfiguration
  safe_generateViewConfiguration safe_generateSortConfiguration
  safe_hasValidRequestContent safe_conditional_formats_blocks
  safe_request_style_block safe_generateQueryBlock safe_formula_block : safe.

Lemma safe_modernRequest (v : value) : safe (modernRequest v).
Proof. unfold modernRequest. safe_tac. Qed.

Lemma safe_legacyLogQuery (v : value) : safe (legacyLogQuery v).
Proof. unfold legacyLogQuery. safe_tac. Qed.

#[local] Hint Resolve safe_modernRequest safe_legacyLogQuery : safe.

Lemma safe_legacyQueryLine (v : value) : safe (legacyQueryLine v).
Proof. unfold legacyQueryLine. safe_tac. Qed.

#[local] Hint Resolve safe_legacyQueryLine : safe.

Lemma safe_legacyRequest (v : value) : safe (legacyRequest v).
Proof. unfold legacyRequest. safe_tac. Qed.

#[local] Hint Resolve safe_legacyRequest : safe.

Lemma safe_generateModernRequests (v : value) : safe (generateModernRequests v).
Proof. unfold generateModernRequests. safe_tac. Qed.

Lemma safe_generateLegacyRequests (v : value) : safe (generateLegacyRequests v).
Proof. unfold generateLegacyRequests. safe_tac. Qed.

Lemma safe_formatPropertyValue (v : value) : safe (formatPropertyValue v).
Proof. unfold formatPropertyValue. safe_tac. Qed.

#[local] Hint Resolve safe_generateModernRequests safe_generateLegacyRequests
  safe_formatPropertyValue : safe.

Lemma safe_commonProperty (d p : value) : safe (commonProperty d p).
Proof. unfold commonProperty. safe_tac. Qed.

Lemma safe_specificProperty (d : value) (e : string * value) :
  safe (specificProperty d e).
Proof. unfold specificProperty. safe_tac. Qed.

Lemma safe_registryLookup (wm ty : value) : safe (registryLookup wm ty).
Proof. unfold registryLookup. safe_tac. Qed.

Lemma safe_templateVariable (v : value) : safe (templateVariable v).
Proof. unfold templateVariable. safe_tac. Qed.

Lemma safe_hasOwnProperty (o : value) (k : string) : safe (hasOwnProperty o k).
Proof. unfold hasOwnProperty. safe_tac. Qed.

#[local] Hint Resolve safe_commonProperty safe_specificProperty
  safe_registryLookup safe_templateVariable safe_hasOwnProperty : safe.

Lemma safe_feature_block (features definition : value) (flag field : string)
    (emit : value -> res string) :
  (forall d, get definition field = Ok d -> truthy d = true -> safe (emit d)) ->
  safe (feature_block features definition flag field emit).
Proof.
  intros H. unfold feature_block.
  apply safe_bind; [apply safe_get|]. intros f _.
  destruct (truthy f); [|exact I].
  apply safe_bind; [apply safe_get|]. intros d E.
  destruct (truthy d) eqn:Ht; [|exact I].
  apply H; [exact E | exact Ht].
Qed.

Lemma safe_generateNestedWidget_with
    (configured : value -> value -> value -> res string)
    (widgetMappings nestedWidget : value) :
  (forall cfg def ty,
      value_depth def <= Nat.max (pred (value_depth nestedWidget)) 1 ->
      safe (configured cfg def ty)) ->
  safe (generateNestedWidget_with configured widgetMappings nestedWidget).
Proof.
  intros H. unfold generateNestedWidget_with.
  apply safe_cat. repeat apply Forall_cons; try apply Forall_nil;
    try solve [safe_tac].
  apply safe_bind; [apply safe_get|]. intros d E.
  apply safe_bind; [apply safe_get|]. intros t _.
  apply safe_bind; [apply safe_registryLookup|]. intros cfg _.
  destruct (truthy cfg); [|safe_tac].
  apply safe_bind; [|intros; exact I]. apply H.
  pose proof (value_depth_get _ _ _ E).
  unfold or_else. destruct (truthy d); cbn [value_depth]; lia.
Qed.

Lemma safe_generateConfiguredWidget_rec (depth : nat) :
  forall widgetMappings widgetConfig definition widgetType,
    value_depth definition <= depth ->
    safe (generateConfiguredWidget_rec depth widgetMappings widgetConfig
            definition widgetType).
Proof.
  induction depth as [|depth' IH]; intros wm cfg def ty Hdepth.
  all: cbn [generateConfiguredWidget_rec].
  all: apply safe_cat; repeat apply Forall_cons; try apply Forall_nil;
       try solve [safe_tac].
  all: apply safe_bind; [apply safe_get|]; intros f _.
  all: apply safe_cat; repeat apply Forall_cons; try apply Forall_nil.
  all: apply safe_feature_block; try solve [intros; auto 2 with safe nocore].
  all: intros ws Hws Ht; pose proof (value_depth_get _ _ _ Hws) as Hd;
       destruct ws; try exact I; cbn [forEach];
       apply safe_forEach_list; intros w Hin;
       pose proof (value_depth_element elems w Hin) as Hw; try lia.
  apply safe_generateNestedWidget_with. intros cfg' def' ty' Hdef'.
  apply IH. lia.
Qed.

Lemma safe_generateConfiguredWidget (wm cfg def ty : value) :
  safe (generateConfiguredWidget wm cfg def ty).
Proof.
  unfold generateConfiguredWidget.
  apply safe_generateConfiguredWidget_rec. lia.
Qed.

#[local] Hint Resolve safe_generateConfiguredWidget : safe.

Lemma safe_generateModernWidgetHCL (wm widget ty def : value) :
  safe (generateModernWidgetHCL wm widget ty def).
Proof. unfold generateModernWidgetHCL. safe_tac. Qed.

#[local] Hint Resolve safe_generateModernWidgetHCL : safe.

Lemma safe_generateWidgetHCL (wm widget : value) :
  safe (generateWidgetHCL wm widget).
Proof. unfold generateWidgetHCL. safe_tac. Qed.

#[local] Hint Resolve safe_generateWidgetHCL : safe.

Lemma safe_generateHCL (wm d : value) : safe (generateHCL wm d).
Proof. unfold generateHCL. safe_tac. Qed.

End Safe.

(** ** Input validation and conversion *)

Section Conversion.

Lemma validateDashboardData_spec (data : value) :
  validateDashboardData data
  = match validation_error data with
    | Some message => Throw (Error message)
    | None => Ok tt
    end.
Proof.
  destruct data; try reflexivity.
  - destruct b; reflexivity.
  - unfold validateDashboardData. cbn [truthy typeof negb orb].
    destruct (n =? 0)%Z; reflexivity.
  - unfold validateDashboardData. cbn [truthy typeof negb orb].
    destruct (s =? ""); reflexivity.
  - unfold validateDashboardData. cbn [truthy typeof negb orb String.eqb].
    change (("object" =? "object")) with true. cbn [negb].
    rewrite (get_plain (JArr elems) "title" eq_refl eq_refl).
    rewrite (get_plain (JArr elems) "id" eq_refl eq_refl).
    reflexivity.
  - unfold validateDashboardData, validation_error.
    cbn [truthy typeof negb orb].
    change (("object" =? "object")) with true. cbn [negb get bind].
    destruct (lookup "title" props) as [t|]; destruct (lookup "id" props) as [i|];
      cbn [inherited existsb app object_prototype String.eqb Ascii.eqb Bool.eqb
           orb truthy negb andb];
      try destruct (truthy t); try destruct (truthy i); reflexivity.
Qed.

Lemma convert_spec (widgetMappings data : value) :
  convert widgetMappings data
  = match validation_error data with
    | Some message => Throw (Error message)
    | None => generateHCL widgetMappings data
    end.
Proof.
  unfold convert. rewrite validateDashboardData_spec.
  destruct (validation_error data); reflexivity.
Qed.

Lemma dashboard_ok_object (data : value) :
  dashboard_ok data = true -> exists props, data = JObj props.
Proof. destruct data; try discriminate. intros _. eexists; reflexivity. Qed.

End Conversion.



(** ** Widget layout *)

Section Layout.

Lemma cat_cons_inv (m : res string) (rest : list (res string)) (out : string) :
  cat (m :: rest) = Ok out ->
  exists s t, m = Ok s /\ cat rest = Ok t /\ out = s ++ t.
Proof.
  cbn [cat]. destruct m as [s|e]; [|discriminate]. cbn [bind].
  destruct (cat rest) as [t|e]; [|discriminate]. cbn [bind].
  intros H. inversion H. exists s, t. repeat split; reflexivity.
Qed.

(** A dimension of a layout object is printed as [dimension_text] says. *)
Lemma layout_dimension_object (props : list (string * value)) (k : string)
    (d : Z) :
  plain_name k = true ->
  layout_dimension (JObj props) k d = dimension_text (lookup k props) d.
Proof.
  intros Hk. unfold layout_dimension, dimension_text.
  rewrite (get_plain (JObj props) k Hk eq_refl). cbn [bind].
  destruct (lookup k props) as [v|]; [|reflexivity].
  unfold or_else. destruct (truthy v); reflexivity.
Qed.

(** The layout piece of both widget emitters. *)
Definition layout_piece (indent : string) (widget : value) : res string :=
  layout <- get widget "layout" ;;
  if truthy layout then
    height <- layout_dimension layout "height" 8 ;;
    width <- layout_dimension layout "width" 12 ;;
    x <- layout_dimension layout "x" 0 ;;
    y <- layout_dimension layout "y" 0 ;;
    Ok (widget_layout_text indent height width x y)
  else Ok "".

Lemma layout_piece_inv (indent : string) (widget layout : value) (s : string) :
  get widget "layout" = Ok layout -> truthy layout = true ->
  layout_piece indent widget = Ok s ->
  exists height width x y,
    layout_dimension layout "height" 8 = Ok height
    /\ layout_dimension layout "width" 12 = Ok width
    /\ layout_dimension layout "x" 0 = Ok x
    /\ layout_dimension layout "y" 0 = Ok y
    /\ s = widget_layout_text indent height width x y.
Proof.
  intros Hl Ht. unfold layout_piece. rewrite Hl. cbn [bind]. rewrite Ht.
  destruct (layout_dimension layout "height" 8) as [h|e]; [|discriminate].
  destruct (layout_dimension layout "width" 12) as [w|e]; [|discriminate].
  destruct (layout_dimension layout "x" 0) as [x|e]; [|discriminate].
  destruct (layout_dimension layout "y" 0) as [y|e]; [|discriminate].
  cbn [bind]. intros H. inversion H.
  exists h, w, x, y. repeat split; reflexivity.
Qed.

Lemma generateModernWidgetHCL_layout
    (widgetMappings widget widgetType definition : value) (out : string) :
  generateModernWidgetHCL widgetMappings widget widgetType definition = Ok out ->
  exists id block rest,
    (i <- get widget "id" ;; quoted_if_truthy "    id = " i) = Ok id
    /\ layout_piece "    " widget = Ok block
    /\ out = nl ++ "  widget {" ++ nl ++ id ++ block ++ rest.
Proof.
  unfold generateModernWidgetHCL. intros H.
  apply cat_cons_inv in H. destruct H as [s1 [t1 [H1 [H Hout1]]]].
  apply cat_cons_inv in H. destruct H as [s2 [t2 [H2 [H Hout2]]]].
  apply cat_cons_inv in H. destruct H as [s3 [t3 [H3 [_ Hout3]]]].
  inversion H1. subst. exists s2, s3, t3.
  split; [exact H2|]. split; [exact H3|].
  reflexivity.
Qed.

Lemma generateNestedWidget_with_layout
    (configured : value -> value -> value -> res string)
    (widgetMappings nestedWidget : value) (out : string) :
  generateNestedWidget_with configured widgetMappings nestedWidget = Ok out ->
  exists id block rest,
    (i <- get nestedWidget "id" ;; quoted_if_truthy "        id = " i) = Ok id
    /\ layout_piece "        " nestedWidget = Ok block
    /\ out = nl ++ "      widget {" ++ nl ++ id ++ block ++ rest.
Proof.
  unfold generateNestedWidget_with. intros H.
  apply cat_cons_inv in H. destruct H as [s1 [t1 [H1 [H Hout1]]]].
  apply cat_cons_inv in H. destruct H as [s2 [t2 [H2 [H Hout2]]]].
  apply cat_cons_inv in H. destruct H as [s3 [t3 [H3 [_ Hout3]]]].
  inversion H1. subst. exists s2, s3, t3.
  split; [exact H2|]. split; [exact H3|].
  reflexivity.
Qed.

End Layout.

Section LayoutReturns.

Lemma returns_generateNestedWidget (widgetMappings nestedWidget : value) :
  registry_ok widgetMappings = true ->
  doc nestedWidget = true -> nullish nestedWidget = false ->
  returns (generateNestedWidget widgetMappings nestedWidget).
Proof.
  intros Hr Hd Hn. unfold generateNestedWidget.
  apply returns_generateNestedWidget_with; try assumption;
    [apply doc_ok; exact Hd|].
  intros cfg def ty Hcfg Hdoc Hdn _.
  apply returns_generateConfiguredWidget; assumption.
Qed.

Lemma generateWidgetHCL_layout (widgetMappings widget : value) (out : string) :
  generateWidgetHCL widgetMappings widget = Ok out ->
  exists id block rest,
    (i <- get widget "id" ;; quoted_if_truthy "    id = " i) = Ok id
    /\ layout_piece "    " widget = Ok block
    /\ out = nl ++ "  widget {" ++ nl ++ id ++ block ++ rest.
Proof.
  unfold generateWidgetHCL.
  destruct (get widget "definition") as [d|e]; [|discriminate]. cbn [bind].
  destruct (get_opt d "type") as [t|e]; [|discriminate]. cbn [bind].
  apply generateModernWidgetHCL_layout.
Qed.

End LayoutReturns.




(** ** Requests: suppression and the legacy downgrade *)

Section Requests.

Lemma field_plain (v : value) (k : string) :
  plain_name k = true ->
  field v k
  = match v with
    | JObj props => match lookup k props with Some x => x | None => JUndef end
    | _ => JUndef
    end.
Proof.
  intros Hk. unfold field.
  destruct (nullish v) eqn:Hn.
  - destruct v; try discriminate; reflexivity.
  - rewrite (get_plain v k Hk Hn). reflexivity.
Qed.

Lemma get_field (v : value) (k : string) :
  truthy v = true -> get v k = Ok (field v k).
Proof. intros H. unfold field. destruct v; try discriminate; reflexivity. Qed.

Lemma field_falsy (v : value) (k : string) :
  plain_name k = true -> truthy v = false -> field v k = JUndef.
Proof.
  intros Hk H. rewrite (field_plain v k Hk).
  destruct v; try reflexivity. discriminate.
Qed.

(** [a && a.k], as a value: the field when [a] is truthy, and a falsy
    value otherwise. *)
Lemma and_get_field (v : value) (k : string) :
  plain_name k = true ->
  exists w, and_get v k = Ok w
            /\ truthy w = truthy (field v k)
            /\ (truthy w = true -> w = field v k).
Proof.
  intros Hk. unfold and_get. destruct (truthy v) eqn:Ht.
  - exists (field v k). rewrite (get_field v k Ht). repeat split.
  - exists v. rewrite (field_falsy v k Hk Ht). repeat split.
    + exact Ht.
    + rewrite Ht. discriminate.
Qed.

(** A falsy value has no object among its fields. *)
Lemma field_of_falsy (v : value) (k1 k2 : string) :
  plain_name k2 = true -> truthy v = false ->
  field (field v k1) k2 = JUndef.
Proof.
  intros H2 Ht. rewrite (field_plain (field v k1) k2 H2).
  destruct v; try discriminate Ht; try reflexivity.
  - unfold field, get, inherited. destruct (existsb _ _); reflexivity.
  - unfold field, get, inherited. destruct (existsb _ _); reflexivity.
  - destruct s; [|discriminate Ht].
    unfold field, get, inherited. cbn [chars index_get String.length].
    destruct (k1 =? "length"); [reflexivity|].
    destruct (existsb _ _); reflexivity.
Qed.

(** [a && a.k1 && a.k1.k2] *)
Lemma and_get_field2 (v : value) (k1 k2 : string) :
  plain_name k2 = true ->
  exists w1 w2,
    and_get v k1 = Ok w1 /\ and_get w1 k2 = Ok w2
    /\ truthy w2 = truthy (field (field v k1) k2)
    /\ (truthy w2 = true -> w2 = field (field v k1) k2).
Proof.
  intros H2. unfold and_get at 1. destruct (truthy v) eqn:Ht.
  - rewrite (get_field v k1 Ht).
    destruct (and_get_field (field v k1) k2 H2) as [w2 [E2 [T2 F2]]].
    exists (field v k1), w2. repeat split; assumption.
  - exists v, v. unfold and_get. rewrite Ht.
    rewrite (field_of_falsy v k1 k2 H2 Ht).
    split; [reflexivity|]. split; [reflexivity|]. split; [reflexivity|].
    discriminate.
Qed.

Lemma nonempty_length_array (l : list value) :
  nonempty_length (JArr l)
  = Ok (JBool (match l with [] => false | _ :: _ => true end)).
Proof. destruct l; reflexivity. Qed.

Lemma typed_sequence (o : option value) :
  match o with None | Some (JArr _) => true | _ => false end = true ->
  exists b,
    nonempty_length (match o with Some v => v | None => JUndef end) = Ok b
    /\ truthy b = nonempty_array o.
Proof.
  destruct o as [v|]; [destruct v; try discriminate|]; intros _.
  - rewrite nonempty_length_array. destruct elems; eexists; split; reflexivity.
  - eexists; split; reflexivity.
Qed.

Lemma typed_flat_query (o : option value) :
  match o with None | Some (JStr _) => true | _ => false end = true ->
  truthy (match o with Some v => v | None => JUndef end) = nonempty_string o.
Proof. destruct o as [v|]; [destruct v; try discriminate|]; reflexivity. Qed.

(** The test of [hasValidRequestContent] on a request of the data model. *)
Lemma hasValidRequestContent_typed (props : list (string * value)) :
  request_typed props = true ->
  exists v, hasValidRequestContent (JObj props) = Ok v
            /\ truthy v = valid_content props.
Proof.
  unfold request_typed, valid_content, hasValidRequestContent. intros H.
  apply andb_prop in H. destruct H as [H Hf].
  apply andb_prop in H. destruct H as [Hq Hqs].
  rewrite (get_plain (JObj props) "q" eq_refl eq_refl).
  rewrite (get_plain (JObj props) "queries" eq_refl eq_refl).
  rewrite (get_plain (JObj props) "formulas" eq_refl eq_refl).
  cbn [bind].
  rewrite <- (typed_flat_query _ Hq).
  destruct (typed_sequence _ Hqs) as [b [-> <-]].
  destruct (typed_sequence _ Hf) as [c [-> <-]].
  cbn [bind].
  destruct (truthy (match lookup "q" props with Some v => v | None => JUndef end))
    eqn:E; [eexists; split; [reflexivity | exact E]|].
  destruct (truthy b) eqn:Eb; eexists; split; try reflexivity.
  exact Eb.
Qed.

(** A piece that adds nothing can be left out of the walk. *)
Lemma forEach_list_skip {A : Type} (f : A -> res string)
    (before after : list A) (x : A) :
  f x = Ok "" ->
  forEach_list f (before ++ x :: after)%list
  = forEach_list f (before ++ after)%list.
Proof.
  intros H. induction before as [|y rest IH]; cbn [forEach_list app].
  - rewrite H. cbn [bind]. destruct (forEach_list f after); reflexivity.
  - rewrite IH. reflexivity.
Qed.

Lemma cat_last (s : string) : cat [lit s] = Ok s.
Proof. cbn. rewrite string_app_nil_r. reflexivity. Qed.

Lemma cat_closing (closing : string) (middle : list (res string))
    (out : string) :
  cat (middle ++ [lit closing])%list = Ok out ->
  exists body, out = body ++ closing.
Proof.
  revert out. induction middle as [|m rest IH]; intros out H.
  - cbn [app] in H. rewrite cat_last in H. inversion H. exists "". reflexivity.
  - cbn [app] in H. apply cat_cons_inv in H.
    destruct H as [s [t [_ [Ht ->]]]].
    destruct (IH t Ht) as [body ->].
    exists (s ++ body). rewrite string_app_assoc. reflexivity.
Qed.

(** What both request emitters return is a request block. *)
Lemma cat_block (opening closing : string) (middle : list (res string))
    (out : string) :
  cat (lit opening :: middle ++ [lit closing])%list = Ok out ->
  exists body, out = opening ++ body ++ closing.
Proof.
  intros H. apply cat_cons_inv in H. destruct H as [s [t [Hs [Ht ->]]]].
  inversion Hs; subst s; clear Hs.
  destruct (cat_closing closing middle t Ht) as [body ->].
  exists body. reflexivity.
Qed.

Lemma modernRequest_typed (props : list (string * value)) :
  request_typed props = true ->
  (valid_content props = false -> modernRequest (JObj props) = Ok "")
  /\ (valid_content props = true ->
      forall out, modernRequest (JObj props) = Ok out -> is_request_block out).
Proof.
  intros Hty. unfold modernRequest.
  destruct (hasValidRequestContent_typed props Hty) as [v [-> Hv]].
  cbn [bind]. rewrite Hv. split; intros ->; [reflexivity|].
  intros out H.
  apply (cat_block (nl ++ "      request {" ++ nl) ("      }" ++ nl)
           [_; _; _; _; _; _]) in H.
  destruct H as [body ->]. exists body. reflexivity.
Qed.

Lemma legacyRequest_typed (props : list (string * value)) :
  request_typed props = true ->
  (valid_content props = false -> legacyRequest (JObj props) = Ok "")
  /\ (valid_content props = true ->
      forall out, legacyRequest (JObj props) = Ok out -> is_request_block out).
Proof.
  intros Hty. unfold legacyRequest.
  destruct (hasValidRequestContent_typed props Hty) as [v [-> Hv]].
  cbn [bind]. rewrite Hv. split; intros ->; [reflexivity|].
  intros out H.
  apply (cat_block (nl ++ "      request {" ++ nl) ("      }" ++ nl)
           [_; _; _; _; _; _]) in H.
  destruct H as [body ->]. exists body. reflexivity.
Qed.

Lemma synthesized_nonempty (a m : string) :
  truthy (JStr (a ++ ":" ++ m)) = true.
Proof. induction a; reflexivity. Qed.

(** The log-query branch, reached when the first query has no search
    text: the synthesized expression, or the empty string. *)
Lemma legacyLogQuery_no_search (query : value) :
  truthy query = true ->
  truthy (field (field query "search") "query") = false ->
  legacyLogQuery query
  = (let aggregation := field (field query "compute") "aggregation" in
     let metric := field (field query "compute") "metric" in
     if truthy aggregation then
       a <- ToString aggregation ;;
       m <- (if truthy metric then ToString metric else Ok "") ;;
       Ok (JStr (a ++ ":" ++ m))
     else Ok (JStr "")).
Proof.
  intros Hq Hs. unfold legacyLogQuery. cbn zeta.
  rewrite (get_field query "compute" Hq). cbn [bind].
  destruct (and_get_field (field query "compute") "aggregation" eq_refl)
    as [agg [-> [Ta Fa]]].
  cbn [bind]. rewrite Ta.
  rewrite (get_field query "search" Hq).
  destruct (and_get_field (field query "search") "query" eq_refl)
    as [sq [Esq [Tsq _]]].
  rewrite Hs in Tsq.
  destruct (truthy (field (field query "compute") "aggregation")) eqn:E.
  - rewrite (Fa (eq_trans Ta eq_refl)).
    destruct (ToString (field (field query "compute") "aggregation"))
      as [a|e]; [|reflexivity].
    cbn [bind].
    assert (Hc : truthy (field query "compute") = true).
    { destruct (truthy (field query "compute")) eqn:Hc; [reflexivity|].
      rewrite (field_falsy _ "aggregation" eq_refl Hc) in E. discriminate. }
    rewrite (get_field _ "metric" Hc). cbn [bind].
    destruct (truthy (field (field query "compute") "metric")).
    + destruct (ToString (field (field query "compute") "metric"))
        as [m|e]; [|reflexivity].
      cbn [bind]. rewrite Esq. cbn [bind]. rewrite Tsq. reflexivity.
    + cbn [bind]. rewrite Esq. cbn [bind]. rewrite Tsq. reflexivity.
  - cbn [bind]. rewrite Esq. cbn [bind]. rewrite Tsq. reflexivity.
Qed.

(** The flat-query line of a request without a flat query, whose
    queries begin with [query]. *)
Lemma legacyQueryLine_downgrade (props : list (string * value))
    (query : value) (rest : list value) :
  request_typed props = true ->
  nonempty_string (lookup "q" props) = false ->
  lookup "queries" props = Some (JArr (query :: rest)) ->
  legacyQueryLine (JObj props)
  = (d <- derived_flat_query query ;;
     match d with
     | Some v =>
         e <- escapeHCLString v ;; Ok ("        q          = " ++ e ++ nl)
     | None => Ok ""
     end).
Proof.
  intros Hty Hq Hqs. unfold legacyQueryLine.
  unfold request_typed in Hty.
  apply andb_prop in Hty. destruct Hty as [Hty _].
  apply andb_prop in Hty. destruct Hty as [Hty _].
  rewrite (get_plain (JObj props) "q" eq_refl eq_refl). cbn [bind].
  rewrite (typed_flat_query _ Hty), Hq.
  rewrite (get_plain (JObj props) "queries" eq_refl eq_refl), Hqs.
  cbn [bind truthy isArray andb].
  change (get (JArr (query :: rest)) "0") with (Ok query). cbn [bind].
  unfold derived_flat_query. cbn zeta.
  destruct (and_get_field query "query" eq_refl) as [qq [-> [Tqq Fqq]]].
  cbn [bind]. rewrite <- Tqq.
  destruct (truthy qq) eqn:E1.
  { rewrite <- (Fqq eq_refl). reflexivity. }
  destruct (and_get_field2 query "search" "query" eq_refl)
    as [search [sq [Es [Esq [Tsq Fsq]]]]].
  rewrite Es. cbn [bind]. rewrite Esq. cbn [bind]. rewrite <- Tsq.
  destruct (truthy sq) eqn:E2.
  { rewrite <- (Fsq eq_refl). reflexivity. }
  destruct (truthy query) eqn:E3.
  - rewrite (get_field query "data_source" E3). cbn [bind].
    destruct (strict_eq_string (field query "data_source") "logs");
      [|reflexivity].
    cbn [andb].
    rewrite (legacyLogQuery_no_search query E3 (eq_sym Tsq)). cbn zeta.
    destruct (truthy (field (field query "compute") "aggregation"));
      [|reflexivity].
    destruct (ToString (field (field query "compute") "aggregation"))
      as [a|e]; [|reflexivity].
    cbn [bind].
    destruct (if truthy (field (field query "compute") "metric")
              then ToString (field (field query "compute") "metric")
              else Ok "") as [m|e]; [|reflexivity].
    cbn [bind]. rewrite string_app_nil_r.
    unfold escaped_if_truthy. rewrite synthesized_nonempty. reflexivity.
  - rewrite (field_falsy query "data_source" eq_refl E3). reflexivity.
Qed.

End Requests.





(** ** Resource names: shape, stability, letter case *)

Section NameShape.

Lemma forallb_map_keep (keep : ascii -> bool) (s : string) :
  keep underscore = true ->
  string_forallb keep (replace_outside keep s) = true.
Proof.
  intros Hu. induction s as [|a r IH]; [reflexivity|].
  cbn [replace_outside string_map string_forallb].
  fold (replace_outside keep r). rewrite IH, andb_true_r.
  destruct (keep a) eqn:Ha; [exact Ha | exact Hu].
Qed.

Lemma forallb_tail (p : ascii -> bool) (a : ascii) (s : string) :
  string_forallb p (String a s) = true ->
  p a = true /\ string_forallb p s = true.
Proof. cbn [string_forallb]. intros H. apply andb_true_iff in H. exact H. Qed.

Lemma forallb_collapse (p : ascii -> bool) (s : string) :
  string_forallb p s = true ->
  string_forallb p (collapse_underscores s) = true.
Proof.
  induction s as [|a r IH]; [reflexivity|]. intros H.
  destruct (forallb_tail p a r H) as [Ha Hr]. specialize (IH Hr).
  cbn [collapse_underscores].
  destruct (Ascii.eqb a underscore).
  - destruct r as [|b r']; [exact H|].
    destruct (Ascii.eqb b underscore); [exact IH|].
    cbn [string_forallb]. rewrite Ha. exact IH.
  - cbn [string_forallb]. rewrite Ha. exact IH.
Qed.

Lemma forallb_strip_leading (p : ascii -> bool) (s : string) :
  string_forallb p s = true -> string_forallb p (strip_leading s) = true.
Proof.
  destruct s as [|a r]; [reflexivity|]. intros H. cbn [strip_leading].
  destruct (Ascii.eqb a underscore); [|exact H].
  exact (proj2 (forallb_tail p a r H)).
Qed.

Lemma forallb_strip_trailing (p : ascii -> bool) (s : string) :
  string_forallb p s = true -> string_forallb p (strip_trailing s) = true.
Proof.
  induction s as [|a r IH]; [reflexivity|]. intros H.
  destruct (forallb_tail p a r H) as [Ha Hr]. specialize (IH Hr).
  destruct r as [|b r'].
  - cbn [strip_trailing]. destruct (Ascii.eqb a underscore); [reflexivity|exact H].
  - change (strip_trailing (String a (String b r')))
      with (String a (strip_trailing (String b r'))).
    cbn [string_forallb]. rewrite Ha. exact IH.
Qed.

Lemma forallb_substring (p : ascii -> bool) (n : nat) (s : string) :
  string_forallb p s = true -> string_forallb p (substring 0 n s) = true.
Proof.
  revert s. induction n as [|n IH]; intros s H.
  - destruct s; reflexivity.
  - destruct s as [|a r]; [reflexivity|].
    destruct (forallb_tail p a r H) as [Ha Hr].
    cbn [substring string_forallb]. rewrite Ha. exact (IH r Hr).
Qed.

Lemma substring_length_le (n : nat) (s : string) :
  String.length (substring 0 n s) <= n.
Proof.
  revert s. induction n as [|n IH]; intros s.
  - destruct s; cbn; lia.
  - destruct s as [|a r]; cbn [substring String.length]; [lia|].
    specialize (IH r). lia.
Qed.

Lemma substring_all (n : nat) (s : string) :
  String.length s <= n -> substring 0 n s = s.
Proof.
  revert s. induction n as [|n IH]; intros s H.
  - destruct s; [reflexivity | cbn in H; lia].
  - destruct s as [|a r]; [reflexivity|].
    cbn [substring]. rewrite IH; [reflexivity | cbn in H; lia].
Qed.

Lemma no_double_strip_trailing (s : string) :
  no_double_underscore s = true ->
  no_double_underscore (strip_trailing s) = true.
Proof.
  induction s as [|a r IH]; [reflexivity|]. intros H.
  specialize (IH (no_double_tail _ _ H)).
  destruct r as [|b r'].
  - cbn [strip_trailing]. destruct (Ascii.eqb a underscore); reflexivity.
  - change (strip_trailing (String a (String b r')))
      with (String a (strip_trailing (String b r'))).
    destruct (strip_trailing (String b r')) as [|c t] eqn:E; [reflexivity|].
    assert (Hc : c = b).
    { destruct r' as [|d r'']; cbn [strip_trailing] in E.
      - destruct (Ascii.eqb b underscore); [discriminate | now inversion E].
      - now inversion E. }
    subst c.
    change (no_double_underscore (String a (String b t)))
      with (negb (Ascii.eqb a underscore && Ascii.eqb b underscore)
            && no_double_underscore (String b t)).
    rewrite IH, andb_true_r.
    cbn [no_double_underscore] in H. apply andb_true_iff in H. exact (proj1 H).
Qed.

Lemma no_double_substring (n : nat) (s : string) :
  no_double_underscore s = true ->
  no_double_underscore (substring 0 n s) = true.
Proof.
  revert s. induction n as [|n IH]; intros s H.
  - destruct s; reflexivity.
  - destruct s as [|a r]; [reflexivity|].
    specialize (IH r (no_double_tail _ _ H)).
    cbn [substring].
    destruct n as [|n'].
    + destruct r; reflexivity.
    + destruct r as [|b r']; [reflexivity|].
      cbn [substring] in *.
      change (no_double_underscore
                (String a (String b (substring 0 n' r'))))
        with (negb (Ascii.eqb a underscore && Ascii.eqb b underscore)
              && no_double_underscore (String b (substring 0 n' r'))).
      rewrite IH, andb_true_r.
      cbn [no_double_underscore] in H. apply andb_true_iff in H.
      exact (proj1 H).
Qed.

(** After the collapse, taking one underscore off the front leaves
    none there. *)
Lemma strip_leading_front (s : string) :
  no_double_underscore s = true ->
  starts_with_underscore (strip_leading s) = false.
Proof.
  destruct s as [|a r]; [reflexivity|]. intros H. cbn [strip_leading].
  destruct (Ascii.eqb a underscore) eqn:Ha.
  - destruct r as [|b r']; [reflexivity|].
    cbn [no_double_underscore] in H. rewrite Ha in H.
    cbn [starts_with_underscore].
    destruct (Ascii.eqb b underscore); [discriminate | reflexivity].
  - cbn [starts_with_underscore]. exact Ha.
Qed.

Lemma strip_trailing_front (s : string) :
  starts_with_underscore s = false ->
  starts_with_underscore (strip_trailing s) = false.
Proof.
  destruct s as [|a r]; [reflexivity|]. cbn [starts_with_underscore].
  intros Ha. destruct r as [|b r'].
  - cbn [strip_trailing]. rewrite Ha. exact Ha.
  - exact Ha.
Qed.

Lemma substring_front (n : nat) (s : string) :
  starts_with_underscore s = false ->
  starts_with_underscore (substring 0 n s) = false.
Proof.
  destruct n; destruct s; try reflexivity. intros H. exact H.
Qed.

Lemma nonempty_or_shape (s fallback : string) :
  name_shape fallback = true ->
  (String.length s <=? 50)%nat = true ->
  string_forallb is_lower_name_char s = true ->
  no_double_underscore s = true ->
  starts_with_underscore s = false ->
  name_shape (nonempty_or s fallback) = true.
Proof.
  intros Hf Hl Hc Hd Hu. unfold nonempty_or.
  destruct (s =? "") eqn:E; [exact Hf|].
  unfold name_shape. rewrite E, Hl, Hc, Hd, Hu. reflexivity.
Qed.

Lemma generateResourceName_shape (title : string) :
  exists n, generateResourceName (JStr title) false = Ok n
            /\ name_shape n = true.
Proof.
  eexists. split; [reflexivity|].
  set (s := replace_outside is_lower_name_char (toLowerCase title)).
  pose proof (forallb_map_keep is_lower_name_char (toLowerCase title) eq_refl)
    as Hc.
  fold s in Hc.
  pose proof (collapse_no_double s) as Hd.
  apply nonempty_or_shape.
  - reflexivity.
  - apply Nat.leb_le. apply substring_length_le.
  - apply forallb_substring. unfold trim_underscores.
    apply forallb_strip_trailing, forallb_strip_leading, forallb_collapse.
    exact Hc.
  - apply no_double_substring. unfold trim_underscores.
    apply no_double_strip_trailing, strip_leading_no_double. exact Hd.
  - apply substring_front. unfold trim_underscores.
    apply strip_trailing_front, strip_leading_front. exact Hd.
Qed.

(** *** A name that is its own name *)

Lemma lower_name_char_fixed (a : ascii) :
  is_lower_name_char a = true -> lower_char a = a.
Proof.
  destruct a as [[] [] [] [] [] [] [] []]; intros H;
    try reflexivity; discriminate H.
Qed.

Lemma toLowerCase_fixed (s : string) :
  string_forallb is_lower_name_char s = true -> toLowerCase s = s.
Proof.
  induction s as [|a r IH]; [reflexivity|]. intros H.
  destruct (forallb_tail _ a r H) as [Ha Hr].
  unfold toLowerCase in *. cbn [string_map].
  rewrite (lower_name_char_fixed a Ha), (IH Hr). reflexivity.
Qed.

Lemma replace_outside_fixed (keep : ascii -> bool) (s : string) :
  string_forallb keep s = true -> replace_outside keep s = s.
Proof.
  induction s as [|a r IH]; [reflexivity|]. intros H.
  destruct (forallb_tail _ a r H) as [Ha Hr].
  unfold replace_outside in *. cbn [string_map].
  rewrite Ha, (IH Hr). reflexivity.
Qed.

Lemma collapse_fixed (s : string) :
  no_double_underscore s = true -> collapse_underscores s = s.
Proof.
  induction s as [|a r IH]; [reflexivity|]. intros H.
  specialize (IH (no_double_tail _ _ H)).
  cbn [collapse_underscores].
  destruct (Ascii.eqb a underscore) eqn:Ha.
  - destruct r as [|b r']; [reflexivity|].
    cbn [no_double_underscore] in H. rewrite Ha in H.
    destruct (Ascii.eqb b underscore); [discriminate|].
    rewrite IH. reflexivity.
  - rewrite IH. reflexivity.
Qed.

Lemma strip_leading_fixed (s : string) :
  starts_with_underscore s = false -> strip_leading s = s.
Proof.
  destruct s as [|a r]; [reflexivity|]. cbn. intros ->. reflexivity.
Qed.

Lemma strip_trailing_fixed (s : string) :
  ends_with_underscore s = false -> strip_trailing s = s.
Proof.
  induction s as [|a r IH]; [reflexivity|]. intros H.
  destruct r as [|b r'].
  - cbn in *. rewrite H. reflexivity.
  - change (strip_trailing (String a (String b r')))
      with (String a (strip_trailing (String b r'))).
    rewrite IH; [reflexivity | exact H].
Qed.

Lemma name_fixed (n : string) :
  name_shape n = true -> ends_with_underscore n = false ->
  generateResourceName (JStr n) false = Ok n.
Proof.
  unfold name_shape. intros H He.
  apply andb_true_iff in H. destruct H as [H Hu].
  apply andb_true_iff in H. destruct H as [H Hd].
  apply andb_true_iff in H. destruct H as [H Hc].
  apply andb_true_iff in H. destruct H as [Hn Hl].
  unfold generateResourceName, trim_underscores.
  rewrite (toLowerCase_fixed n Hc), (replace_outside_fixed _ n Hc).
  rewrite (collapse_fixed n Hd).
  rewrite (strip_leading_fixed n); [|now destruct (starts_with_underscore n)].
  rewrite (strip_trailing_fixed n He).
  rewrite (substring_all 50 n); [|now apply Nat.leb_le].
  unfold nonempty_or. destruct (n =? ""); [discriminate | reflexivity].
Qed.

(** *** The two conventions *)

Lemma lower_char_replace (a : ascii) :
  (if is_lower_name_char (lower_char a) then lower_char a else underscore)
  = lower_char (if is_name_char a then a else underscore).
Proof. destruct a as [[] [] [] [] [] [] [] []]; reflexivity. Qed.

Lemma lower_char_underscore (a : ascii) :
  Ascii.eqb (lower_char a) underscore = Ascii.eqb a underscore.
Proof. destruct a as [[] [] [] [] [] [] [] []]; reflexivity. Qed.

Lemma toLowerCase_replace (s : string) :
  replace_outside is_lower_name_char (toLowerCase s)
  = toLowerCase (replace_outside is_name_char s).
Proof.
  unfold replace_outside, toLowerCase.
  induction s as [|a r IH]; [reflexivity|].
  cbn [string_map]. rewrite IH, lower_char_replace. reflexivity.
Qed.

Lemma toLowerCase_collapse (s : string) :
  collapse_underscores (toLowerCase s) = toLowerCase (collapse_underscores s).
Proof.
  unfold toLowerCase. induction s as [|a r IH]; [reflexivity|].
  cbn [string_map collapse_underscores].
  rewrite lower_char_underscore.
  destruct (Ascii.eqb a underscore).
  - destruct r as [|b r']; [reflexivity|].
    cbn [string_map] in *. rewrite lower_char_underscore.
    destruct (Ascii.eqb b underscore); [exact IH|].
    cbn [string_map]. rewrite IH. reflexivity.
  - cbn [string_map]. rewrite IH. reflexivity.
Qed.

Lemma toLowerCase_strip_leading (s : string) :
  strip_leading (toLowerCase s) = toLowerCase (strip_leading s).
Proof.
  unfold toLowerCase. destruct s as [|a r]; [reflexivity|].
  cbn [string_map strip_leading]. rewrite lower_char_underscore.
  destruct (Ascii.eqb a underscore); reflexivity.
Qed.

Lemma toLowerCase_strip_trailing (s : string) :
  strip_trailing (toLowerCase s) = toLowerCase (strip_trailing s).
Proof.
  unfold toLowerCase. induction s as [|a r IH]; [reflexivity|].
  destruct r as [|b r'].
  - cbn [string_map strip_trailing]. rewrite lower_char_underscore.
    destruct (Ascii.eqb a underscore); reflexivity.
  - change (strip_trailing (String a (String b r')))
      with (String a (strip_trailing (String b r'))).
    cbn [string_map] in *.
    change (strip_trailing
              (String (lower_char a) (String (lower_char b)
                                        (string_map lower_char r'))))
      with (String (lower_char a)
              (strip_trailing (String (lower_char b)
                                 (string_map lower_char r')))).
    rewrite IH. reflexivity.
Qed.

Lemma toLowerCase_substring (n : nat) (s : string) :
  substring 0 n (toLowerCase s) = toLowerCase (substring 0 n s).
Proof.
  unfold toLowerCase. revert s. induction n as [|n IH]; intros s.
  - destruct s; reflexivity.
  - destruct s as [|a r]; [reflexivity|].
    cbn [string_map substring]. rewrite IH. reflexivity.
Qed.

Lemma toLowerCase_empty (s : string) : (toLowerCase s =? "") = (s =? "").
Proof. destruct s; reflexivity. Qed.

Lemma name_conventions (title : string) :
  exists preserved standard,
    generateResourceName (JStr title) true = Ok preserved
    /\ generateResourceName (JStr title) false = Ok standard
    /\ toLowerCase preserved = standard.
Proof.
  eexists. eexists. split; [reflexivity|]. split; [reflexivity|].
  unfold trim_underscores.
  rewrite toLowerCase_replace, toLowerCase_collapse,
    toLowerCase_strip_leading, toLowerCase_strip_trailing,
    toLowerCase_substring.
  unfold nonempty_or. rewrite toLowerCase_empty.
  destruct (_ =? ""); reflexivity.
Qed.

End NameShape.

(** X1: every resource name generated from a string title is not empty,
    has at most 50 characters, holds lowercase letters, digits and
    underscores only, has no two underscores in a row and none in
    front. *)
Theorem X1_resource_name_shape (title : string) :
  exists n,
    generateResourceName (JStr title) false = Ok n
    /\ n <> ""
    /\ String.length n <= 50
    /\ string_forallb is_lower_name_char n = true
    /\ no_double_underscore n = true
    /\ starts_with_underscore n = false.
Proof.
  destruct (generateResourceName_shape title) as [n [Hn Hs]].
  exists n. split; [exact Hn|].
  unfold name_shape in Hs.
  apply andb_true_iff in Hs. destruct Hs as [Hs Hu].
  apply andb_true_iff in Hs. destruct Hs as [Hs Hd].
  apply andb_true_iff in Hs. destruct Hs as [Hs Hc].
  apply andb_true_iff in Hs. destruct Hs as [He Hl].
  split; [intros ->; discriminate He|].
  split; [apply Nat.leb_le; exact Hl|].
  split; [exact Hc|]. split; [exact Hd|].
  destruct (starts_with_underscore n); [discriminate | reflexivity].
Qed.

(** X2: a generated resource name that does not end in an underscore is
    its own resource name: naming it again changes nothing.  (The
    truncation to 50 characters comes after the trimming, so a name can
    end in an underscore; naming that one again drops it.) *)
Theorem X2_resource_name_stable (title n : string) :
  generateResourceName (JStr title) false = Ok n ->
  ends_with_underscore n = false ->
  generateResourceName (JStr n) false = Ok n.
Proof.
  intros Hn He. destruct (generateResourceName_shape title) as [n' [Hn' Hs]].
  rewrite Hn in Hn'. inversion Hn'. subst n'.
  apply name_fixed; assumption.
Qed.

Lemma X2_resource_name_stable_witness :
  generateResourceName (JStr "Sample Application Dashboard") false
  = Ok "sample_application_dashboard"
  /\ generateResourceName (JStr "sample_application_dashboard") false
     = Ok "sample_application_dashboard".
Proof.
  split; [reflexivity|].
  apply (X2_resource_name_stable "Sample Application Dashboard");
    reflexivity.
Defined.


(** ** The matcher *)

Section Matcher.

Lemma rmatch_Seq {A : Type} (a b : re) (s : string) (k : string -> option A) :
  rmatch (Seq a b) s k = rmatch a s (fun s' => rmatch b s' k).
Proof. reflexivity. Qed.

Lemma rmatch_Chr_cons {A : Type} (p : ascii -> bool) (a : ascii) (r : string)
    (k : string -> option A) :
  rmatch (Chr p) (String a r) k = if p a then k r else None.
Proof. reflexivity. Qed.

Lemma rmatch_Lit {A : Type} (t rest : string) (k : string -> option A) :
  rmatch (Lit t) (t ++ rest) k = k rest.
Proof.
  induction t as [|a t IH]; [reflexivity|].
  cbn [Lit rmatch append]. unfold is_char. rewrite Ascii.eqb_refl. exact IH.
Qed.

Lemma rmatch_Lit_inv {A : Type} (t s : string) (k : string -> option A)
    (x : A) :
  rmatch (Lit t) s k = Some x -> exists rest, s = t ++ rest /\ k rest = Some x.
Proof.
  revert s. induction t as [|a t IH]; intros s H.
  - exists s. split; [reflexivity | exact H].
  - cbn [Lit rmatch] in H. destruct s as [|c r]; [discriminate|].
    unfold is_char in H. destruct (Ascii.eqb c a) eqn:E; [|discriminate].
    apply Ascii.eqb_eq in E. subst c.
    destruct (IH r H) as [rest [-> Hk]]. exists rest. split; [reflexivity|exact Hk].
Qed.

Lemma rmatch_Chr_inv {A : Type} (p : ascii -> bool) (s : string)
    (k : string -> option A) (x : A) :
  rmatch (Chr p) s k = Some x ->
  exists a r, s = String a r /\ p a = true /\ k r = Some x.
Proof.
  cbn [rmatch]. destruct s as [|a r]; [discriminate|].
  destruct (p a) eqn:E; [|discriminate]. intros H.
  exists a, r. repeat split; assumption.
Qed.

(** The two equations of a starred character class. *)
Lemma star_chr_nil {A : Type} (p : ascii -> bool) (k : string -> option A) :
  rmatch (Star (Chr p)) "" k = k "".
Proof. reflexivity. Qed.

Lemma star_chr_cons {A : Type} (p : ascii -> bool) (c : ascii) (r : string)
    (k : string -> option A) :
  rmatch (Star (Chr p)) (String c r) k
  = if p c then
      match rmatch (Star (Chr p)) r k with
      | Some x => Some x
      | None => k (String c r)
      end
    else k (String c r).
Proof.
  cbn [rmatch String.length]. destruct (p c); [|reflexivity].
  assert (H : (String.length r <? S (String.length r))%nat = true)
    by (apply Nat.ltb_lt; lia).
  rewrite H. reflexivity.
Qed.

(** The class takes all it can, and the rest of the pattern goes on
    from there if it can. *)
Lemma star_chr_greedy {A : Type} (p : ascii -> bool) (u v : string)
    (k : string -> option A) (x : A) :
  string_forallb p u = true -> stops p v = true -> k v = Some x ->
  rmatch (Star (Chr p)) (u ++ v) k = Some x.
Proof.
  intros Hu Hv Hk. induction u as [|a u IH].
  - cbn [append]. destruct v as [|b w]; [exact Hk|].
    rewrite star_chr_cons. cbn [stops] in Hv.
    destruct (p b); [discriminate | exact Hk].
  - cbn [string_forallb] in Hu. apply andb_true_iff in Hu.
    destruct Hu as [Ha Hu]. cbn [append]. rewrite star_chr_cons, Ha.
    rewrite (IH Hu). reflexivity.
Qed.

(** When the rest of the pattern fails wherever the class could stop,
    the whole fails. *)
Lemma star_chr_none {A : Type} (p : ascii -> bool) (s : string)
    (k : string -> option A) :
  (forall u v, s = u ++ v -> string_forallb p u = true -> k v = None) ->
  rmatch (Star (Chr p)) s k = None.
Proof.
  induction s as [|a r IH]; intros H.
  - rewrite star_chr_nil. apply (H "" ""); reflexivity.
  - rewrite star_chr_cons.
    assert (H0 : k (String a r) = None) by (apply (H "" (String a r)); reflexivity).
    destruct (p a) eqn:Ha; [|exact H0].
    rewrite IH; [exact H0|].
    intros u v -> Hu. apply (H (String a u) v); [reflexivity|].
    cbn [string_forallb]. rewrite Ha. exact Hu.
Qed.

Lemma star_chr_inv {A : Type} (p : ascii -> bool) (s : string)
    (k : string -> option A) (x : A) :
  rmatch (Star (Chr p)) s k = Some x ->
  exists u v, s = u ++ v /\ string_forallb p u = true /\ k v = Some x.
Proof.
  induction s as [|a r IH]; intros H.
  - exists "", "". repeat split. exact H.
  - rewrite star_chr_cons in H. destruct (p a) eqn:Ha.
    + destruct (rmatch (Star (Chr p)) r k) as [y|] eqn:E.
      * inversion H. subst y. destruct (IH eq_refl) as [u [v [-> [Hu Hk]]]].
        exists (String a u), v. repeat split; [|exact Hk].
        cbn [string_forallb]. rewrite Ha. exact Hu.
      * exists "", (String a r). repeat split. exact H.
    + exists "", (String a r). repeat split. exact H.
Qed.

Lemma plus_chr_greedy {A : Type} (p : ascii -> bool) (a : ascii)
    (u v : string) (k : string -> option A) (x : A) :
  p a = true -> string_forallb p u = true -> stops p v = true ->
  k v = Some x ->
  rmatch (Plus (Chr p)) (String a u ++ v) k = Some x.
Proof.
  intros Ha Hu Hv Hk. unfold Plus. cbn [rmatch append]. rewrite Ha.
  apply star_chr_greedy; assumption.
Qed.

Lemma plus_chr_inv {A : Type} (p : ascii -> bool) (s : string)
    (k : string -> option A) (x : A) :
  rmatch (Plus (Chr p)) s k = Some x ->
  exists a u v,
    s = String a u ++ v /\ p a = true /\ string_forallb p u = true
    /\ k v = Some x.
Proof.
  unfold Plus. cbn [rmatch]. destruct s as [|a r]; [discriminate|].
  destruct (p a) eqn:Ha; [|discriminate]. intros H.
  destruct (star_chr_inv p r k x H) as [u [v [-> [Hu Hk]]]].
  exists a, u, v. repeat split; assumption.
Qed.

Lemma captured_app (u v : string) : captured (u ++ v) v = u.
Proof.
  unfold captured. rewrite string_app_length.
  replace (String.length u + String.length v - String.length v)
    with (String.length u) by lia.
  induction u as [|a u IH]; cbn [append String.length substring].
  - destruct v; reflexivity.
  - rewrite IH. reflexivity.
Qed.

Lemma captured_all (u : string) : captured u "" = u.
Proof.
  rewrite <- (string_app_nil_r u) at 1. apply captured_app.
Qed.

(** A pattern found at the start of a suffix is found in the text. *)
Lemma test_suffix (r : re) (before s : string) :
  test_at_start r s = true -> test r (before ++ s) = true.
Proof.
  intros H. induction before as [|a b IH].
  - destruct s; cbn [append test]; rewrite H; reflexivity.
  - cbn [append test]. rewrite IH. apply orb_true_r.
Qed.

Lemma test_inv (r : re) (s : string) :
  test r s = true ->
  exists before here, s = before ++ here /\ test_at_start r here = true.
Proof.
  induction s as [|a s IH]; cbn [test]; intros H.
  - rewrite orb_false_r in H. exists "", "". split; [reflexivity | exact H].
  - apply orb_true_iff in H. destruct H as [H|H].
    + exists "", (String a s). split; [reflexivity | exact H].
    + destruct (IH H) as [b [h [-> Hh]]].
      exists (String a b), h. split; [reflexivity | exact Hh].
Qed.

Lemma test_at_start_Lit (t rest : string) :
  test_at_start (Lit t) (t ++ rest) = true.
Proof. unfold test_at_start. rewrite rmatch_Lit. reflexivity. Qed.

Lemma includes_app (t before after : string) :
  includes t (before ++ t ++ after) = true.
Proof. unfold includes. apply test_suffix, test_at_start_Lit. Qed.

Lemma includes_inv (t s : string) :
  includes t s = true -> exists before after, s = before ++ t ++ after.
Proof.
  unfold includes. intros H.
  destruct (test_inv _ _ H) as [b [h [-> Hh]]].
  unfold test_at_start in Hh.
  destruct (rmatch (Lit t) h (fun _ => Some tt)) as [[]|] eqn:E; [|discriminate].
  destruct (rmatch_Lit_inv t h _ tt E) as [rest [-> _]].
  exists b, rest. reflexivity.
Qed.

End Matcher.

(** ** The syntax pass: all it reports *)

Section SyntaxFindings.

Lemma count_char_counts (st : syntax_state) (a : ascii) :
  braceCount (count_char st a)
  = (braceCount st + (if is_char "{" a then 1 else 0)
     - (if is_char "}" a then 1 else 0))%Z
  /\ bracketCount (count_char st a)
     = (bracketCount st + (if is_char "[" a then 1 else 0)
        - (if is_char "]" a then 1 else 0))%Z
  /\ parenCount (count_char st a)
     = (parenCount st + (if is_char "(" a then 1 else 0)
        - (if is_char ")" a then 1 else 0))%Z.
Proof.
  destruct a as [[] [] [] [] [] [] [] []];
    cbv [count_char is_char Ascii.eqb Bool.eqb braceCount bracketCount
         parenCount];
    repeat split; lia.
Qed.

Lemma count_line_counts (line : string) (st : syntax_state) :
  braceCount (count_line st line)
  = (braceCount st + Z.of_nat (occurrences "{" line)
     - Z.of_nat (occurrences "}" line))%Z
  /\ bracketCount (count_line st line)
     = (bracketCount st + Z.of_nat (occurrences "[" line)
        - Z.of_nat (occurrences "]" line))%Z
  /\ parenCount (count_line st line)
     = (parenCount st + Z.of_nat (occurrences "(" line)
        - Z.of_nat (occurrences ")" line))%Z.
Proof.
  revert st. induction line as [|a r IH]; intros st.
  - cbn. repeat split; lia.
  - cbn [count_line occurrences].
    destruct (IH (count_char st a)) as [H1 [H2 H3]].
    destruct (count_char_counts st a) as [C1 [C2 C3]].
    rewrite H1, H2, H3, C1, C2, C3.
    repeat split;
      repeat match goal with |- context [if ?b then _ else _] => destruct b end;
      lia.
Qed.

Lemma syntax_line_findings (st : syntax_state) (lineIndex : nat)
    (line : string) :
  let d (o c : ascii) :=
    (if is_code_line line
     then Z.of_nat (occurrences o line) - Z.of_nat (occurrences c line)
     else 0)%Z in
  braceCount (syntax_line st lineIndex line)
  = (braceCount st + d "{"%char "}"%char)%Z
  /\ bracketCount (syntax_line st lineIndex line)
     = (bracketCount st + d "["%char "]"%char)%Z
  /\ parenCount (syntax_line st lineIndex line)
     = (parenCount st + d "("%char ")"%char)%Z
  /\ exists new,
       issues (syntax_line st lineIndex line) = (issues st ++ new)%list
       /\ Forall (about_line (lineIndex + 1)) new.
Proof.
  cbn zeta. unfold syntax_line, is_code_line.
  destruct ((trim line =? "") || startsWith "#" (trim line)
            || startsWith "//" (trim line)).
  - cbn [negb]. repeat (split; [lia|]).
    exists []. rewrite app_nil_r. split; constructor.
  - cbn [negb].
    repeat match goal with
           | |- context [if ?b then _ else _] => destruct b
           | |- context [match ?o with Some _ => _ | None => _ end] => destruct o
           end;
      unfold push; cbn [braceCount bracketCount parenCount issues];
      rewrite ?count_line_issues;
      repeat match goal with
             | |- context [count_line ?s line] =>
                 let H := fresh in
                 pose proof (count_line_counts line s) as H;
                 destruct H as [-> [-> ->]]
             end;
      cbn [braceCount bracketCount parenCount issues];
      repeat (split; [lia|]);
      rewrite <- ?app_assoc;
      first [ exists []; rewrite app_nil_r; split; [reflexivity | constructor]
            | eexists; (split; [reflexivity|]);
              repeat first
                [ apply Forall_nil
                | apply Forall_cons;
                  [ unfold about_line, line_location;
                    cbn [issue_title issue_line issue_location issue_severity];
                    repeat split; auto; discriminate | ] ] ].
Qed.

Lemma syntax_lines_findings (lines : list string) :
  forall (st : syntax_state) (lineIndex : nat),
    braceCount (syntax_lines st lineIndex lines)
    = (braceCount st + balance "{" "}" lines)%Z
    /\ bracketCount (syntax_lines st lineIndex lines)
       = (bracketCount st + balance "[" "]" lines)%Z
    /\ parenCount (syntax_lines st lineIndex lines)
       = (parenCount st + balance "(" ")" lines)%Z
    /\ exists new,
         issues (syntax_lines st lineIndex lines) = (issues st ++ new)%list
         /\ Forall (within lineIndex (List.length lines)) new.
Proof.
  induction lines as [|line rest IH]; intros st lineIndex.
  - cbn. repeat (split; [lia|]).
    exists []. rewrite app_nil_r. split; constructor.
  - cbn [syntax_lines balance List.length].
    destruct (IH (syntax_line st lineIndex line) (S lineIndex))
      as [H1 [H2 [H3 [new2 [Hi Hf2]]]]].
    destruct (syntax_line_findings st lineIndex line)
      as [L1 [L2 [L3 [new1 [Li Hf1]]]]].
    cbn zeta in L1, L2, L3.
    rewrite H1, H2, H3, L1, L2, L3, Hi, Li.
    repeat (split; [lia|]).
    exists (new1 ++ new2)%list. rewrite app_assoc. split; [reflexivity|].
    apply Forall_app. split.
    + eapply Forall_impl; [|exact Hf1]. intros i Hi'.
      exists (lineIndex + 1). split; [lia | exact Hi'].
    + eapply Forall_impl; [|exact Hf2]. intros i [n [Hn Hi']].
      exists n. split; [lia | exact Hi'].
Qed.

Lemma validateBasicSyntax_findings (lines : list string) :
  exists per_line,
    validateBasicSyntax lines []
    = (per_line
       ++ unmatched (balance "{" "}" lines) "braces"
       ++ unmatched (balance "[" "]" lines) "brackets"
       ++ unmatched (balance "(" ")" lines) "parentheses")%list
    /\ Forall (within 0 (List.length lines)) per_line.
Proof.
  unfold validateBasicSyntax.
  destruct (syntax_lines_findings lines (mkState 0 0 0 []) 0)
    as [H1 [H2 [H3 [new [Hi Hf]]]]].
  cbn [braceCount bracketCount parenCount issues app Z.add] in *.
  rewrite H1, H2, H3, Hi. exists new. split; [reflexivity | exact Hf].
Qed.

End SyntaxFindings.


Section Identifiers.

Lemma constant_answer {A : Type} (s : string) (c x : A) :
  rmatch (Seq ws (Lit "=")) s (fun _ => Some c) = Some x -> x = c.
Proof.
  cbn [rmatch]. unfold ws. intros H.
  destruct (star_chr_inv _ _ _ _ H) as [u [v [_ [_ Hk]]]].
  destruct (rmatch_Lit_inv "=" v _ x Hk) as [rest [_ E]].
  now inversion E.
Qed.

(** What the assignment pattern captures is an identifier. *)
Lemma identifierMatch_valid (line identifier : string) :
  identifierMatch line = Some identifier ->
  test_at_start validIdentifier identifier = true.
Proof.
  unfold identifierMatch, ws. intros H.
  destruct (star_chr_inv _ _ _ _ H) as [blanks [s1 [_ [_ H1]]]].
  unfold ident in H1. cbn [rmatch] in H1.
  destruct (rmatch_Chr_inv _ _ _ _ H1) as [a [r [-> [Ha H2]]]].
  destruct (star_chr_inv _ _ _ _ H2) as [u [s2 [-> [Hu H3]]]].
  apply constant_answer in H3. subst identifier.
  change (String a (u ++ s2)) with (String a u ++ s2).
  rewrite captured_app.
  unfold test_at_start, validIdentifier, ident.
  rewrite !rmatch_Seq, rmatch_Chr_cons, Ha.
  rewrite <- (string_app_nil_r u).
  rewrite (star_chr_greedy is_name_char u "" _ tt Hu eq_refl eq_refl).
  reflexivity.
Qed.

Lemma syntax_line_identifiers (st : syntax_state) (lineIndex : nat)
    (line : string) :
  titled "Invalid identifier" (issues (syntax_line st lineIndex line))
  = titled "Invalid identifier" (issues st).
Proof.
  unfold syntax_line.
  destruct ((trim line =? "") || startsWith "#" (trim line)
            || startsWith "//" (trim line)); [reflexivity|].
  destruct (identifierMatch line) as [identifier|] eqn:E;
    [rewrite (identifierMatch_valid line identifier E); cbn [negb]|];
    repeat match goal with
           | |- context [if ?b then _ else _] => destruct b
           | |- context [match ?o with Some _ => _ | None => _ end] => destruct o
           end;
    unfold push; cbn [issues]; rewrite ?count_line_issues; cbn [issues];
    rewrite ?titled_app; cbn [titled filter issue_title];
    rewrite ?app_nil_r; reflexivity.
Qed.

Lemma syntax_lines_identifiers (lines : list string) :
  forall (st : syntax_state) (lineIndex : nat),
    titled "Invalid identifier" (issues (syntax_lines st lineIndex lines))
    = titled "Invalid identifier" (issues st).
Proof.
  induction lines as [|line rest IH]; intros st lineIndex; [reflexivity|].
  cbn [syntax_lines]. rewrite IH. apply syntax_line_identifiers.
Qed.

Lemma unmatched_title (count : Z) (what title : string) :
  ("Unmatched " ++ what =? title) = false ->
  titled title (unmatched count what) = [].
Proof.
  intros H. unfold unmatched. destruct (negb (count =? 0)%Z); [|reflexivity].
  cbn [titled filter issue_title]. rewrite H. reflexivity.
Qed.

End Identifiers.

(** X5: the syntax pass never reports an invalid identifier.  The name
    it checks is what the assignment pattern captured, a letter or
    underscore followed by letters, digits and underscores, and that is
    what the check accepts. *)
Theorem X5_no_invalid_identifier (lines : list string) :
  titled "Invalid identifier" (validateBasicSyntax lines []) = [].
Proof.
  unfold validateBasicSyntax. rewrite !titled_app.
  rewrite syntax_lines_identifiers.
  rewrite !unmatched_title by reflexivity. reflexivity.
Qed.

Section Quotes.

Ltac eval_escape :=
  match goal with
  | |- context [escape_char ?a] =>
      let v := eval vm_compute in (escape_char a) in
      change (escape_char a) with v
  end.

Lemma count_quotes_escape_char (a : ascii) (b : bool) (rest : string) :
  count_quotes b (escape_char a ++ rest)
  = count_quotes (is_char (ascii_of_nat 92) a) rest.
Proof.
  destruct a as [[] [] [] [] [] [] [] []]; eval_escape;
    cbn [append count_quotes]; destruct b; reflexivity.
Qed.

Lemma ends_with_backslash_cons (a b : ascii) (r : string) :
  ends_with_backslash (String a (String b r))
  = ends_with_backslash (String b r).
Proof. reflexivity. Qed.

Lemma count_quotes_escape_chars (s : string) (b : bool) (rest : string) :
  count_quotes b (escape_chars s ++ rest)
  = count_quotes (match s with
                  | EmptyString => b
                  | _ => ends_with_backslash s
                  end) rest.
Proof.
  revert b. induction s as [|a r IH]; intros b; [reflexivity|].
  cbn [escape_chars]. rewrite string_app_assoc, count_quotes_escape_char, IH.
  destruct r; reflexivity.
Qed.

Lemma count_quotes_label (label rest : string) (b : bool) :
  string_forallb no_quote_no_backslash label = true ->
  count_quotes b (label ++ rest)
  = count_quotes (match label with EmptyString => b | _ => false end) rest.
Proof.
  revert b. induction label as [|a r IH]; intros b H; [reflexivity|].
  cbn [string_forallb] in H. apply andb_true_iff in H. destruct H as [Ha Hr].
  unfold no_quote_no_backslash in Ha. apply andb_true_iff in Ha.
  destruct Ha as [Hq Hb].
  apply negb_true_iff in Hq. apply negb_true_iff in Hb.
  cbn [append count_quotes]. rewrite Hq, Hb, (IH _ Hr). cbn [andb Nat.add].
  destruct r; reflexivity.
Qed.

(** The counted quotes of a line that ends in an escaped literal. *)
Lemma count_quotes_literal (label s literal : string) :
  string_forallb no_quote_no_backslash label = true ->
  escapeHCLString (JStr s) = Ok literal ->
  count_quotes false (label ++ literal)
  = if ends_with_backslash s then 1 else 2.
Proof.
  intros Hl. rewrite escapeHCLString_string. intros E. inversion E.
  rewrite (count_quotes_label label _ false Hl).
  replace (match label with EmptyString => false | _ => false end)
    with false by (destruct label; reflexivity).
  change (dq ++ escape_chars s ++ dq)
    with (String (ascii_of_nat 34) (escape_chars s ++ dq)).
  cbn [count_quotes].
  change (is_char (ascii_of_nat 34) (ascii_of_nat 34)) with true.
  change (is_char (ascii_of_nat 92) (ascii_of_nat 34)) with false.
  cbn [negb andb]. rewrite count_quotes_escape_chars.
  destruct s as [|a r]; [reflexivity|].
  destruct (ends_with_backslash (String a r)); reflexivity.
Qed.

Lemma syntax_line_unclosed (st : syntax_state) (lineIndex : nat)
    (line : string) :
  titled "Unclosed string literal" (issues (syntax_line st lineIndex line))
  = (titled "Unclosed string literal" (issues st)
     ++ unclosed_strings lineIndex [line])%list.
Proof.
  unfold syntax_line, unclosed_strings, is_code_line.
  destruct ((trim line =? "") || startsWith "#" (trim line)
            || startsWith "//" (trim line));
    [cbn [negb andb app]; rewrite app_nil_r; reflexivity|].
  cbn [negb andb].
  destruct (negb (count_quotes false line mod 2 =? 0)%nat);
    repeat match goal with
           | |- context [if ?b then _ else _] => destruct b
           | |- context [match ?o with Some _ => _ | None => _ end] => destruct o
           end;
    unfold push; cbn [issues]; rewrite ?count_line_issues; cbn [issues];
    rewrite ?titled_app; cbn [titled filter issue_title app];
    rewrite ?app_nil_r; reflexivity.
Qed.

Lemma unclosed_strings_cons (lineIndex : nat) (line : string)
    (rest : list string) :
  unclosed_strings lineIndex (line :: rest)
  = (unclosed_strings lineIndex [line]
     ++ unclosed_strings (S lineIndex) rest)%list.
Proof. cbn [unclosed_strings]. rewrite app_nil_r. reflexivity. Qed.

Lemma syntax_lines_unclosed (lines : list string) :
  forall (st : syntax_state) (lineIndex : nat),
    titled "Unclosed string literal"
      (issues (syntax_lines st lineIndex lines))
    = (titled "Unclosed string literal" (issues st)
       ++ unclosed_strings lineIndex lines)%list.
Proof.
  induction lines as [|line rest IH]; intros st lineIndex.
  - cbn. rewrite app_nil_r. reflexivity.
  - cbn [syntax_lines]. rewrite IH, syntax_line_unclosed.
    rewrite (unclosed_strings_cons lineIndex line rest), app_assoc.
    reflexivity.
Qed.

Lemma validateBasicSyntax_unclosed (lines : list string) :
  titled "Unclosed string literal" (validateBasicSyntax lines [])
  = unclosed_strings 0 lines.
Proof.
  unfold validateBasicSyntax. rewrite !titled_app, syntax_lines_unclosed.
  rewrite !unmatched_title by reflexivity.
  cbn [issues titled filter app]. rewrite !app_nil_r. reflexivity.
Qed.

End Quotes.

(** X6: the check for unclosed string literals against the escaping of
    the value formatter.  A line that consists of a label without
    quotes and backslashes and of an escaped string literal holds two
    counted quotes, unless the string ends in a backslash: then the
    closing quote follows a backslash, is not counted, and the line,
    though well formed, is reported as an unclosed string literal. *)
Theorem X6_quote_parity (label s literal : string) :
  string_forallb no_quote_no_backslash label = true ->
  is_code_line (label ++ literal) = true ->
  escapeHCLString (JStr s) = Ok literal ->
  count_quotes false (label ++ literal)
  = (if ends_with_backslash s then 1 else 2)
  /\ titled "Unclosed string literal"
       (validateBasicSyntax [label ++ literal] [])
     = if ends_with_backslash s
       then [ mkIssue error "Unclosed string literal"
                "String literal is not properly closed with matching quotes."
                (Some 1) "Line 1" ]
       else [].
Proof.
  intros Hl Hc He.
  pose proof (count_quotes_literal label s literal Hl He) as H.
  split; [exact H|].
  rewrite validateBasicSyntax_unclosed.
  cbn [unclosed_strings]. rewrite Hc, H, app_nil_r.
  destruct (ends_with_backslash s); reflexivity.
Qed.

Lemma X6_quote_parity_witness :
  let s := "C:" ++ chr 92 in
  let literal := dq ++ "C:" ++ chr 92 ++ chr 92 ++ dq in
  escapeHCLString (JStr s) = Ok literal
  /\ titled "Unclosed string literal"
       (validateBasicSyntax ["  title       = " ++ literal] [])
     = [ mkIssue error "Unclosed string literal"
           "String literal is not properly closed with matching quotes."
           (Some 1) "Line 1" ].
Proof.
  intros s literal. split; [reflexivity|].
  exact (proj2 (X6_quote_parity "  title       = " s literal
                  eq_refl eq_refl eq_refl)).
Defined.

(** X7: the findings about unclosed string literals, all of them: the
    syntax pass reports one for each line that is read (neither blank
    nor a comment) and holds an odd number of quotes that no backslash
    precedes, in the order of the lines, and no other. *)
Theorem X7_unclosed_strings (lines : list string) :
  titled "Unclosed string literal" (validateBasicSyntax lines [])
  = unclosed_strings 0 lines.
Proof. exact (validateBasicSyntax_unclosed lines). Qed.

(** ** The style pass and the summary *)

Section StylePass.

Lemma indentation_suggestions (lines : list string) :
  forall (expectedIndent : Z) (flag : bool) (index : nat),
    Forall suggestion (indentation expectedIndent flag index lines).
Proof.
  induction lines as [|line rest IH]; intros e flag index; [constructor|].
  cbn [indentation]. destruct (trim line =? ""); [apply IH|].
  destruct ((2 <? Z.abs _)%Z && negb flag); [|apply IH].
  constructor; [reflexivity | apply IH].
Qed.

Lemma long_lines_suggestions (lines : list string) :
  forall index, Forall suggestion (long_lines index lines).
Proof.
  induction lines as [|line rest IH]; intros index; [constructor|].
  cbn [long_lines]. apply Forall_app. split; [|apply IH].
  destruct (120 <? String.length line)%nat; repeat constructor.
Qed.

Lemma style_suggestions (hclContent : string) :
  Forall suggestion (validateBestPractices hclContent).
Proof.
  unfold validateBestPractices.
  apply Forall_app; split; [apply indentation_suggestions|].
  apply Forall_app; split; [apply long_lines_suggestions|].
  apply Forall_app; split.
  - destruct (negb (includes "#" hclContent)
              && negb (includes "//" hclContent)); repeat constructor.
  - unfold hardcodedPatterns. cbn [flat_map fst snd].
    repeat (apply Forall_app; split);
      try match goal with
          | |- context [if ?b then _ else _] => destruct b
          end;
      repeat constructor.
Qed.

Lemma with_severity_suggestions (s : severity) (found : list issue) :
  Forall suggestion found -> s <> info -> with_severity s found = [].
Proof.
  intros H Hs. induction H as [|i rest Hi _ IH]; [reflexivity|].
  unfold with_severity in *. cbn [filter]. rewrite IH.
  unfold suggestion in Hi. rewrite Hi.
  destruct s; [reflexivity | reflexivity | contradiction].
Qed.

Lemma with_severity_app (s : severity) (a b : list issue) :
  with_severity s (a ++ b) = (with_severity s a ++ with_severity s b)%list.
Proof. apply filter_app. Qed.

(** *** One indentation finding at most *)

Lemma indentation_once (lines : list string) :
  forall (expectedIndent : Z) (flag : bool) (index : nat),
    List.length (indentation expectedIndent flag index lines)
    <= (if flag then 0 else 1).
Proof.
  induction lines as [|line rest IH]; intros e flag index.
  - destruct flag; cbn; lia.
  - cbn [indentation]. destruct (trim line =? ""); [apply IH|].
    destruct ((2 <? Z.abs _)%Z && negb flag) eqn:E; [|apply IH].
    apply andb_true_iff in E. destruct E as [_ E].
    destruct flag; [discriminate|].
    cbn [List.length]. specialize (IH
      (if endsWith_char "{" (trim line) then (e + 2)%Z
       else if trim line =? "}" then (e - 2)%Z else e) true (S index)).
    cbn in IH. lia.
Qed.

Lemma titled_none (title : string) (found : list issue) :
  Forall (fun i => (issue_title i =? title) = false) found ->
  titled title found = [].
Proof.
  induction 1 as [|i rest Hi _ IH]; [reflexivity|].
  unfold titled in *. cbn [filter]. rewrite Hi. exact IH.
Qed.

Lemma titled_length (title : string) (found : list issue) :
  List.length (titled title found) <= List.length found.
Proof. unfold titled. apply filter_length_le. Qed.

Lemma long_lines_titles (lines : list string) :
  forall index,
    Forall (fun i => issue_title i = "Long line") (long_lines index lines).
Proof.
  induction lines as [|line rest IH]; intros index; [constructor|].
  cbn [long_lines]. apply Forall_app. split; [|apply IH].
  destruct (120 <? String.length line)%nat; repeat constructor.
Qed.

(** *** Letters in either case *)

Lemma rmatch_Lit_i {A : Type} (t w rest : string) (k : string -> option A) :
  toLowerCase w = toLowerCase t ->
  rmatch (Lit_i t) (w ++ rest) k = k rest.
Proof.
  revert w. induction t as [|c t IH]; intros w H.
  - destruct w; [reflexivity | discriminate].
  - destruct w as [|a w]; [discriminate|].
    unfold toLowerCase in H. cbn [string_map] in H. inversion H.
    cbn [Lit_i append]. rewrite rmatch_Seq, rmatch_Chr_cons.
    rewrite H1, Ascii.eqb_refl. apply IH. exact H2.
Qed.

Lemma test_Alt_r (a b : re) (s : string) :
  test_at_start b s = true -> test_at_start (Alt a b) s = true.
Proof.
  unfold test_at_start. cbn [rmatch]. intros H.
  destruct (rmatch a s (fun _ => Some tt)); [reflexivity | exact H].
Qed.

Lemma test_Alt_l (a b : re) (s : string) :
  test_at_start a s = true -> test_at_start (Alt a b) s = true.
Proof.
  unfold test_at_start. cbn [rmatch]. intros H.
  destruct (rmatch a s (fun _ => Some tt)); [reflexivity | discriminate].
Qed.

End StylePass.

(** X8: the style pass adds suggestions only.  Every finding of
    [validateBestPractices] has severity info, so the pass changes
    neither the validity of a result nor its counts of errors and
    warnings, whatever the other passes find. *)
Theorem X8_style_pass_suggests
    (structure provider : string -> list issue) (hclContent : string) :
  Forall (fun i => issue_severity i = info) (validateBestPractices hclContent)
  /\ let with_style :=
       performHCLValidation structure provider validateBestPractices
         hclContent in
     let without :=
       performHCLValidation structure provider (fun _ => []) hclContent in
     isValid with_style = isValid without
     /\ errors (result_summary with_style) = errors (result_summary without)
     /\ warnings (result_summary with_style)
        = warnings (result_summary without).
Proof.
  pose proof (style_suggestions hclContent) as H.
  split; [exact H|]. cbn zeta. unfold performHCLValidation.
  cbn [isValid result_summary errors warnings].
  rewrite !with_severity_app.
  rewrite (with_severity_suggestions error _ H) by discriminate.
  rewrite (with_severity_suggestions warning _ H) by discriminate.
  cbn [with_severity filter]. rewrite !app_nil_r. repeat split.
Qed.

(** X9: the style pass reports inconsistent indentation once at most,
    however many lines are off. *)
Theorem X9_indentation_once (hclContent : string) :
  List.length
    (titled "Inconsistent indentation" (validateBestPractices hclContent))
  <= 1.
Proof.
  unfold validateBestPractices. rewrite !titled_app.
  rewrite (titled_none _ (long_lines 0 _)).
  2:{ eapply Forall_impl; [|apply long_lines_titles].
      intros i ->. reflexivity. }
  match goal with
  | |- context [titled ?t (if ?c then ?x else ?y)] =>
      replace (titled t (if c then x else y)) with (@nil issue)
        by (destruct c; reflexivity)
  end.
  match goal with
  | |- context [titled ?t (flat_map ?f ?l)] =>
      replace (titled t (flat_map f l)) with (@nil issue)
  end.
  2:{ unfold hardcodedPatterns. cbn [flat_map fst snd].
      rewrite !titled_app.
      repeat match goal with
             | |- context [if ?b then _ else _] => destruct b
             end;
        reflexivity. }
  rewrite !app_nil_r.
  pose proof (titled_length "Inconsistent indentation"
                (indentation 0 false 0 (split_lines hclContent))) as H1.
  pose proof (indentation_once (split_lines hclContent) 0 false 0) as H2.
  cbn in H2. lia.
Qed.

(** X10: the style pass suggests a variable for the environment
    wherever the text holds the word staging, in any letter case and
    quoted or not: in the pattern, quote prod, staging, dev quote, the
    alternation splits the whole pattern, so the quotes belong to prod
    and to dev only. *)
Theorem X10_staging_anywhere (before word after : string) :
  toLowerCase word = "staging" ->
  In (use_variables "Environment")
    (validateBestPractices (before ++ word ++ after)).
Proof.
  intros H. unfold validateBestPractices.
  apply in_or_app. right. apply in_or_app. right. apply in_or_app. right.
  unfold hardcodedPatterns. cbn [flat_map fst snd].
  apply in_or_app. right. apply in_or_app. left.
  assert (T : test (Alt (Lit_i (dq ++ "prod"))
                      (Alt (Lit_i "staging") (Lit_i ("dev" ++ dq))))
                (before ++ word ++ after) = true).
  { apply test_suffix, test_Alt_r, test_Alt_l.
    unfold test_at_start. rewrite (rmatch_Lit_i "staging" word after _ H).
    reflexivity. }
  rewrite T. left. reflexivity.
Qed.

Lemma X10_staging_anywhere_witness :
  In (use_variables "Environment")
    (validateBestPractices
       ("  title       = " ++ dq ++ "Upstaging area" ++ dq)).
Proof.
  apply (X10_staging_anywhere ("  title       = " ++ dq ++ "Up") "staging"
           (" area" ++ dq)).
  reflexivity.
Defined.

(** X11: the summary of a validation result is shown as valid or as
    invalid, never under the class warning: a result is not valid only
    when it counts an error.  This holds whatever the passes find. *)
Theorem X11_summary_class
    (structure provider style : string -> list issue) (hclContent : string) :
  let result := performHCLValidation structure provider style hclContent in
  summaryClass result = (if isValid result then "valid" else "invalid")
  /\ summaryClass result <> "warning"
  /\ (isValid result = false <-> 0 < errors (result_summary result)).
Proof.
  cbn zeta. unfold summaryClass, performHCLValidation.
  cbn [isValid result_summary errors].
  destruct (List.length (with_severity error _)) as [|n] eqn:E.
  - cbn. repeat split; try discriminate; lia.
  - cbn. repeat split; try discriminate; try lia.
Qed.

(** X20: the score shown with a result lies between 0 and 100, is 100
    exactly when the result counts no error and no warning, and does
    not depend on the suggestions: with or without the style pass the
    score is the same. *)
Theorem X20_score
    (structure provider : string -> list issue) (hclContent : string) :
  let with_style :=
    result_summary
      (performHCLValidation structure provider validateBestPractices
         hclContent) in
  let without :=
    result_summary
      (performHCLValidation structure provider (fun _ => []) hclContent) in
  (0 <= score with_style <= 100)%Z
  /\ (score with_style = 100%Z
      <-> errors with_style = 0 /\ warnings with_style = 0)
  /\ score with_style = score without.
Proof.
  cbn zeta.
  pose proof (style_suggestions hclContent) as H.
  unfold performHCLValidation, score.
  cbn [result_summary errors warnings].
  rewrite !with_severity_app.
  rewrite (with_severity_suggestions error _ H) by discriminate.
  rewrite (with_severity_suggestions warning _ H) by discriminate.
  cbn [with_severity filter]. rewrite !app_nil_r.
  repeat split; try lia.
Qed.

(** ** The patterns of the validator *)

Section Patterns.

Lemma run_of_cons (p : ascii -> bool) (u : string) :
  run_of p u = true ->
  exists a w, u = String a w /\ p a = true /\ string_forallb p w = true.
Proof.
  unfold run_of. destruct u as [|a w]; [discriminate|].
  cbn [String.eqb negb andb string_forallb]. intros H.
  apply andb_true_iff in H. exists a, w. split; [reflexivity | exact H].
Qed.

Lemma plus_app {A : Type} (p : ascii -> bool) (u v : string)
    (k : string -> option A) (x : A) :
  run_of p u = true -> stops p v = true -> k v = Some x ->
  rmatch (Plus (Chr p)) (u ++ v) k = Some x.
Proof.
  intros Hu Hv Hk. destruct (run_of_cons p u Hu) as [a [w [-> [Ha Hw]]]].
  apply plus_chr_greedy; assumption.
Qed.

Lemma plus_inv {A : Type} (p : ascii -> bool) (s : string)
    (k : string -> option A) (x : A) :
  rmatch (Plus (Chr p)) s k = Some x ->
  exists u v, run_of p u = true /\ s = u ++ v /\ k v = Some x.
Proof.
  intros H. destruct (plus_chr_inv p s k x H) as [a [u [v [-> [Ha [Hu Hk]]]]]].
  exists (String a u), v. split; [|split; [reflexivity | exact Hk]].
  unfold run_of. cbn [String.eqb negb andb string_forallb].
  rewrite Ha. exact Hu.
Qed.

(** If the rest of the pattern can go on from some stop of the class,
    the match does not fail. *)
Lemma star_chr_some {A : Type} (p : ascii -> bool) (u v : string)
    (k : string -> option A) :
  string_forallb p u = true -> k v <> None ->
  rmatch (Star (Chr p)) (u ++ v) k <> None.
Proof.
  intros Hu Hk. induction u as [|a u IH].
  - cbn [append]. destruct v as [|b w]; [exact Hk|].
    rewrite star_chr_cons. destruct (p b); [|exact Hk].
    destruct (rmatch (Star (Chr p)) w k); [discriminate | exact Hk].
  - cbn [string_forallb] in Hu. apply andb_true_iff in Hu.
    destruct Hu as [Ha Hu]. cbn [append]. rewrite star_chr_cons, Ha.
    specialize (IH Hu).
    destruct (rmatch (Star (Chr p)) (u ++ v) k); [discriminate|].
    contradiction.
Qed.

Lemma plus_some {A : Type} (p : ascii -> bool) (u v : string)
    (k : string -> option A) :
  run_of p u = true -> k v <> None ->
  rmatch (Plus (Chr p)) (u ++ v) k <> None.
Proof.
  intros Hu Hk. destruct (run_of_cons p u Hu) as [a [w [-> [Ha Hw]]]].
  unfold Plus. rewrite rmatch_Seq. cbn [append]. rewrite rmatch_Chr_cons, Ha.
  apply star_chr_some; assumption.
Qed.

Lemma stops_quote (p : ascii -> bool) (rest : string) :
  p (ascii_of_nat 34) = false -> stops p (dq ++ rest) = true.
Proof.
  intros H. unfold dq, chr. cbn [append stops]. rewrite H. reflexivity.
Qed.

(** *** A quoted text *)

Lemma quoted_app {A : Type} (t rest : string)
    (k : string -> string -> option A) :
  run_of not_quote t = true ->
  quoted (dq ++ t ++ dq ++ rest) k = k t rest.
Proof.
  intros Ht. unfold quoted. rewrite rmatch_Lit.
  destruct (k t rest) as [x|] eqn:E.
  - apply plus_app; [exact Ht | apply stops_quote; reflexivity|].
    rewrite rmatch_Lit, captured_app. exact E.
  - destruct (rmatch (Plus (Chr not_quote)) (t ++ dq ++ rest) _) as [y|] eqn:F;
      [|reflexivity].
    destruct (plus_inv _ _ _ _ F) as [u [v [Hu [Hs Hk]]]].
    destruct (rmatch_Lit_inv dq v _ y Hk) as [r [-> Hr]].
    (* the only quote that can close is the first one *)
    assert (Hsame : u = t /\ r = rest).
    { clear -Ht Hu Hs. unfold run_of in *.
      apply andb_true_iff in Ht. destruct Ht as [_ Ht].
      apply andb_true_iff in Hu. destruct Hu as [_ Hu].
      revert u Hu Hs. induction t as [|a t IH]; intros u Hu Hs.
      - destruct u as [|b u]; [cbn in Hs; inversion Hs; split; reflexivity|].
        cbn in Hs. inversion Hs. subst b.
        cbn [string_forallb] in Hu. discriminate.
      - cbn [string_forallb] in Ht. apply andb_true_iff in Ht.
        destruct Ht as [Ha Ht].
        destruct u as [|b u].
        + cbn in Hs. inversion Hs. subst a. discriminate.
        + cbn in Hs. inversion Hs. subst b.
          cbn [string_forallb] in Hu. apply andb_true_iff in Hu.
          destruct (IH Ht u (proj2 Hu) H1) as [-> ->]. split; reflexivity. }
    destruct Hsame as [-> ->]. rewrite captured_app in Hr. congruence.
Qed.

Lemma quoted_inv {A : Type} (s : string) (k : string -> string -> option A)
    (x : A) :
  quoted s k = Some x ->
  exists t rest,
    run_of not_quote t = true /\ s = dq ++ t ++ dq ++ rest
    /\ k t rest = Some x.
Proof.
  unfold quoted. intros H.
  destruct (rmatch_Lit_inv dq s _ x H) as [s1 [-> H1]].
  destruct (plus_inv _ _ _ _ H1) as [t [v [Ht [-> H2]]]].
  destruct (rmatch_Lit_inv dq v _ x H2) as [rest [-> H3]].
  rewrite captured_app in H3.
  exists t, rest. split; [exact Ht|]. split; [reflexivity | exact H3].
Qed.

(** *** The resource pattern *)

Lemma resource_here_app
    (blanks1 resourceType blanks2 resourceName rest : string) :
  run_of is_space blanks1 = true -> run_of not_quote resourceType = true ->
  run_of is_space blanks2 = true -> run_of not_quote resourceName = true ->
  resource_here
    (resource_text blanks1 resourceType blanks2 resourceName ++ rest)
  = Some (resourceType, resourceName, rest).
Proof.
  intros H1 Ht H2 Hn. unfold resource_here, resource_text.
  rewrite rmatch_Seq.
  rewrite !string_app_assoc.
  change ("resource" ++ blanks1 ++ dq ++ resourceType ++ dq ++ blanks2 ++ dq
          ++ resourceName ++ dq ++ rest)
    with ("resource" ++ (blanks1 ++ dq ++ resourceType ++ dq ++ blanks2 ++ dq
          ++ resourceName ++ dq ++ rest)).
  rewrite rmatch_Lit.
  apply plus_app; [exact H1 | apply stops_quote; reflexivity|].
  rewrite (quoted_app resourceType _ _ Ht).
  apply plus_app; [exact H2 | apply stops_quote; reflexivity|].
  rewrite (quoted_app resourceName _ _ Hn). reflexivity.
Qed.

Lemma resource_here_inv (s resourceType resourceName rest : string) :
  resource_here s = Some (resourceType, resourceName, rest) ->
  exists blanks1 blanks2,
    run_of is_space blanks1 = true /\ run_of not_quote resourceType = true
    /\ run_of is_space blanks2 = true /\ run_of not_quote resourceName = true
    /\ s = resource_text blanks1 resourceType blanks2 resourceName ++ rest.
Proof.
  unfold resource_here. rewrite rmatch_Seq. intros H.
  destruct (rmatch_Lit_inv "resource" s _ _ H) as [r0 [-> H0]].
  destruct (plus_inv _ _ _ _ H0) as [b1 [s1 [Hb1 [-> H1]]]].
  destruct (quoted_inv _ _ _ H1) as [t [s2 [Ht [-> H2]]]].
  destruct (plus_inv _ _ _ _ H2) as [b2 [s3 [Hb2 [-> H3]]]].
  destruct (quoted_inv _ _ _ H3) as [n [s4 [Hn [-> H4]]]].
  inversion H4. subst.
  exists b1, b2. repeat (split; [assumption|]).
  unfold resource_text. rewrite !string_app_assoc. reflexivity.
Qed.

(** *** Matching all *)

Lemma match_all_from_In (here : string -> option string) (s : string) :
  forall (skip : nat) (m : string),
    In m (match_all_from here skip s) ->
    exists s' rest, here s' = Some rest /\ m = captured s' rest.
Proof.
  induction s as [|a tail IH]; intros skip m H.
  - destruct skip; cbn [match_all_from] in H; [|contradiction].
    destruct (here "") as [rest|] eqn:E; [|contradiction].
    destruct H as [<-|[]]. exists "", rest. split; [exact E | reflexivity].
  - destruct skip as [|n]; cbn [match_all_from] in H; [|exact (IH _ _ H)].
    destruct (here (String a tail)) as [rest|] eqn:E; [|exact (IH _ _ H)].
    destruct H as [<-|H]; [|exact (IH _ _ H)].
    exists (String a tail), rest. split; [exact E | reflexivity].
Qed.

Lemma match_all_In (here : string -> option string) (s m : string) :
  In m (match_all here s) ->
  exists s' rest, here s' = Some rest /\ m = captured s' rest.
Proof. apply match_all_from_In. Qed.

(** The first match, when the pattern matches at the start. *)
Lemma match_all_first (here : string -> option string) (s rest : string) :
  here s = Some rest ->
  exists others, match_all here s = captured s rest :: others.
Proof.
  intros H. unfold match_all.
  destruct s as [|a tail]; cbn [match_all_from]; rewrite H; eexists; reflexivity.
Qed.

Lemma search_here {A : Type} (here : string -> option A) (s : string) (x : A) :
  here s = Some x -> search here s = Some x.
Proof. intros H. destruct s; cbn [search]; rewrite H; reflexivity. Qed.

Lemma search_not_none {A : Type} (here : string -> option A) (s : string) :
  here s <> None -> search here s <> None.
Proof.
  intros H. destruct (here s) as [x|] eqn:E; [|contradiction].
  rewrite (search_here here s x E). discriminate.
Qed.

(** *** The structure pass reads its groups off matches that match *)

Lemma resource_end_inv (s rest : string) :
  resource_end s = Some rest ->
  exists resourceType resourceName,
    resource_here s = Some (resourceType, resourceName, rest).
Proof.
  unfold resource_end. destruct (resource_here s) as [[[t n] r]|]; [|discriminate].
  cbn. intros H. inversion H. exists t, n. reflexivity.
Qed.

Lemma resource_rematch (m : string) :
  (exists s rest, resource_end s = Some rest /\ m = captured s rest) ->
  exists resourceType resourceName,
    search resource_here m = Some (resourceType, resourceName, "").
Proof.
  intros [s [rest [H ->]]].
  destruct (resource_end_inv s rest H) as [t [n Hh]].
  destruct (resource_here_inv s t n rest Hh)
    as [b1 [b2 [H1 [Ht [H2 [Hn ->]]]]]].
  rewrite captured_app. exists t, n. apply search_here.
  rewrite <- (string_app_nil_r (resource_text b1 t b2 n)).
  apply resource_here_app; assumption.
Qed.

Lemma duplicate_findings_returns (matches : list string) :
  Forall (fun m => exists x, search resource_here m = Some x) matches ->
  forall resourceNames, returns (duplicate_findings resourceNames matches).
Proof.
  induction 1 as [|m rest [[[t n] r] Hm] _ IH]; intros seen.
  - eexists; reflexivity.
  - cbn [duplicate_findings]. rewrite Hm.
    destruct (existsb (String.eqb n) seen); [|apply IH].
    destruct (IH seen) as [found ->]. eexists; reflexivity.
Qed.

Lemma validateTerraformStructure_returns (hclContent : string) :
  returns (validateTerraformStructure hclContent).
Proof.
  unfold validateTerraformStructure.
  destruct (negb (includes _ hclContent)); [eexists; reflexivity|].
  cbn zeta.
  destruct (duplicate_findings_returns (match_all resource_end hclContent))
    with (resourceNames := @nil string) as [found ->].
  - apply Forall_forall. intros m Hm.
    destruct (resource_rematch m (match_all_In _ _ _ Hm)) as [t [n H]].
    eexists; exact H.
  - eexists; reflexivity.
Qed.

(** *** An equals sign and a quoted text *)

Lemma equals_quoted_app {A : Type} (blanks1 blanks2 text rest : string)
    (k : string -> string -> option A) (x : A) :
  string_forallb is_space blanks1 = true ->
  string_forallb is_space blanks2 = true ->
  run_of not_quote text = true ->
  k text rest = Some x ->
  equals_quoted (assigned blanks1 blanks2 text ++ rest) k = Some x.
Proof.
  intros H1 H2 Ht Hk. unfold equals_quoted, assigned.
  rewrite !string_app_assoc. rewrite rmatch_Seq. unfold ws.
  apply star_chr_greedy; [exact H1 | reflexivity|].
  rewrite rmatch_Seq.
  change ("=" ++ blanks2 ++ dq ++ text ++ dq ++ rest)
    with ("=" ++ (blanks2 ++ dq ++ text ++ dq ++ rest)).
  rewrite rmatch_Lit.
  apply star_chr_greedy; [exact H2 | apply stops_quote; reflexivity|].
  rewrite (quoted_app text rest k Ht). exact Hk.
Qed.

Lemma equals_quoted_inv {A : Type} (s : string)
    (k : string -> string -> option A) (x : A) :
  equals_quoted s k = Some x ->
  exists blanks1 blanks2 text rest,
    string_forallb is_space blanks1 = true
    /\ string_forallb is_space blanks2 = true
    /\ run_of not_quote text = true
    /\ s = assigned blanks1 blanks2 text ++ rest
    /\ k text rest = Some x.
Proof.
  unfold equals_quoted. rewrite rmatch_Seq. unfold ws. intros H.
  destruct (star_chr_inv _ _ _ _ H) as [b1 [v [-> [H1 Hv]]]].
  rewrite rmatch_Seq in Hv.
  destruct (rmatch_Lit_inv "=" v _ _ Hv) as [v' [-> Hv']].
  destruct (star_chr_inv _ _ _ _ Hv') as [b2 [v2 [-> [H2 Hq]]]].
  destruct (quoted_inv _ _ _ Hq) as [t [rest [Ht [-> Hk]]]].
  exists b1, b2, t, rest. repeat (split; [assumption|]).
  split; [|exact Hk]. unfold assigned. rewrite !string_app_assoc. reflexivity.
Qed.

(** *** The query, color and definition patterns match what they
    matched *)

Lemma query_rematch (m : string) :
  (exists s rest,
      option_map snd (query_here s) = Some rest /\ m = captured s rest) ->
  search query_here m <> None.
Proof.
  intros [s [rest [H ->]]]. apply search_not_none.
  destruct (query_here s) as [[q r]|] eqn:E; [|discriminate].
  cbn in H. inversion H. subst r. clear H.
  unfold query_here in E.
  destruct (rmatch_Lit_inv "q" s _ _ E) as [s1 [-> E1]].
  destruct (equals_quoted_inv _ _ _ E1) as [b1 [b2 [t [r [H1 [H2 [Ht [-> Hk]]]]]]]].
  inversion Hk. subst.
  change ("q" ++ assigned b1 b2 q ++ rest)
    with (("q" ++ assigned b1 b2 q) ++ rest).
  rewrite captured_app. unfold query_here.
  change ("q" ++ assigned b1 b2 q) with ("q" ++ (assigned b1 b2 q)).
  rewrite rmatch_Lit.
  rewrite <- (string_app_nil_r (assigned b1 b2 q)).
  rewrite (equals_quoted_app b1 b2 q "" _ (q, "") H1 H2 Ht eq_refl).
  discriminate.
Qed.

Lemma color_value_some (field blanks1 blanks2 text : string) :
  string_forallb is_space blanks1 = true ->
  string_forallb is_space blanks2 = true ->
  run_of not_quote text = true ->
  rmatch (Lit field) (field ++ assigned blanks1 blanks2 text)
    (fun s1 =>
       equals_quoted s1 (fun colorValue s2 => Some (field, colorValue, s2)))
  = Some (field, text, "").
Proof.
  intros H1 H2 Ht. rewrite rmatch_Lit.
  rewrite <- (string_app_nil_r (assigned blanks1 blanks2 text)).
  apply equals_quoted_app; try assumption. reflexivity.
Qed.

Lemma color_rematch (m : string) :
  (exists s rest,
      option_map snd (color_here s) = Some rest /\ m = captured s rest) ->
  search color_here m <> None.
Proof.
  intros [s [rest [H ->]]]. apply search_not_none.
  destruct (color_here s) as [[[f c] r]|] eqn:E; [|discriminate].
  cbn in H. inversion H. subst r. clear H.
  unfold color_here in E. cbn zeta in E.
  destruct (rmatch (Lit "background_color") s _) as [y|] eqn:E1.
  - inversion E. subst y. clear E.
    destruct (rmatch_Lit_inv _ s _ _ E1) as [s1 [-> E2]].
    destruct (equals_quoted_inv _ _ _ E2)
      as [b1 [b2 [t [r [H1 [H2 [Ht [-> Hk]]]]]]]].
    inversion Hk. subst.
    change ("background_color" ++ assigned b1 b2 c ++ rest)
      with (("background_color" ++ assigned b1 b2 c) ++ rest).
    rewrite captured_app. unfold color_here. cbn zeta.
    rewrite (color_value_some "background_color" b1 b2 c H1 H2 Ht).
    discriminate.
  - destruct (rmatch_Lit_inv _ s _ _ E) as [s1 [-> E2]].
    destruct (equals_quoted_inv _ _ _ E2)
      as [b1 [b2 [t [r [H1 [H2 [Ht [-> Hk]]]]]]]].
    inversion Hk. subst.
    change ("color" ++ assigned b1 b2 c ++ rest)
      with (("color" ++ assigned b1 b2 c) ++ rest).
    rewrite captured_app. unfold color_here. cbn zeta.
    destruct (rmatch (Lit "background_color") _ _); [discriminate|].
    rewrite (color_value_some "color" b1 b2 c H1 H2 Ht).
    discriminate.
Qed.

Lemma definition_rematch (m : string) :
  (exists s rest, definition_block_end s = Some rest /\ m = captured s rest) ->
  search definition_here m <> None.
Proof.
  intros [s [rest [H ->]]]. apply search_not_none.
  unfold definition_block_end in H.
  destruct (plus_inv _ _ _ _ H) as [w [v [Hw [-> Hv]]]].
  rewrite rmatch_Seq in Hv.
  destruct (rmatch_Lit_inv _ v _ _ Hv) as [v1 [-> Hv1]].
  rewrite rmatch_Seq in Hv1. unfold ws in Hv1.
  destruct (star_chr_inv _ _ _ _ Hv1) as [b [v2 [-> [Hb Hv2]]]].
  destruct (rmatch_Lit_inv _ v2 _ _ Hv2) as [v3 [-> Hv3]].
  inversion Hv3. subst v3.
  replace (w ++ "_definition" ++ b ++ "{" ++ rest)
    with ((w ++ "_definition" ++ b ++ "{") ++ rest)
    by (rewrite !string_app_assoc; reflexivity).
  rewrite captured_app. unfold definition_here.
  apply plus_some; [exact Hw|].
  rewrite rmatch_Lit. discriminate.
Qed.

Lemma each_match_returns {A : Type} (here : string -> option A)
    (finding : A -> list issue) (matches : list string) :
  Forall (fun m => search here m <> None) matches ->
  returns (each_match here finding matches).
Proof.
  induction 1 as [|m rest Hm _ IH]; [eexists; reflexivity|].
  cbn [each_match]. destruct (search here m); [|contradiction].
  destruct IH as [found ->]. eexists; reflexivity.
Qed.

Lemma validateDatadogProvider_returns (hclContent : string) :
  returns (validateDatadogProvider hclContent).
Proof.
  unfold validateDatadogProvider. cbn zeta.
  destruct (each_match_returns definition_here
              (fun groups =>
                 if negb (existsb (String.eqb (fst groups)) valid_widget_types)
                 then
                   [ mkIssue warning "Unknown widget type"
                       ("Widget type " ++ dq ++ fst groups ++ dq
                        ++ " might not be supported by the Datadog provider.")
                       None ("Widget: " ++ fst groups ++ "_definition") ]
                 else [])
              (match_all definition_block_end hclContent)) as [ws ->].
  { apply Forall_forall. intros m Hm.
    exact (definition_rematch m (match_all_In _ _ _ Hm)). }
  cbn [bind].
  match goal with
  | |- context [each_match query_here ?f ?ms] =>
      destruct (each_match_returns query_here f ms) as [qs ->]
  end.
  { apply Forall_forall. intros m Hm.
    exact (query_rematch m (match_all_In _ _ _ Hm)). }
  cbn [bind].
  match goal with
  | |- context [each_match color_here ?f ?ms] =>
      destruct (each_match_returns color_here f ms) as [cs ->]
  end.
  { apply Forall_forall. intros m Hm.
    exact (color_rematch m (match_all_In _ _ _ Hm)). }
  eexists; reflexivity.
Qed.

Lemma runHCLValidation_returns (hclContent : string) :
  exists structure provider,
    validateTerraformStructure hclContent = Ok structure
    /\ validateDatadogProvider hclContent = Ok provider
    /\ runHCLValidation hclContent
       = Ok (performHCLValidation (fun _ => structure) (fun _ => provider)
               validateBestPractices hclContent).
Proof.
  destruct (validateTerraformStructure_returns hclContent) as [s Hs].
  destruct (validateDatadogProvider_returns hclContent) as [p Hp].
  exists s, p. split; [exact Hs|]. split; [exact Hp|].
  unfold runHCLValidation. rewrite Hs, Hp. reflexivity.
Qed.

End Patterns.

(** X12: a validation run never raises.  The structure pass and the
    provider pass read groups off matches they have not tested, but
    each text they read them off was matched by the same pattern and
    matches it again; so every text has a validation result, and the
    error branch of [validateHCL] is never taken for a failed match. *)
Theorem X12_validation_returns (hclContent : string) :
  returns (validateTerraformStructure hclContent)
  /\ returns (validateDatadogProvider hclContent)
  /\ returns (runHCLValidation hclContent).
Proof.
  split; [apply validateTerraformStructure_returns|].
  split; [apply validateDatadogProvider_returns|].
  destruct (runHCLValidation_returns hclContent) as [s [p [_ [_ H]]]].
  eexists; exact H.
Qed.

(** ** The generated text under the validator *)

Section GeneratedText.

Lemma bind_inv {A B : Type} (m : res A) (k : A -> res B) (b : B) :
  bind m k = Ok b -> exists a, m = Ok a /\ k a = Ok b.
Proof.
  destruct m as [a|e]; [|discriminate]. intros H. exists a.
  split; [reflexivity | exact H].
Qed.

(** The head of the text: the resource line and the title line; and
    further down the layout line. *)
Lemma generateHCL_head (widgetMappings dashboardData : value) (out : string) :
  generateHCL widgetMappings dashboardData = Ok out ->
  exists t name title layout before after,
    get dashboardData "title" = Ok t
    /\ generateResourceName (or_else t (JStr "imported_dashboard")) false
       = Ok name
    /\ escapeHCLString (or_else t (JStr "Imported Dashboard")) = Ok title
    /\ out = resource_text " " "datadog_dashboard" " " name ++ " {" ++ nl
             ++ "  title       = " ++ title ++ nl
             ++ before
             ++ "  layout_type = " ++ dq ++ layout ++ dq ++ nl ++ after.
Proof.
  unfold generateHCL. intros H.
  apply bind_inv in H. destruct H as [t [Ht H]].
  apply bind_inv in H. destruct H as [title [Htitle H]].
  apply bind_inv in H. destruct H as [d [_ H]].
  apply bind_inv in H. destruct H as [description [_ H]].
  apply bind_inv in H. destruct H as [lt [_ H]].
  cbn zeta in H.
  apply bind_inv in H. destruct H as [name [Hname H]].
  apply cat_cons_inv in H. destruct H as [s1 [t1 [H1 [H ->]]]].
  apply cat_cons_inv in H. destruct H as [s2 [t2 [H2 [H ->]]]].
  apply cat_cons_inv in H. destruct H as [s3 [t3 [_ [H ->]]]].
  apply cat_cons_inv in H. destruct H as [s4 [t4 [_ [H ->]]]].
  apply cat_cons_inv in H. destruct H as [s5 [t5 [H5 [_ ->]]]].
  inversion H1. inversion H2. subst s1 s2. clear H1 H2.
  apply bind_inv in H5. destruct H5 as [l [_ H5]]. inversion H5. subst s5.
  exists t, name, title, l, (s3 ++ s4), t5.
  repeat (split; [assumption|]).
  unfold resource_text, dq, nl, chr.
  repeat first [rewrite string_app_assoc | progress cbn [append]].
  reflexivity.
Qed.

Lemma title_name (title : string) :
  generateResourceName
    (or_else (JStr title) (JStr "imported_dashboard")) false
  = generateResourceName (JStr title) false.
Proof. destruct title; reflexivity. Qed.

Lemma forallb_weaken (p q : ascii -> bool) (s : string) :
  (forall a, p a = true -> q a = true) ->
  string_forallb p s = true -> string_forallb q s = true.
Proof.
  intros Hpq. induction s as [|a r IH]; [reflexivity|].
  cbn [string_forallb]. intros H. apply andb_true_iff in H.
  rewrite (Hpq a (proj1 H)), (IH (proj2 H)). reflexivity.
Qed.

Lemma lower_name_not_quote (a : ascii) :
  is_lower_name_char a = true -> not_quote a = true.
Proof.
  destruct a as [[] [] [] [] [] [] [] []]; intros H;
    try reflexivity; discriminate H.
Qed.

(** A generated name is a run of characters that are no quotes. *)
Lemma generated_name_run (t : value) (name : string) :
  generateResourceName t false = Ok name ->
  run_of not_quote name = true /\ name_shape name = true.
Proof.
  destruct t; try discriminate. intros H.
  destruct (generateResourceName_shape s) as [n [Hn Hs]].
  rewrite H in Hn. inversion Hn. subst n. split; [|exact Hs].
  unfold name_shape in Hs.
  apply andb_true_iff in Hs. destruct Hs as [Hs _].
  apply andb_true_iff in Hs. destruct Hs as [Hs _].
  apply andb_true_iff in Hs. destruct Hs as [Hs Hc].
  apply andb_true_iff in Hs. destruct Hs as [He _].
  unfold run_of. rewrite He. cbn [andb].
  exact (forallb_weaken _ _ name lower_name_not_quote Hc).
Qed.

(** The resource pattern matches at the start of the text, and its
    first match names the dashboard. *)
Lemma generated_first_match (widgetMappings dashboardData : value)
    (out : string) :
  generateHCL widgetMappings dashboardData = Ok out ->
  exists t name others,
    get dashboardData "title" = Ok t
    /\ generateResourceName (or_else t (JStr "imported_dashboard")) false
       = Ok name
    /\ match_all resource_end out
       = resource_text " " "datadog_dashboard" " " name :: others
    /\ includes ("resource " ++ dq ++ "datadog_dashboard" ++ dq) out = true.
Proof.
  intros H.
  destruct (generateHCL_head _ _ _ H)
    as [t [name [title [l [b [a [Ht [Hn [_ ->]]]]]]]]].
  destruct (generated_name_run _ _ Hn) as [Hrun _].
  pose proof (resource_here_app " " "datadog_dashboard" " " name
                (" {" ++ nl ++ "  title       = " ++ title ++ nl ++ b
                 ++ "  layout_type = " ++ dq ++ l ++ dq ++ nl ++ a)
                eq_refl eq_refl eq_refl Hrun) as Hh.
  assert (He : resource_end
                 (resource_text " " "datadog_dashboard" " " name ++ " {" ++ nl
                  ++ "  title       = " ++ title ++ nl ++ b
                  ++ "  layout_type = " ++ dq ++ l ++ dq ++ nl ++ a)
               = Some (" {" ++ nl ++ "  title       = " ++ title ++ nl ++ b
                       ++ "  layout_type = " ++ dq ++ l ++ dq ++ nl ++ a)).
  { unfold resource_end. rewrite Hh. reflexivity. }
  destruct (match_all_first _ _ _ He) as [others Ho].
  rewrite captured_app in Ho.
  exists t, name, others. repeat (split; [assumption|]).
  apply (includes_app ("resource " ++ dq ++ "datadog_dashboard" ++ dq) ""
           (" " ++ dq ++ name ++ dq ++ " {" ++ nl ++ "  title       = "
            ++ title ++ nl ++ b ++ "  layout_type = " ++ dq ++ l ++ dq
            ++ nl ++ a)).
Qed.

(** An error among the findings makes the result invalid. *)
Lemma error_invalid (structure provider style : string -> list issue)
    (hclContent : string) (i : issue) :
  In i (result_issues
          (performHCLValidation structure provider style hclContent)) ->
  issue_severity i = error ->
  isValid (performHCLValidation structure provider style hclContent) = false.
Proof.
  unfold performHCLValidation. cbn [result_issues isValid]. intros Hin Hs.
  set (found := (_ ++ style hclContent)%list) in *.
  assert (Hf : In i (with_severity error found)).
  { unfold with_severity. apply filter_In. split; [exact Hin|].
    rewrite Hs. reflexivity. }
  destruct (with_severity error found); [contradiction | reflexivity].
Qed.

Lemma digit_no_letter (a : ascii) : is_digit a = true -> is_letter a = false.
Proof.
  destruct a as [[] [] [] [] [] [] [] []]; intros H;
    try reflexivity; discriminate H.
Qed.

Lemma digit_name_invalid (name : string) :
  starts_with_digit name = true ->
  test_at_start validResourceName name = false.
Proof.
  destruct name as [|a r]; [discriminate|]. cbn [starts_with_digit].
  intros H. unfold test_at_start, validResourceName.
  rewrite rmatch_Seq, rmatch_Chr_cons, (digit_no_letter a H). reflexivity.
Qed.

(** *** Lines of the generated text *)

Lemma split_lines_line (a b : string) :
  no_newline a = true -> split_lines (a ++ nl ++ b) = a :: split_lines b.
Proof.
  induction a as [|c a IH]; intros H; [reflexivity|].
  unfold no_newline in H. cbn [string_forallb] in H.
  apply andb_true_iff in H. destruct H as [Hc Ha].
  apply negb_true_iff in Hc.
  cbn [append split_lines]. rewrite Hc, (IH Ha). reflexivity.
Qed.

Lemma no_newline_app (a b : string) :
  no_newline a = true -> no_newline b = true -> no_newline (a ++ b) = true.
Proof.
  unfold no_newline. induction a as [|c a IH]; intros Ha Hb; [exact Hb|].
  cbn [append string_forallb] in *. apply andb_true_iff in Ha.
  rewrite (proj1 Ha), (IH (proj2 Ha) Hb). reflexivity.
Qed.

Lemma lower_name_no_newline (a : ascii) :
  is_lower_name_char a = true -> negb (nat_of_ascii a =? 10)%nat = true.
Proof.
  destruct a as [[] [] [] [] [] [] [] []]; intros H;
    try reflexivity; discriminate H.
Qed.

Lemma no_line_control_no_newline (s : string) :
  string_existsb is_line_control s = false -> no_newline s = true.
Proof.
  unfold no_newline. induction s as [|a r IH]; [reflexivity|].
  cbn [string_existsb string_forallb]. intros H.
  apply orb_false_iff in H. destruct H as [Ha Hr].
  rewrite (IH Hr), andb_true_r.
  unfold is_line_control in Ha. cbn zeta in Ha.
  apply orb_false_iff in Ha. destruct Ha as [Ha _].
  apply orb_false_iff in Ha. destruct Ha as [_ Ha]. rewrite Ha. reflexivity.
Qed.

Lemma title_line_code (rest : string) :
  is_code_line ("  title       = " ++ rest) = true.
Proof.
  unfold is_code_line, trim.
  change (trimStart ("  title       = " ++ rest))
    with (String "t" ("itle       = " ++ rest)).
  cbn [trimEnd]. destruct (trimEnd ("itle       = " ++ rest)); reflexivity.
Qed.

Lemma In_titled (title : string) (i : issue) (found : list issue) :
  In i (titled title found) -> In i found.
Proof. unfold titled. intros H. apply filter_In in H. exact (proj1 H). Qed.

Lemma backslash_title_unclosed (widgetMappings : value)
    (props : list (string * value)) (title out : string) :
  lookup "title" props = Some (JStr title) ->
  ends_with_backslash title = true ->
  generateHCL widgetMappings (JObj props) = Ok out ->
  In (unclosed_at 2) (validateBasicSyntax (split_lines out) []).
Proof.
  intros Hl Hb H.
  destruct (generateHCL_head _ _ _ H)
    as [t [name [literal [l [b [a [Ht [Hn [He ->]]]]]]]]].
  cbn [get] in Ht. rewrite Hl in Ht. inversion Ht. subst t. clear Ht.
  assert (Hne : or_else (JStr title) (JStr "Imported Dashboard") = JStr title)
    by (destruct title; [discriminate | reflexivity]).
  rewrite Hne in He.
  assert (Hlit : literal = dq ++ escape_chars title ++ dq)
    by (rewrite escapeHCLString_string in He; congruence).
  clear He. subst literal.
  apply (In_titled "Unclosed string literal").
  rewrite validateBasicSyntax_unclosed.
  destruct (generated_name_run _ _ Hn) as [_ Hshape].
  assert (Hh : no_newline
                 (resource_text " " "datadog_dashboard" " " name ++ " {")
               = true).
  { unfold resource_text. rewrite !string_app_assoc.
    repeat (apply no_newline_app; [reflexivity|]).
    apply no_newline_app; [|reflexivity].
    unfold name_shape in Hshape.
    apply andb_true_iff in Hshape. destruct Hshape as [Hs _].
    apply andb_true_iff in Hs. destruct Hs as [Hs _].
    apply andb_true_iff in Hs. destruct Hs as [_ Hc].
    exact (forallb_weaken _ _ name lower_name_no_newline Hc). }
  assert (Ht : no_newline
                 ("  title       = " ++ dq ++ escape_chars title ++ dq)
               = true).
  { apply no_newline_app; [reflexivity|].
    apply no_newline_app; [reflexivity|].
    apply no_newline_app; [|reflexivity].
    apply no_line_control_no_newline, escape_no_line_control. }
  replace (resource_text " " "datadog_dashboard" " " name ++ " {" ++ nl
           ++ "  title       = " ++ (dq ++ escape_chars title ++ dq) ++ nl ++ b
           ++ "  layout_type = " ++ dq ++ l ++ dq ++ nl ++ a)
    with ((resource_text " " "datadog_dashboard" " " name ++ " {") ++ nl
          ++ ("  title       = " ++ dq ++ escape_chars title ++ dq) ++ nl ++ b
          ++ "  layout_type = " ++ dq ++ l ++ dq ++ nl ++ a)
    by (rewrite !string_app_assoc; reflexivity).
  rewrite (split_lines_line _ _ Hh), (split_lines_line _ _ Ht).
  rewrite unclosed_strings_cons. apply in_or_app. right.
  rewrite unclosed_strings_cons. apply in_or_app. left.
  cbn [unclosed_strings]. rewrite title_line_code.
  rewrite (count_quotes_literal "  title       = " title _ eq_refl
             (escapeHCLString_string title)).
  rewrite Hb. left. reflexivity.
Qed.

(** *** What the passes can report *)

Ltac one_or_none tac :=
  match goal with
  | |- Forall _ (if ?c then _ else _) =>
      destruct c; [apply Forall_cons; [tac | apply Forall_nil] | apply Forall_nil]
  end.

Lemma resource_findings_titles (m : string) :
  Forall (fun i => issue_title i = "Invalid resource type"
                   \/ issue_title i = "Invalid resource name")
    (resource_findings m).
Proof.
  unfold resource_findings.
  destruct (search resource_here m) as [[[t n] r]|]; [|constructor].
  apply Forall_app. split.
  - one_or_none ltac:(left; reflexivity).
  - one_or_none ltac:(right; reflexivity).
Qed.

Lemma duplicate_findings_titles (matches : list string) :
  forall resourceNames found,
    duplicate_findings resourceNames matches = Ok found ->
    Forall (fun i => issue_title i = "Duplicate resource name") found.
Proof.
  induction matches as [|m rest IH]; intros seen found H.
  - cbn in H. inversion H. constructor.
  - cbn [duplicate_findings] in H.
    destruct (search resource_here m) as [[[t n] r]|]; [|discriminate].
    destruct (existsb (String.eqb n) seen); [|exact (IH _ _ H)].
    apply bind_inv in H. destruct H as [f [Hf H]]. inversion H.
    constructor; [reflexivity | exact (IH _ _ Hf)].
Qed.

Lemma structure_of_generated (widgetMappings dashboardData : value)
    (out : string) :
  generateHCL widgetMappings dashboardData = Ok out ->
  exists t name others duplicates,
    get dashboardData "title" = Ok t
    /\ generateResourceName (or_else t (JStr "imported_dashboard")) false
       = Ok name
    /\ run_of not_quote name = true
    /\ Forall (fun i => issue_title i = "Duplicate resource name") duplicates
    /\ validateTerraformStructure out
       = Ok ((if negb (test_at_start validResourceName name)
              then [ invalid_resource_name "datadog_dashboard" name ]
              else [])
             ++ flat_map resource_findings others ++ duplicates)%list.
Proof.
  intros H.
  destruct (generated_first_match _ _ _ H) as [t [name [others [Ht [Hn [Hm Hi]]]]]].
  destruct (generated_name_run _ _ Hn) as [Hrun _].
  destruct (validateTerraformStructure_returns out) as [fs Hfs].
  unfold validateTerraformStructure in *. rewrite Hi in *. cbn [negb] in *.
  cbn zeta in *.
  destruct (duplicate_findings [] (match_all resource_end out))
    as [dups|e] eqn:Hd; [|discriminate].
  exists t, name, others, dups. repeat (split; [assumption|]).
  split; [exact (duplicate_findings_titles _ _ _ Hd)|].
  cbn [bind]. rewrite Hm. cbn [flat_map].
  assert (Hs : search resource_here
                 (resource_text " " "datadog_dashboard" " " name)
               = Some ("datadog_dashboard", name, "")).
  { apply search_here.
    rewrite <- (string_app_nil_r (resource_text _ _ _ _)).
    apply resource_here_app; try reflexivity. exact Hrun. }
  unfold resource_findings at 1. rewrite Hs.
  change (test_at_start validResourceType "datadog_dashboard") with true.
  cbn [negb app]. rewrite <- app_assoc. reflexivity.
Qed.

Lemma each_match_Forall {A : Type} (here : string -> option A)
    (finding : A -> list issue) (Q : issue -> Prop) (matches : list string) :
  (forall groups, Forall Q (finding groups)) ->
  forall found, each_match here finding matches = Ok found -> Forall Q found.
Proof.
  intros HQ. induction matches as [|m rest IH]; intros found H.
  - cbn in H. inversion H. constructor.
  - cbn [each_match] in H. destruct (search here m) as [g|]; [|discriminate].
    apply bind_inv in H. destruct H as [f [Hf H]]. inversion H.
    apply Forall_app. split; [apply HQ | exact (IH _ Hf)].
Qed.

Lemma field_found (field blanks before rest : string) :
  string_forallb is_space blanks = true ->
  test (fieldPattern field) (before ++ field ++ blanks ++ "=" ++ rest) = true.
Proof.
  intros Hb. apply test_suffix. unfold test_at_start, fieldPattern.
  rewrite rmatch_Seq, (rmatch_Lit_i field field _ _ eq_refl), rmatch_Seq.
  unfold ws.
  rewrite (star_chr_greedy is_space blanks ("=" ++ rest) _ tt Hb eq_refl);
    [reflexivity|].
  change ("=" ++ rest) with ("=" ++ rest). rewrite rmatch_Lit. reflexivity.
Qed.

Lemma provider_of_generated (widgetMappings dashboardData : value)
    (out : string) :
  generateHCL widgetMappings dashboardData = Ok out ->
  exists provider,
    validateDatadogProvider out = Ok provider /\ Forall other_finding provider.
Proof.
  intros H.
  destruct (generateHCL_head _ _ _ H)
    as [t [name [title [l [b [a [_ [_ [_ Hout]]]]]]]]].
  destruct (validateDatadogProvider_returns out) as [provider Hp].
  exists provider. split; [exact Hp|].
  unfold validateDatadogProvider in Hp. cbn zeta in Hp.
  assert (T1 : test (fieldPattern "title") out = true).
  { rewrite Hout.
    replace (resource_text " " "datadog_dashboard" " " name ++ " {" ++ nl
             ++ "  title       = " ++ title ++ nl ++ b
             ++ "  layout_type = " ++ dq ++ l ++ dq ++ nl ++ a)
      with ((resource_text " " "datadog_dashboard" " " name ++ " {" ++ nl
             ++ "  ")
            ++ "title" ++ "       " ++ "="
            ++ (" " ++ title ++ nl ++ b
                ++ "  layout_type = " ++ dq ++ l ++ dq ++ nl ++ a))
      by (rewrite !string_app_assoc; reflexivity).
    apply field_found. reflexivity. }
  assert (T2 : test (fieldPattern "layout_type") out = true).
  { rewrite Hout.
    replace (resource_text " " "datadog_dashboard" " " name ++ " {" ++ nl
             ++ "  title       = " ++ title ++ nl ++ b
             ++ "  layout_type = " ++ dq ++ l ++ dq ++ nl ++ a)
      with ((resource_text " " "datadog_dashboard" " " name ++ " {" ++ nl
             ++ "  title       = " ++ title ++ nl ++ b ++ "  ")
            ++ "layout_type" ++ " " ++ "="
            ++ (" " ++ dq ++ l ++ dq ++ nl ++ a))
      by (rewrite !string_app_assoc; reflexivity).
    apply field_found. reflexivity. }
  unfold required_dashboard_fields in Hp. cbn [flat_map] in Hp.
  rewrite T1, T2 in Hp. cbn [negb app] in Hp.
  apply bind_inv in Hp. destruct Hp as [ws [Hws Hp]].
  apply bind_inv in Hp. destruct Hp as [qs [Hqs Hp]].
  apply bind_inv in Hp. destruct Hp as [cs [Hcs Hp]].
  inversion Hp. clear Hp.
  repeat (apply Forall_app; split).
  1: { destruct (search layout_type_here out); [|constructor].
       one_or_none ltac:(left; reflexivity). }
  1: { apply (each_match_Forall _ _ other_finding _) in Hws; [exact Hws|].
       intros g. one_or_none ltac:(right; discriminate). }
  1: { apply (each_match_Forall _ _ other_finding _) in Hqs; [exact Hqs|].
       intros g. one_or_none ltac:(right; discriminate). }
  1: { apply (each_match_Forall _ _ other_finding _) in Hcs; [exact Hcs|].
       intros g. one_or_none ltac:(right; discriminate). }
  all: first [ one_or_none ltac:(right; discriminate) | apply Forall_nil ].
Qed.

End GeneratedText.

(** X13: the generator can name a resource so that its own validator
    rejects the text.  When the resource name derived from the title
    begins with a digit, the generated text has the name in its
    resource line, and the structure pass reports it as an invalid
    resource name (a name must start with a letter): the result of the
    validation is invalid. *)
Theorem X13_digit_name_rejected (widgetMappings : value)
    (props : list (string * value)) (title name out : string) :
  lookup "title" props = Some (JStr title) ->
  generateResourceName (JStr title) false = Ok name ->
  starts_with_digit name = true ->
  generateHCL widgetMappings (JObj props) = Ok out ->
  exists result,
    runHCLValidation out = Ok result
    /\ isValid result = false
    /\ In (mkIssue error "Invalid resource name"
             ("Resource name " ++ dq ++ name ++ dq
              ++ " is not valid. Must start with a letter and contain only letters, numbers, hyphens, and underscores.")
             None ("Resource: datadog_dashboard." ++ name))
         (result_issues result).
Proof.
  intros Hl Hn Hd H.
  destruct (structure_of_generated _ _ _ H)
    as [t [name' [others [dups [Ht [Hn' [_ [_ Hs]]]]]]]].
  cbn [get] in Ht. rewrite Hl in Ht. inversion Ht. subst t. clear Ht.
  rewrite title_name, Hn in Hn'. inversion Hn'. subst name'. clear Hn'.
  rewrite (digit_name_invalid name Hd) in Hs. cbn [negb app] in Hs.
  destruct (runHCLValidation_returns out) as [s [p [Hs' [Hp Hr]]]].
  rewrite Hs in Hs'. inversion Hs'. subst s. clear Hs'.
  eexists. split; [exact Hr|].
  assert (Hin : In (invalid_resource_name "datadog_dashboard" name)
                  (result_issues
                     (performHCLValidation
                        (fun _ =>
                           invalid_resource_name "datadog_dashboard" name
                           :: (flat_map resource_findings others ++ dups)%list)
                        (fun _ => p) validateBestPractices out))).
  { unfold performHCLValidation. cbn [result_issues].
    apply in_or_app. left. apply in_or_app. left. apply in_or_app. right.
    left. reflexivity. }
  split; [exact (error_invalid _ _ _ _ _ Hin eq_refl) | exact Hin].
Qed.

Lemma X13_digit_name_rejected_witness :
  let props := [("title", JStr "2024 Overview")] in
  exists out result,
    generateHCL fallbackWidgetMappings (JObj props) = Ok out
    /\ runHCLValidation out = Ok result
    /\ isValid result = false.
Proof.
  intros props.
  destruct (X13_digit_name_rejected fallbackWidgetMappings props
              "2024 Overview" "2024_overview"
              (match generateHCL fallbackWidgetMappings (JObj props) with
               | Ok s => s
               | Throw _ => ""
               end)
              eq_refl eq_refl eq_refl eq_refl) as [result [Hr [Hv _]]].
  eexists. exists result. split; [reflexivity|]. split; [exact Hr | exact Hv].
Defined.

(** X14: a title that ends in a backslash yields a text the validator
    rejects.  The title line is well formed, but its closing quote
    follows the escaped backslash, so the syntax pass reports an
    unclosed string literal on line 2 and the result of the validation
    is invalid. *)
Theorem X14_backslash_title_rejected (widgetMappings : value)
    (props : list (string * value)) (title out : string) :
  lookup "title" props = Some (JStr title) ->
  ends_with_backslash title = true ->
  generateHCL widgetMappings (JObj props) = Ok out ->
  exists result,
    runHCLValidation out = Ok result
    /\ isValid result = false
    /\ In (mkIssue error "Unclosed string literal"
             "String literal is not properly closed with matching quotes."
             (Some 2) "Line 2")
         (result_issues result).
Proof.
  intros Hl Hb H.
  pose proof (backslash_title_unclosed _ _ _ _ Hl Hb H) as Hin.
  destruct (runHCLValidation_returns out) as [s [p [_ [_ Hr]]]].
  eexists. split; [exact Hr|].
  assert (Hin' : In (unclosed_at 2)
                   (result_issues
                      (performHCLValidation (fun _ => s) (fun _ => p)
                         validateBestPractices out))).
  { unfold performHCLValidation. cbn [result_issues].
    apply in_or_app. left. apply in_or_app. left. apply in_or_app. left.
    exact Hin. }
  split; [exact (error_invalid _ _ _ _ _ Hin' eq_refl) | exact Hin'].
Qed.

Lemma X14_backslash_title_rejected_witness :
  let props := [("title", JStr ("Logs in C:" ++ chr 92))] in
  exists out result,
    generateHCL fallbackWidgetMappings (JObj props) = Ok out
    /\ runHCLValidation out = Ok result
    /\ isValid result = false.
Proof.
  intros props.
  destruct (X14_backslash_title_rejected fallbackWidgetMappings props
              ("Logs in C:" ++ chr 92)
              (match generateHCL fallbackWidgetMappings (JObj props) with
               | Ok s => s
               | Throw _ => ""
               end)
              eq_refl eq_refl eq_refl) as [result [Hr [Hv _]]].
  eexists. exists result. split; [reflexivity|]. split; [exact Hr | exact Hv].
Defined.

(** X15: the generated text has what the validator requires of a
    dashboard.  The structure pass finds the dashboard resource in it,
    and the provider pass finds the title and the layout type: neither
    a missing dashboard resource nor a missing required field is
    reported on a text the generator returned. *)
Theorem X15_generated_text_required (widgetMappings dashboardData : value)
    (out : string) :
  generateHCL widgetMappings dashboardData = Ok out ->
  exists structure provider,
    validateTerraformStructure out = Ok structure
    /\ validateDatadogProvider out = Ok provider
    /\ ~ In (mkIssue error "Missing dashboard resource"
               "HCL must contain a datadog_dashboard resource block."
               None "Overall structure") structure
    /\ (forall field, ~ In (missing_field field) provider).
Proof.
  intros H.
  destruct (structure_of_generated _ _ _ H)
    as [t [name [others [dups [_ [_ [_ [Hd Hs]]]]]]]].
  destruct (provider_of_generated _ _ _ H) as [provider [Hp Hq]].
  eexists. exists provider. split; [exact Hs|]. split; [exact Hp|]. split.
  - intros Hin. apply in_app_or in Hin. destruct Hin as [Hin|Hin].
    + destruct (negb _); [|contradiction].
      destruct Hin as [Hin|[]]. discriminate Hin.
    + apply in_app_or in Hin. destruct Hin as [Hin|Hin].
      * apply in_flat_map in Hin. destruct Hin as [m [_ Hin]].
        pose proof (resource_findings_titles m) as Ht.
        rewrite Forall_forall in Ht. destruct (Ht _ Hin); discriminate.
      * rewrite Forall_forall in Hd. specialize (Hd _ Hin). discriminate.
  - intros field Hin.
    rewrite Forall_forall in Hq. destruct (Hq _ Hin) as [Ht|Hs'].
    + discriminate Ht.
    + apply Hs'. reflexivity.
Qed.

Lemma X15_generated_text_required_witness :
  exists out structure provider,
    generateHCL fallbackWidgetMappings sampleDashboard = Ok out
    /\ validateTerraformStructure out = Ok structure
    /\ validateDatadogProvider out = Ok provider
    /\ (forall field, ~ In (missing_field field) provider).
Proof.
  destruct (X15_generated_text_required fallbackWidgetMappings sampleDashboard
              (match generateHCL fallbackWidgetMappings sampleDashboard with
               | Ok s => s
               | Throw _ => ""
               end) eq_refl) as [structure [provider [Hs [Hp [_ Hf]]]]].
  eexists. exists structure, provider.
  split; [reflexivity|]. repeat (split; [assumption|]). exact Hf.
Defined.

(** ** The dashboard id, and texts without a dashboard *)

Section IdIgnored.

Variables props1 props2 : list (string * value).
Hypothesis same_but_id :
  forall k, k <> "id" -> lookup k props1 = lookup k props2.

Lemma get_same (k : string) :
  k <> "id" -> get (JObj props1) k = get (JObj props2) k.
Proof. intros Hk. cbn [get]. rewrite (same_but_id k Hk). reflexivity. Qed.

Lemma hasOwnProperty_same (k : string) :
  k <> "id" -> hasOwnProperty (JObj props1) k = hasOwnProperty (JObj props2) k.
Proof.
  intros Hk. unfold hasOwnProperty, has_own.
  rewrite (get_same "hasOwnProperty") by discriminate.
  rewrite (same_but_id k Hk). reflexivity.
Qed.

Lemma generateHCL_id_ignored (widgetMappings : value) :
  generateHCL widgetMappings (JObj props1)
  = generateHCL widgetMappings (JObj props2).
Proof.
  unfold generateHCL.
  rewrite (get_same "title") by discriminate.
  rewrite (get_same "description") by discriminate.
  rewrite (get_same "layout_type") by discriminate.
  rewrite (get_same "reflow_type") by discriminate.
  rewrite (get_same "notify_list") by discriminate.
  rewrite (get_same "is_read_only") by discriminate.
  rewrite (get_same "url") by discriminate.
  rewrite (get_same "tags") by discriminate.
  rewrite (get_same "template_variables") by discriminate.
  rewrite (get_same "widgets") by discriminate.
  rewrite (hasOwnProperty_same "description") by discriminate.
  rewrite (hasOwnProperty_same "notify_list") by discriminate.
  reflexivity.
Qed.

End IdIgnored.

(** X16: the dashboard id never reaches the text.  [generateHCL] reads
    the id into a variable it does not use: two documents that agree on
    every property but the id yield the same text, or raise the same
    exception. *)
Theorem X16_id_ignored (widgetMappings : value)
    (props1 props2 : list (string * value)) :
  (forall k, k <> "id" -> lookup k props1 = lookup k props2) ->
  generateHCL widgetMappings (JObj props1)
  = generateHCL widgetMappings (JObj props2).
Proof. intros H. apply generateHCL_id_ignored. exact H. Qed.

Lemma X16_id_ignored_witness :
  generateHCL fallbackWidgetMappings
    (JObj [("id", JStr "abc-123-def"); ("title", JStr "CPU")])
  = generateHCL fallbackWidgetMappings (JObj [("title", JStr "CPU")]).
Proof.
  apply (X16_id_ignored fallbackWidgetMappings
           [("id", JStr "abc-123-def"); ("title", JStr "CPU")]
           [("title", JStr "CPU")]).
  intros k Hk. cbn [lookup].
  destruct (String.eqb_spec "id" k) as [E|_]; [|reflexivity].
  symmetry in E. contradiction.
Defined.

(** X17: a text that does not hold the word resource, one blank and the
    quoted type datadog_dashboard, as written, is reported as lacking
    the dashboard resource, even where the resource pattern would match
    (with two blanks, say).  The finding is an error, so the result is
    invalid, and it is the only finding of the structure pass: the
    resources of the text are not looked at. *)
Theorem X17_missing_resource (hclContent : string) :
  let missing :=
    mkIssue error "Missing dashboard resource"
      "HCL must contain a datadog_dashboard resource block."
      None "Overall structure" in
  includes ("resource " ++ dq ++ "datadog_dashboard" ++ dq) hclContent = false ->
  validateTerraformStructure hclContent = Ok [missing]
  /\ exists result,
       runHCLValidation hclContent = Ok result
       /\ isValid result = false
       /\ In missing (result_issues result).
Proof.
  cbn zeta. intros H.
  assert (Hs : validateTerraformStructure hclContent
               = Ok [ mkIssue error "Missing dashboard resource"
                        "HCL must contain a datadog_dashboard resource block."
                        None "Overall structure" ]).
  { unfold validateTerraformStructure. rewrite H. reflexivity. }
  split; [exact Hs|].
  destruct (runHCLValidation_returns hclContent) as [s [p [Hs' [_ Hr]]]].
  rewrite Hs in Hs'. inversion Hs'. subst s. clear Hs'.
  eexists. split; [exact Hr|].
  match goal with
  | |- _ /\ In ?i (result_issues ?r) =>
      assert (Hin : In i (result_issues r))
  end.
  { unfold performHCLValidation. cbn [result_issues].
    apply in_or_app. left. apply in_or_app. left. apply in_or_app. right.
    left. reflexivity. }
  split; [exact (error_invalid _ _ _ _ _ Hin eq_refl) | exact Hin].
Qed.

Lemma X17_missing_resource_witness :
  let text :=
    "resource  " ++ dq ++ "datadog_dashboard" ++ dq ++ " " ++ dq ++ "cpu" ++ dq
    ++ " {" ++ nl ++ "  title = " ++ dq ++ "CPU" ++ dq ++ nl ++ "}" ++ nl in
  resource_end text = Some (" {" ++ nl ++ "  title = " ++ dq ++ "CPU" ++ dq
                            ++ nl ++ "}" ++ nl)
  /\ exists result,
       runHCLValidation text = Ok result /\ isValid result = false.
Proof.
  intros text. split; [reflexivity|].
  destruct (X17_missing_resource text eq_refl) as [_ [result [Hr [Hv _]]]].
  exists result. split; [exact Hr | exact Hv].
Defined.

Section LayoutType.

Lemma generateHCL_layout (widgetMappings dashboardData : value)
    (out : string) :
  generateHCL widgetMappings dashboardData = Ok out ->
  exists lt layout before after,
    get dashboardData "layout_type" = Ok lt
    /\ ToString (or_else lt (JStr "ordered")) = Ok layout
    /\ out = before ++ "  layout_type = " ++ dq ++ layout ++ dq ++ nl ++ after.
Proof.
  unfold generateHCL. intros H.
  apply bind_inv in H. destruct H as [t [_ H]].
  apply bind_inv in H. destruct H as [title [_ H]].
  apply bind_inv in H. destruct H as [d [_ H]].
  apply bind_inv in H. destruct H as [description [_ H]].
  apply bind_inv in H. destruct H as [lt [Hlt H]].
  cbn zeta in H.
  apply bind_inv in H. destruct H as [name [_ H]].
  apply cat_cons_inv in H. destruct H as [s1 [t1 [_ [H ->]]]].
  apply cat_cons_inv in H. destruct H as [s2 [t2 [_ [H ->]]]].
  apply cat_cons_inv in H. destruct H as [s3 [t3 [_ [H ->]]]].
  apply cat_cons_inv in H. destruct H as [s4 [t4 [_ [H ->]]]].
  apply cat_cons_inv in H. destruct H as [s5 [t5 [H5 [_ ->]]]].
  apply bind_inv in H5. destruct H5 as [l [Hl H5]].
  injection H5 as <-.
  exists lt, l, (s1 ++ s2 ++ s3 ++ s4), t5.
  split; [exact Hlt|]. split; [exact Hl|].
  unfold dq, nl, chr.
  repeat first [rewrite string_app_assoc | progress cbn [append]].
  reflexivity.
Qed.

End LayoutType.

(** X19: the layout type reaches the text as it is.  Unlike the title,
    which goes through the value formatter, a layout type that is a
    string is spliced between two quotes without escaping: whatever it
    holds, a quote or a line break included, stands in the text
    unchanged. *)
Theorem X19_layout_type_raw (widgetMappings : value)
    (props : list (string * value)) (layoutType out : string) :
  lookup "layout_type" props = Some (JStr layoutType) ->
  layoutType <> "" ->
  generateHCL widgetMappings (JObj props) = Ok out ->
  exists before after,
    out = before ++ "  layout_type = " ++ dq ++ layoutType ++ dq ++ nl
          ++ after.
Proof.
  intros Hl Hne H.
  destruct (generateHCL_layout _ _ _ H) as [lt [l [b [a [Hlt [Hs ->]]]]]].
  cbn [get] in Hlt. rewrite Hl in Hlt. injection Hlt as <-.
  assert (Ho : or_else (JStr layoutType) (JStr "ordered") = JStr layoutType)
    by (destruct layoutType; [contradiction | reflexivity]).
  rewrite Ho in Hs. cbn [ToString] in Hs. injection Hs as <-.
  exists b, a. reflexivity.
Qed.

Lemma X19_layout_type_raw_witness :
  let layoutType := "free" ++ dq ++ nl ++ "  url = " ++ dq ++ "x" in
  let props := [("title", JStr "CPU"); ("layout_type", JStr layoutType)] in
  exists out before after,
    generateHCL fallbackWidgetMappings (JObj props) = Ok out
    /\ out = before ++ "  layout_type = " ++ dq ++ layoutType ++ dq ++ nl
             ++ after.
Proof.
  intros layoutType props.
  destruct (X19_layout_type_raw fallbackWidgetMappings props layoutType
              (match generateHCL fallbackWidgetMappings (JObj props) with
               | Ok s => s
               | Throw _ => ""
               end) eq_refl) as [before [after H]].
  - discriminate.
  - reflexivity.
  - eexists. exists before, after. split; [reflexivity | exact H].
Defined.

(** ** JSON text *)

Section JsonText.

Lemma no_control_app (a b : string) :
  no_control a = true -> no_control b = true -> no_control (a ++ b) = true.
Proof.
  unfold no_control. induction a as [|c a IH]; intros Ha Hb; [exact Hb|].
  cbn [append string_forallb] in *. apply andb_true_iff in Ha.
  rewrite (proj1 Ha), (IH (proj2 Ha) Hb). reflexivity.
Qed.

Lemma no_control_concat (sep : string) (l : list string) :
  no_control sep = true -> Forall (fun s => no_control s = true) l ->
  no_control (String.concat sep l) = true.
Proof.
  intros Hs H. induction H as [|x rest Hx Hrest IH]; [reflexivity|].
  cbn [String.concat]. destruct rest as [|y rest']; [exact Hx|].
  apply no_control_app; [exact Hx|]. apply no_control_app; [exact Hs | exact IH].
Qed.

Lemma no_control_uint (d : Decimal.uint) :
  no_control (NilEmpty.string_of_uint d) = true.
Proof. induction d; cbn [NilEmpty.string_of_uint]; try reflexivity; exact IHd. Qed.

Lemma no_control_uint0 (d : Decimal.uint) :
  no_control (NilZero.string_of_uint d) = true.
Proof.
  unfold NilZero.string_of_uint.
  destruct d; first [reflexivity | apply no_control_uint].
Qed.

Lemma no_control_Z (n : Z) : no_control (Z_to_string n) = true.
Proof.
  unfold Z_to_string, NilZero.string_of_int.
  destruct (Z.to_int n) as [d|d]; [apply no_control_uint0|].
  apply (no_control_app "-" _ eq_refl). apply no_control_uint0.
Qed.

Lemma no_control_quote_char (a : ascii) :
  no_control (quote_json_char a) = true.
Proof. destruct a as [[] [] [] [] [] [] [] []]; vm_compute; reflexivity. Qed.

Lemma no_control_quote (s : string) : no_control (QuoteJSONString s) = true.
Proof.
  unfold QuoteJSONString.
  apply no_control_app; [reflexivity|]. apply no_control_app; [|reflexivity].
  induction s as [|a r IH]; [reflexivity|].
  cbn [quote_json_body]. apply no_control_app; [apply no_control_quote_char|].
  exact IH.
Qed.

Lemma serialize_array (l : list value) :
  SerializeJSONProperty "" "" (JArr l)
  = Some (match map json_item l with
          | [] => "[]"
          | _ :: _ => "[" ++ String.concat "," (map json_item l) ++ "]"
          end).
Proof.
  cbn [SerializeJSONProperty append String.eqb].
  match goal with
  | |- Some (match ?p with [] => _ | _ :: _ => _ end) = _ =>
      assert (Hp : p = map json_item l)
        by (clear; induction l as [|x r IHl];
            [reflexivity | cbn [map]; rewrite <- IHl; reflexivity])
  end.
  rewrite Hp. reflexivity.
Qed.

Lemma serialize_object (props : list (string * value)) :
  SerializeJSONProperty "" "" (JObj props)
  = Some (match json_members props with
          | [] => "{}"
          | _ :: _ => "{" ++ String.concat "," (json_members props) ++ "}"
          end).
Proof.
  cbn [SerializeJSONProperty append String.eqb].
  match goal with
  | |- Some (match ?p with [] => _ | _ :: _ => _ end) = _ =>
      assert (Hp : p = json_members props)
        by (clear; induction props as [|[k x] r IHl];
            [reflexivity
            | cbn [json_members]; rewrite <- IHl;
              destruct (SerializeJSONProperty "" "" x); reflexivity])
  end.
  rewrite Hp. reflexivity.
Qed.

Lemma one_line_value (v : value) : one_line v.
Proof.
  induction v using value_induction; intros out E.
  - discriminate.
  - inversion E. reflexivity.
  - destruct b; inversion E; reflexivity.
  - inversion E. apply no_control_Z.
  - inversion E. apply no_control_quote.
  - discriminate.
  - rewrite serialize_array in E. injection E as <-.
    assert (Hp : Forall (fun s => no_control s = true) (map json_item l)).
    { induction H as [|x rest Hx _ IH]; [constructor|].
      cbn [map]. constructor; [|exact IH]. unfold json_item.
      destruct (SerializeJSONProperty "" "" x) as [sx|] eqn:Ex;
        [exact (Hx sx Ex) | reflexivity]. }
    destruct (map json_item l) as [|y ys]; [reflexivity|].
    refine (no_control_app "[" _ eq_refl _).
    refine (no_control_app _ "]" _ eq_refl).
    apply no_control_concat; [reflexivity | exact Hp].
  - rewrite serialize_object in E. injection E as <-.
    assert (Hp : Forall (fun s => no_control s = true) (json_members props)).
    { induction H as [|[k x] rest Hx _ IH]; [constructor|].
      cbn [snd] in Hx. cbn [json_members].
      destruct (SerializeJSONProperty "" "" x) as [sx|] eqn:Ex; [|exact IH].
      constructor; [|exact IH].
      refine (no_control_app _ _ (no_control_quote k) _).
      refine (no_control_app ":" _ eq_refl _). exact (Hx sx Ex). }
    destruct (json_members props) as [|y ys]; [reflexivity|].
    refine (no_control_app "{" _ eq_refl _).
    refine (no_control_app _ "}" _ eq_refl).
    apply no_control_concat; [reflexivity | exact Hp].
Qed.

End JsonText.

